(** * libfm_python: the Gibbs sampler of a Bayesian factorization machine

    Shallow embedding of [libfm_sparse_v1.py] (classes [libFM],
    [MCMC_learn], [Data], [DataMetaInfo]) and the properties of its
    interaction cache, coordinate draws and prediction aggregation.

    Numbers.  The program computes with numpy [float64].  The embedding is
    written once over an interface of scalar operations ([RingOps],
    [Scalar]) and used at two instances:
    - [binary64], IEEE 754 double precision as specified by the Standard
      Library's [SpecFloat] (infinities, NaN and rounding included), for
      running the program on concrete inputs;
    - [Qc], the rational numbers in lowest terms, an exact arithmetic
      that computes, for the algebraic properties.
    Properties that need arithmetic laws take them as hypotheses.

    Effects.  Python methods mutate [self]; here every method is a function
    from the object's state to a [result] that is either the new state or
    the exception raised.  numpy's global generator is a component of that
    state. *)

From Stdlib Require Import String ZArith List Bool Lia QArith Qcanon Ring.
From Stdlib Require Import Floats.SpecFloat.
Import ListNotations.

Set Implicit Arguments.
Local Open Scope nat_scope.

(** ** Exceptions *)

Inductive exn : Type :=
| AssertionError
| Exception (msg : string)
| ValueError
| IndexError
| ZeroDivisionError.

Inductive result (A : Type) : Type :=
| Ok (a : A)
| Raise (e : exn).

Arguments Ok {A} a.
Arguments Raise {A} e.

Definition bind {A B : Type} (m : result A) (k : A -> result B) : result B :=
  match m with
  | Ok a => k a
  | Raise e => Raise e
  end.

Notation "x <- m ;; k" := (bind m (fun x => k))
  (at level 61, m at next level, right associativity).
Notation "' p <- m ;; k" := (bind m (fun x => let p := x in k))
  (at level 61, p pattern, m at next level, right associativity).

(** [assert(b)] *)
Definition py_assert (b : bool) : result unit :=
  if b then Ok tt else Raise AssertionError.

(** ** Scalars *)

(** The operations of [+ - *], unary minus and the literals [0], [1.0],
    [0.5], and the test [x != 0] (true of a NaN, false of both zeros) by
    which scipy decides whether a product of two sparse matrices stores
    an entry: all that the full recompute of the cache needs. *)
Class RingOps (num : Type) : Type := {
  zero : num;
  one : num;
  half : num;
  add : num -> num -> num;
  sub : num -> num -> num;
  mul : num -> num -> num;
  opp : num -> num;
  nonzero : num -> bool
}.

(** The remaining float operations of the program: [/], [np.sqrt],
    [np.absolute], [<], [np.isinf], [np.isnan], [np.signbit] (by which
    [np.random.normal] refuses a scale) and the conversion of a Python int
    to a float. *)
Class Scalar (num : Type) : Type := {
  scalar_ring :: RingOps num;
  div : num -> num -> num;
  sqrt : num -> num;
  fabs : num -> num;
  ltb : num -> num -> bool;
  isinf : num -> bool;
  isnan : num -> bool;
  signbit : num -> bool;
  of_Z : Z -> num
}.

(** [float("inf")], which only [Data.__init__] uses. *)
Class HasInf (num : Type) : Type := { inf : num }.

(** numpy's global pseudo-random generator, [rng] being the type of its
    states: [np.random.seed], [np.random.randn()] and
    [np.random.gamma(shape, scale)] on scalars.  A draw returns the variate
    and the generator's next state. *)
Class RandomState (num rng : Type) : Type := {
  np_random_seed : Z -> rng;
  np_random_randn : rng -> num * rng;
  np_random_gamma : num -> num -> rng -> num * rng
}.

Declare Scope num_scope.
Delimit Scope num_scope with num.
Notation "a + b" := (add a b) : num_scope.
Notation "a - b" := (sub a b) : num_scope.
Notation "a * b" := (mul a b) : num_scope.
Notation "a / b" := (div a b) : num_scope.
Notation "- a" := (opp a) : num_scope.
Notation "a <? b" := (ltb a b) : num_scope.

(** *** IEEE 754 binary64 *)

Module B64.
Definition prec : Z := 53.
Definition emax : Z := 1024.
Definition binary64 : Type := spec_float.

Definition of_Z (z : Z) : binary64 := binary_normalize prec emax z 0 false.
Definition nan : binary64 := S754_nan.
Definition pinf : binary64 := S754_infinity false.
Definition is_inf (x : binary64) : bool :=
  match x with S754_infinity _ => true | _ => false end.
Definition is_nan (x : binary64) : bool :=
  match x with S754_nan => true | _ => false end.
(** the double nearest to the quotient [n / d] of two integers *)
Definition ratio (n d : Z) : binary64 := SFdiv prec emax (of_Z n) (of_Z d).
Definition finite (x : binary64) : bool := negb (is_inf x) && negb (is_nan x).
(** [lo <= x <= hi] *)
Definition within (lo hi x : binary64) : bool := SFleb lo x && SFleb x hi.
(** the sign bit; [SpecFloat] has one NaN, taken as the positive one *)
Definition signbit (x : binary64) : bool :=
  match x with
  | S754_zero s | S754_infinity s | S754_finite s _ _ => s
  | S754_nan => false
  end.
End B64.

#[export] Instance binary64_ring : RingOps B64.binary64 := {
  zero := S754_zero false;
  one := B64.of_Z 1;
  half := B64.ratio 1 2;
  add := SFadd B64.prec B64.emax;
  sub := SFsub B64.prec B64.emax;
  mul := SFmul B64.prec B64.emax;
  opp := SFopp;
  nonzero := fun x => negb (SFeqb x (S754_zero false))
}.

#[export] Instance binary64_scalar : Scalar B64.binary64 := {
  div := SFdiv B64.prec B64.emax;
  sqrt := SFsqrt B64.prec B64.emax;
  fabs := SFabs;
  ltb := SFltb;
  isinf := B64.is_inf;
  isnan := B64.is_nan;
  signbit := B64.signbit;
  of_Z := B64.of_Z
}.

#[export] Instance binary64_inf : HasInf B64.binary64 := { inf := B64.pinf }.

(** *** Rational numbers

    Exact arithmetic.  The square root is the one of the numerator over
    the one of the denominator, each rounded down: exact on the squares of
    rationals, an approximation elsewhere, as every square root on a
    type of numbers without irrationals is. *)

Module Rat.
Definition of_Z (z : Z) : Qc := Q2Qc (inject_Z z).
Definition ltb (a b : Qc) : bool :=
  match Qccompare a b with Lt => true | _ => false end.
Definition sqrt (a : Qc) : Qc :=
  Q2Qc (Qmake (Z.sqrt (Qnum a)) (Pos.sqrt (Qden a))).
Definition fabs (a : Qc) : Qc := if ltb a (of_Z 0) then Qcopp a else a.
End Rat.

#[export] Instance Qc_ring : RingOps Qc := {
  zero := Rat.of_Z 0;
  one := Rat.of_Z 1;
  half := Q2Qc (Qmake 1 2);
  add := Qcplus;
  sub := Qcminus;
  mul := Qcmult;
  opp := Qcopp;
  nonzero := fun x => negb (Qeq_bool x (inject_Z 0))
}.

#[export] Instance Qc_scalar : Scalar Qc := {
  div := Qcdiv;
  sqrt := Rat.sqrt;
  fabs := Rat.fabs;
  ltb := Rat.ltb;
  isinf := fun _ => false;
  isnan := fun _ => false;
  signbit := fun x => Rat.ltb x (Rat.of_Z 0);
  of_Z := Rat.of_Z
}.

(** ** numpy arrays and scipy sparse matrices *)

Section Arrays.
Context {num : Type} {RO : RingOps num}.
Local Open Scope num_scope.

(** [np.zeros(n)] *)
Definition np_zeros (n : nat) : list num := repeat zero n.

(** [np.zeros_like(a)] *)
Definition np_zeros_like (a : list num) : list num := np_zeros (length a).

(** [np.sum(a)] *)
Definition np_sum (a : list num) : num := fold_left add a zero.

Fixpoint map2 (f : num -> num -> num) (a b : list num) : list num :=
  match a, b with
  | x :: a', y :: b' => f x y :: map2 f a' b'
  | _, _ => []
  end.

(** [a op b] on one-dimensional arrays, with numpy's broadcasting: equal
    lengths, or one operand of length 1; any other pair of shapes raises
    [ValueError]. *)
Definition broadcast2 (f : num -> num -> num) (a b : list num)
  : result (list num) :=
  if Nat.eqb (length a) (length b) then Ok (map2 f a b)
  else match a, b with
       | [x], _ => Ok (map (f x) b)
       | _, [y] => Ok (map (fun x => f x y) a)
       | _, _ => Raise ValueError
       end.

(** [a op= b]: the result has the shape of [a]. *)
Definition inplace (f : num -> num -> num) (a b : list num)
  : result (list num) :=
  if Nat.eqb (length a) (length b) then Ok (map2 f a b)
  else match b with
       | [y] => Ok (map (fun x => f x y) a)
       | _ => Raise ValueError
       end.

(** [a[idx]]: IndexError out of range *)
Definition getitem {A : Type} (a : list A) (i : nat) : result A :=
  match nth_error a i with
  | Some x => Ok x
  | None => Raise IndexError
  end.

(** [a[g]] for an index array [g], also [np.take(a, g)] *)
Fixpoint take {A : Type} (a : list A) (g : list nat) : result (list A) :=
  match g with
  | [] => Ok []
  | i :: g' => x <- getitem a i ;; r <- take a g' ;; Ok (x :: r)
  end.

(** [a[i] = x] inside the bounds (the program writes nowhere else) *)
Fixpoint setitem {A : Type} (a : list A) (i : nat) (x : A) : list A :=
  match a, i with
  | [], _ => []
  | _ :: t, O => x :: t
  | h :: t, S i' => h :: setitem t i' x
  end.

(** [y[j] += d] *)
Fixpoint add_at (j : nat) (d : num) (y : list num) : list num :=
  match y, j with
  | [], _ => []
  | h :: t, O => (h + d) :: t
  | h :: t, S j' => h :: add_at j' d t
  end.

(** [np.bincount(g, weights=w)]: one bin per value up to the largest one
    in [g], each holding the sum of the weights that fall into it. *)
Definition np_bincount (g : list nat) (w : list num) : result (list num) :=
  if Nat.eqb (length g) (length w) then
    Ok (fold_left (fun y gw => add_at (fst gw) (snd gw) y) (combine g w)
          (match g with
           | [] => []
           | _ => np_zeros (S (fold_left Nat.max g 0))
           end))
  else Raise ValueError.

(** [np.unique(g)]: the distinct values in increasing order *)
Definition np_unique (g : list nat) : list nat :=
  filter (fun k => existsb (Nat.eqb k) g) (seq 0 (S (fold_left Nat.max g 0))).

(** *** Sparse matrices *)

(** [coo_matrix((values, (rows, cols)), shape)]: the stored entries in
    the order given, duplicates allowed (they add up). *)
Record coo_matrix : Type := {
  shape0 : nat;
  shape1 : nat;
  coo_entries : list (nat * nat * num)
}.

Definition entry_row (e : nat * nat * num) : nat := fst (fst e).
Definition entry_col (e : nat * nat * num) : nat := snd (fst e).
Definition entry_val (e : nat * nat * num) : num := snd e.

Definition in_shape (r c : nat) (e : nat * nat * num) : bool :=
  Nat.ltb (entry_row e) r && Nat.ltb (entry_col e) c.

(** the constructor refuses an index outside the shape *)
Definition coo_matrix_init (entries : list (nat * nat * num)) (r c : nat)
  : result coo_matrix :=
  if forallb (in_shape r c) entries
  then Ok {| shape0 := r; shape1 := c; coo_entries := entries |}
  else Raise ValueError.

(** [M.transpose()] *)
Definition transpose (M : coo_matrix) : coo_matrix :=
  {| shape0 := shape1 M;
     shape1 := shape0 M;
     coo_entries :=
       map (fun e => (entry_col e, entry_row e, entry_val e)) (coo_entries M) |}.

(** [v * M] for a one-dimensional array [v] and a COO matrix [M]: the
    product of the row vector with the matrix, accumulated entry by
    entry (scipy's [coo_matvec] on the transpose). *)
Definition rmatvec (v : list num) (M : coo_matrix) : result (list num) :=
  if Nat.eqb (length v) (shape0 M) then
    Ok (fold_left
          (fun y e => add_at (entry_col e) (entry_val e * nth (entry_row e) v zero) y)
          (coo_entries M) (np_zeros (shape1 M)))
  else Raise ValueError.

(** the value of [M] at (i, j): the sum of the entries stored there *)
Definition at_pos (i j : nat) (e : nat * nat * num) : bool :=
  Nat.eqb (entry_row e) i && Nat.eqb (entry_col e) j.

Definition coo_get (M : coo_matrix) (i j : nat) : num :=
  np_sum (map entry_val (filter (at_pos i j) (coo_entries M))).

Definition stored (M : coo_matrix) (i j : nat) : bool :=
  existsb (at_pos i j) (coo_entries M).

(** A CSR matrix: per row the stored (column, value) pairs, by increasing
    column, no column twice. *)
Record csr_matrix : Type := {
  csr_shape0 : nat;
  csr_shape1 : nat;
  csr_rows : list (list (nat * num))
}.

Definition csr_row_of (M : coo_matrix) (i : nat) : list (nat * num) :=
  flat_map (fun j => if stored M i j then [(j, coo_get M i j)] else [])
           (seq 0 (shape1 M)).

(** [M.tocsr()]: duplicates are summed, explicit zeros stay stored *)
Definition tocsr (M : coo_matrix) : csr_matrix :=
  {| csr_shape0 := shape0 M;
     csr_shape1 := shape1 M;
     csr_rows := map (csr_row_of M) (seq 0 (shape0 M)) |}.

(** [X.getrow(i)] *)
Definition getrow (X : csr_matrix) (i : nat) : result (list (nat * num)) :=
  getitem (csr_rows X) i.

(** the operations on one sparse row [x] (a 1 x N matrix) *)

(** [s * x] *)
Definition row_scale (s : num) (x : list (nat * num)) : list (nat * num) :=
  map (fun p => (fst p, s * snd p)) x.

(** [-x] *)
Definition row_opp (x : list (nat * num)) : list (nat * num) :=
  map (fun p => (fst p, - snd p)) x.

(** [x.data -= np.take(a, x.indices)] *)
Fixpoint row_sub_take (x : list (nat * num)) (a : list num)
  : result (list (nat * num)) :=
  match x with
  | [] => Ok []
  | (c, y) :: x' =>
      e <- getitem a c ;;
      r <- row_sub_take x' a ;;
      Ok ((c, y - e) :: r)
  end.

(** [x.multiply(y)] for two rows with the same stored columns: scipy
    stores a product only if it is not zero ([result != 0] in
    [csr_binop_csr]), so that a NaN is stored and a zero of either sign is
    not. *)
Fixpoint row_multiply (x y : list (nat * num)) : list (nat * num) :=
  match x, y with
  | (c, a) :: x', (_, b) :: y' =>
      if nonzero (a * b) then (c, a * b) :: row_multiply x' y'
      else row_multiply x' y'
  | _, _ => []
  end.

(** [x.sum()] *)
Definition row_sum (x : list (nat * num)) : num := np_sum (map snd x).

(** [x * a] for a row [x] of width [n] and a dense vector [a]: the
    scalar product; scipy refuses an [a] whose length is not [n]. *)
Definition row_dot (n : nat) (x : list (nat * num)) (a : list num)
  : result num :=
  if Nat.eqb n (length a)
  then Ok (np_sum (map (fun p => snd p * nth (fst p) a zero) x))
  else Raise ValueError.

(** the dense value of the row at column [c] *)
Definition row_get (x : list (nat * num)) (c : nat) : num :=
  match find (fun p => Nat.eqb (fst p) c) x with
  | Some p => snd p
  | None => zero
  end.

(** [a -= x] for a dense [a] and a sparse row [x]: scipy subtracts the
    dense form of [x], zero wherever nothing is stored. *)
Definition sub_row (a : list num) (x : list (nat * num)) : list num :=
  map (fun ce => snd ce - row_get x (fst ce)) (combine (seq 0 (length a)) a).

(** [X.multiply(X)] *)
Definition csr_square (X : csr_matrix) : csr_matrix :=
  {| csr_shape0 := csr_shape0 X;
     csr_shape1 := csr_shape1 X;
     csr_rows := map (fun x => row_multiply x x) (csr_rows X) |}.

(** [v * X] for a CSR matrix *)
Definition csr_rmatvec (v : list num) (X : csr_matrix) : result (list num) :=
  if Nat.eqb (length v) (csr_shape0 X) then
    Ok (fold_left
          (fun y ix =>
             fold_left (fun y' p => add_at (fst p) (snd p * fst ix) y')
                       (snd ix) y)
          (combine v (csr_rows X)) (np_zeros (csr_shape1 X)))
  else Raise ValueError.

End Arrays.

Arguments coo_matrix : clear implicits.
Arguments csr_matrix : clear implicits.

(** ** The objects of the program *)

Section Objects.
Context {num : Type}.

(** class [Data]: a parsed libfm file.  [data] has one row per case and
    one column per feature, [data_t] is its transpose (the program always
    asks for it: [has_xt = True]). *)
Record Data : Type := {
  target_value : list num;
  data : coo_matrix num;
  data_t : coo_matrix num;
  num_cases : nat;
  num_feature : nat;
  num_values : nat;
  min_target : num;
  max_target : num
}.

(** class [DataMetaInfo] *)
Record DataMetaInfo : Type := {
  attr_group : list nat;
  num_attr_groups : nat;
  num_attr_per_group : list num
}.

(** the two values of the command line's [-method] *)
Inductive method_name : Type := mcmc | als.

(** class [libFM]: the configuration and the model parameters.  [w0],
    [w] and [v] exist in the Python object only when [k0], [k1] and
    [num_factor > 0] say so, and are read only under the same tests; the
    fields hold [zero] and [[]] otherwise. *)
Record libFM : Type := {
  do_sample : bool;
  do_multilevel : bool;
  num_attribute : nat;
  num_iter : Z;
  init_stdev : num;
  task : string;
  method : method_name;
  k0 : bool;
  k1 : bool;
  num_factor : Z;
  reg0 : num;
  regw : num;
  regv : num;
  seed : option Z;
  w0 : num;
  w : list num;
  v : list (list num)
}.

Definition set_regs (m : libFM) (r0 rw rv : num) : libFM :=
  {| do_sample := do_sample m; do_multilevel := do_multilevel m;
     num_attribute := num_attribute m; num_iter := num_iter m;
     init_stdev := init_stdev m; task := task m; method := method m;
     k0 := k0 m; k1 := k1 m; num_factor := num_factor m;
     reg0 := r0; regw := rw; regv := rv;
     seed := seed m; w0 := w0 m; w := w m; v := v m |}.

Definition set_w0 (m : libFM) (x : num) : libFM :=
  {| do_sample := do_sample m; do_multilevel := do_multilevel m;
     num_attribute := num_attribute m; num_iter := num_iter m;
     init_stdev := init_stdev m; task := task m; method := method m;
     k0 := k0 m; k1 := k1 m; num_factor := num_factor m;
     reg0 := reg0 m; regw := regw m; regv := regv m;
     seed := seed m; w0 := x; w := w m; v := v m |}.

Definition set_w (m : libFM) (x : list num) : libFM :=
  {| do_sample := do_sample m; do_multilevel := do_multilevel m;
     num_attribute := num_attribute m; num_iter := num_iter m;
     init_stdev := init_stdev m; task := task m; method := method m;
     k0 := k0 m; k1 := k1 m; num_factor := num_factor m;
     reg0 := reg0 m; regw := regw m; regv := regv m;
     seed := seed m; w0 := w0 m; w := x; v := v m |}.

Definition set_v (m : libFM) (x : list (list num)) : libFM :=
  {| do_sample := do_sample m; do_multilevel := do_multilevel m;
     num_attribute := num_attribute m; num_iter := num_iter m;
     init_stdev := init_stdev m; task := task m; method := method m;
     k0 := k0 m; k1 := k1 m; num_factor := num_factor m;
     reg0 := reg0 m; regw := regw m; regv := regv m;
     seed := seed m; w0 := w0 m; w := w m; v := x |}.

Context {rng : Type}.

(** class [MCMC_learn].  [cache] and [cache_test] are the two-row arrays
    of the program: the first component is row 0 (the e-terms), the
    second row 1 (the q-terms).  [random] is the state of numpy's global
    generator. *)
Record MCMC_learn : Type := {
  fm : libFM;
  meta : DataMetaInfo;
  self_num_iter : Z;
  num_eval_cases : nat;
  self_min_target : num;
  self_max_target : num;
  train : Data;
  test : Data;
  alpha_0 : num;
  gamma_0 : num;
  beta_0 : num;
  mu_0 : num;
  alpha : num;
  w0_mean_0 : num;
  w_mu : list num;
  w_lambda : list num;
  v_mu : list (list num);
  v_lambda : list (list num);
  pred_sum_all : list num;
  pred_this : list num;
  cache : list num * list num;
  cache_test : list num * list num;
  random : rng
}.

(** The assignments to the attributes of [self]. *)
Inductive attr : Type :=
| Afm (x : libFM)
| Aalpha (x : num)
| Aw_mu (x : list num)
| Aw_lambda (x : list num)
| Av_mu (x : list (list num))
| Av_lambda (x : list (list num))
| Apred_sum_all (x : list num)
| Apred_this (x : list num)
| Acache (x : list num * list num)
| Acache_test (x : list num * list num)
| Arandom (x : rng).

Definition assign (s : MCMC_learn) (a : attr) : MCMC_learn :=
  {| fm := match a with Afm x => x | _ => fm s end;
     meta := meta s;
     self_num_iter := self_num_iter s;
     num_eval_cases := num_eval_cases s;
     self_min_target := self_min_target s;
     self_max_target := self_max_target s;
     train := train s;
     test := test s;
     alpha_0 := alpha_0 s;
     gamma_0 := gamma_0 s;
     beta_0 := beta_0 s;
     mu_0 := mu_0 s;
     alpha := match a with Aalpha x => x | _ => alpha s end;
     w0_mean_0 := w0_mean_0 s;
     w_mu := match a with Aw_mu x => x | _ => w_mu s end;
     w_lambda := match a with Aw_lambda x => x | _ => w_lambda s end;
     v_mu := match a with Av_mu x => x | _ => v_mu s end;
     v_lambda := match a with Av_lambda x => x | _ => v_lambda s end;
     pred_sum_all := match a with Apred_sum_all x => x | _ => pred_sum_all s end;
     pred_this := match a with Apred_this x => x | _ => pred_this s end;
     cache := match a with Acache x => x | _ => cache s end;
     cache_test := match a with Acache_test x => x | _ => cache_test s end;
     random := match a with Arandom x => x | _ => random s end |}.

End Objects.

Arguments Data : clear implicits.
Arguments DataMetaInfo : clear implicits.
Arguments libFM : clear implicits.
Arguments MCMC_learn : clear implicits.
Arguments attr : clear implicits.

(** ** Control *)

(** [for i in l: body], stopping at the first exception *)
Fixpoint foreach {I A : Type} (l : list I) (body : I -> A -> result A) (a : A)
  : result A :=
  match l with
  | [] => Ok a
  | i :: l' => a' <- body i a ;; foreach l' body a'
  end.

(** [xrange(n)] for a Python int [n]: empty when [n <= 0] *)
Definition xrange (n : Z) : list nat := seq 0 (Z.to_nat n).

(** ** The full recompute of the cache *)

Section Recompute.
Context {num rng : Type} {RO : RingOps num}.
Local Open Scope num_scope.

(** Lines 224, 229, 230 on one of the two caches, [q] being the product
    [v * data_t]:
    [cache[1] += q; cache[0] += 0.5 * cache[1] * cache[1];
     cache[1] = np.zeros_like(cache[1])]. *)
Definition add_half_square (c : list num * list num) (q : list num)
  : result (list num * list num) :=
  c1 <- inplace add (snd c) q ;;
  c0 <- inplace add (fst c) (map (fun x => half * x * x) c1) ;;
  Ok (c0, np_zeros_like c1).

(** Lines 240-241 on one cache: [cache[1] -= s], [s] being
    [0.5 * (v * v) * data_t.multiply(data_t)]. *)
Definition sub_q (c : list num * list num) (s : list num)
  : result (list num * list num) :=
  c1 <- inplace sub (snd c) s ;;
  Ok (fst c, c1).

Definition add_q (c : list num * list num) (s : list num)
  : result (list num * list num) :=
  c1 <- inplace add (snd c) s ;;
  Ok (fst c, c1).

(** [0.5 * (v * v)] *)
Definition half_squares (vf : list num) : list num :=
  map (fun x => half * (x * x)) vf.

(** The body of the first loop, lines 219-232, on the pair of the train
    cache and the test cache. *)
Definition eterm_step (self : MCMC_learn num rng) (f : nat)
           (cc : (list num * list num) * (list num * list num))
  : result ((list num * list num) * (list num * list num)) :=
  vf <- getitem (v (fm self)) f ;;
  q <- rmatvec vf (data_t (train self)) ;;
  qt <- rmatvec vf (data_t (test self)) ;;
  c' <- add_half_square (fst cc) q ;;
  ct' <- add_half_square (snd cc) qt ;;
  Ok (c', ct').

(** The body of the second loop, lines 235-241. *)
Definition qterm_step (self : MCMC_learn num rng) (f : nat)
           (cc : (list num * list num) * (list num * list num))
  : result ((list num * list num) * (list num * list num)) :=
  vf <- getitem (v (fm self)) f ;;
  s <- csr_rmatvec (half_squares vf)
         (csr_square (tocsr (data_t (train self)))) ;;
  c' <- sub_q (fst cc) s ;;
  st <- csr_rmatvec (half_squares vf)
          (csr_square (tocsr (data_t (test self)))) ;;
  ct' <- sub_q (snd cc) st ;;
  Ok (c', ct').

(** Lines 244-246. *)
Definition linear_step (self : MCMC_learn num rng)
           (cc : (list num * list num) * (list num * list num))
  : result ((list num * list num) * (list num * list num)) :=
  if k1 (fm self) then
    s <- rmatvec (w (fm self)) (data_t (train self)) ;;
    c' <- add_q (fst cc) s ;;
    st <- rmatvec (w (fm self)) (data_t (test self)) ;;
    ct' <- add_q (snd cc) st ;;
    Ok (c', ct')
  else Ok cc.

(** [MCMC_learn.predict_data_and_write_to_eterms] *)
Definition predict_data_and_write_to_eterms (self : MCMC_learn num rng)
  : result (MCMC_learn num rng) :=
  let m := fm self in
  let c := (np_zeros_like (fst (cache self)), np_zeros_like (snd (cache self))) in
  let ct := (np_zeros_like (fst (cache_test self)),
             np_zeros_like (snd (cache_test self))) in
  (* (1) the 1/2 sum_f (sum_i v_if x_i)^2, stored in the e-term *)
  cc <- foreach (xrange (num_factor m)) (eterm_step self) (c, ct) ;;
  (* (2) the -1/2 sum_f (sum_i v_if^2 x_i^2), stored in the q-term *)
  cc <- foreach (xrange (num_factor m)) (qterm_step self) cc ;;
  (* (3) the w's, added to the q-term *)
  cc <- linear_step self cc ;;
  (* (3) merge both for the prediction: w0 + e(c) + q(c) *)
  c0 <- inplace add (fst (fst cc)) (snd (fst cc)) ;;
  ct0 <- inplace add (fst (snd cc)) (snd (snd cc)) ;;
  let c0' := if k0 m then map (fun e => e + w0 m) c0 else c0 in
  let ct0' := if k0 m then map (fun e => e + w0 m) ct0 else ct0 in
  Ok (assign
        (assign self (Acache (c0', np_zeros_like (snd (fst cc)))))
        (Acache_test (ct0', np_zeros_like (snd (snd cc))))).

(** [self.cache[0] -= self.train.target_value] (lines 144 and 166): the
    e-terms become residuals. *)
Definition remove_target (self : MCMC_learn num rng) : result (MCMC_learn num rng) :=
  c0 <- inplace sub (fst (cache self)) (target_value (train self)) ;;
  Ok (assign self (Acache (c0, snd (cache self)))).

End Recompute.

(** ** Loading the data *)

Section Loading.
Context {num : Type} {S : Scalar num} {HI : HasInf num}.
Local Open Scope num_scope.

(** Python's builtin [min(a, b)] and [max(a, b)]: the first argument,
    unless the second is strictly smaller (larger). *)
Definition py_min (a b : num) : num := if b <? a then b else a.
Definition py_max (a b : num) : num := if a <? b then b else a.

(** A line of a libfm file, split: the target and the [feature:value]
    pairs. *)
Definition line : Type := (num * list (nat * num))%type.

(** [get_num_attribute]: one more than the largest feature id, 0 for a
    file without features. *)
Definition get_num_attribute (lines : list line) : nat :=
  let ids := flat_map (fun l => map fst (snd l)) lines in
  match ids with
  | [] => 0
  | _ => Datatypes.S (fold_left Nat.max ids 0)
  end.

(** [Data.__init__], on the lines of the file *)
Definition Data_init (lines : list line) (max_feature : nat)
  : result (Data num) :=
  (* (1) the number of rows and the maximum feature id *)
  let mn := fold_left (fun m l => py_min (fst l) m) lines inf in
  let mx := fold_left (fun m l => py_max (fst l) m) lines (- inf) in
  let num_rows := length lines in
  let nvalues := length (flat_map (fun l => snd l) lines) in
  let nfeature := get_num_attribute lines in
  _ <- py_assert (Nat.leb nfeature max_feature) ;;
  (* (2) the data *)
  let entries :=
    flat_map (fun rl => map (fun fv => (fst rl, fst fv, snd fv)) (snd (snd rl)))
             (combine (seq 0 num_rows) lines) in
  M <- coo_matrix_init entries num_rows max_feature ;;
  Ok {| target_value := map fst lines;
        data := M;
        data_t := transpose M;
        num_cases := num_rows;
        num_feature := max_feature;
        num_values := nvalues;
        min_target := mn;
        max_target := mx |}.

(** [DataMetaInfo.__init__]: one group holding every attribute *)
Definition DataMetaInfo_init (num_attributes : nat) : DataMetaInfo num :=
  {| attr_group := repeat 0 num_attributes;
     num_attr_groups := 1;
     num_attr_per_group := [of_Z (Z.of_nat num_attributes)] |}.

End Loading.

(** ** The model and the sampler *)

Section Sampler.
Context {num rng : Type} {S : Scalar num} {RS : RandomState num rng}.
Local Open Scope num_scope.

(** the literal [2.0] *)
Definition two : num := of_Z 2.

(** [np.maximum], [np.minimum] (a NaN operand is the result) and
    [np.clip(x, lo, hi)], which numpy defines as
    [np.minimum(np.maximum(x, lo), hi)]. *)
Definition np_maximum (a b : num) : num :=
  if isnan a then a else if isnan b then b else if a <? b then b else a.
Definition np_minimum (a b : num) : num :=
  if isnan a then a else if isnan b then b else if b <? a then b else a.
Definition np_clip (lo hi x : num) : num := np_minimum (np_maximum x lo) hi.

(** *** Random.h *)

(** [ran_gaussian(mean, stdev)] *)
Definition ran_gaussian (mean stdev : num) (g : rng) : num * rng :=
  let (z, g') := np_random_randn g in (mean + stdev * z, g').

(** [ran_gamma(alpha, beta)] on scalars: numpy's second parameter is the
    scale, the inverse of the rate [beta]. *)
Definition ran_gamma (a b : num) (g : rng) : num * rng :=
  np_random_gamma a (one / b) g.

(** [n] normal variates, one after the other *)
Fixpoint normal_each (loc scale : num) (n : nat) (g : rng)
  : list num * rng :=
  match n with
  | O => ([], g)
  | Datatypes.S n' =>
      let (x, g1) := ran_gaussian loc scale g in
      let (r, g2) := normal_each loc scale n' g1 in
      (x :: r, g2)
  end.

(** ... and [k] rows of [n] *)
Fixpoint normal_rows (loc scale : num) (k n : nat) (g : rng)
  : list (list num) * rng :=
  match k with
  | O => ([], g)
  | Datatypes.S k' =>
      let (x, g1) := normal_each loc scale n g in
      let (r, g2) := normal_rows loc scale k' n g1 in
      (x :: r, g2)
  end.

(** [np.random.normal(loc, scale, n)]: numpy raises
    [ValueError("scale < 0")] when the sign bit of the scale is set,
    whatever the size, and draws nothing then. *)
Definition np_random_normal (loc scale : num) (n : nat) (g : rng)
  : result (list num * rng) :=
  if signbit scale then Raise ValueError else Ok (normal_each loc scale n g).

(** [np.random.normal(loc, scale, (k, n))], row by row *)
Definition np_random_normal2 (loc scale : num) (k n : nat) (g : rng)
  : result (list (list num) * rng) :=
  if signbit scale then Raise ValueError else Ok (normal_rows loc scale k n g).

(** [ran_gamma] on arrays: the two arrays are broadcast and the variates
    drawn one after the other. *)
Fixpoint gamma_each (ab : list (num * num)) (g : rng) : list num * rng :=
  match ab with
  | [] => ([], g)
  | (a, b) :: ab' =>
      let (x, g1) := ran_gamma a b g in
      let (r, g2) := gamma_each ab' g1 in
      (x :: r, g2)
  end.

Definition ran_gamma_array (a b : list num) (g : rng)
  : result (list num * rng) :=
  if Nat.eqb (length a) (length b) then Ok (gamma_each (combine a b) g)
  else match a, b with
       | [x], _ => Ok (gamma_each (map (fun y => (x, y)) b) g)
       | _, [y] => Ok (gamma_each (map (fun x => (x, y)) a) g)
       | _, _ => Raise ValueError
       end.

(** *** [libFM.__init__] *)

Definition is_mcmc (m : method_name) : bool :=
  match m with mcmc => true | als => false end.

(** [dim] and [param_regular] are the lists the two strings split into.
    [g] is the state numpy's generator is in when the constructor is
    entered; the constructor reseeds it only for a seed above -1, and
    numpy refuses a seed of 2**32 or more. *)
Definition libFM_init (num_attribute0 : nat) (num_iter0 : Z) (dim : list Z)
           (param_regular : list num) (init_stdev0 : num) (task0 : string)
           (method0 : method_name) (seed0 : option Z) (g : rng)
  : result (libFM num * rng) :=
  let '(sample, multilevel, method1) :=
    match method0 with
    | mcmc => (true, true, mcmc)
    | als => (false, false, mcmc)
    end in
  match dim, param_regular with
  | [d0; d1; d2], [r0; r1; r2] =>
      let '(reg0', regw', regv') :=
        if is_mcmc method1 then (zero, zero, zero) else (r0, r1, r2) in
      g1 <- match seed0 with
            | Some s =>
                if (-1 <? s)%Z
                then (if (s <? 2 ^ 32)%Z then Ok (np_random_seed s)
                      else Raise ValueError)
                else Ok g
            | None => Ok g
            end ;;
      let init_mean := zero in
      let flag0 := negb (d0 =? 0)%Z in
      let flag1 := negb (d1 =? 0)%Z in
      wg <- (if flag1
             then np_random_normal init_mean init_stdev0 num_attribute0 g1
             else Ok ([], g1)) ;;
      let (w', g2) := wg in
      vg <- (if (0 <? d2)%Z
             then np_random_normal2 init_mean init_stdev0 (Z.to_nat d2)
                                    num_attribute0 g2
             else Ok ([], g2)) ;;
      let (v', g3) := vg in
      Ok ({| do_sample := sample; do_multilevel := multilevel;
             num_attribute := num_attribute0; num_iter := num_iter0;
             init_stdev := init_stdev0; task := task0; method := method1;
             k0 := flag0; k1 := flag1; num_factor := d2;
             reg0 := reg0'; regw := regw'; regv := regv';
             seed := seed0; w0 := zero; w := w'; v := v' |}, g3)
  | _, _ => Raise (Exception "Error dimension not matching 3")
  end.

(** *** [MCMC_learn.__init__] *)

Definition MCMC_learn_init (m : libFM num) (mt : DataMetaInfo num)
           (tr te : Data num) (g : rng) : result (MCMC_learn num rng) :=
  if (num_factor m <? 0)%Z then Raise ValueError
  else
    let G := num_attr_groups mt in
    let K := Z.to_nat (num_factor m) in
    Ok {| fm := m;
          meta := mt;
          self_num_iter := num_iter m;
          num_eval_cases := num_cases te;
          self_min_target := min_target tr;
          self_max_target := max_target tr;
          train := tr;
          test := te;
          alpha_0 := one; gamma_0 := one; beta_0 := one; mu_0 := zero;
          alpha := one;
          w0_mean_0 := zero;
          w_mu := np_zeros G;
          w_lambda := map (fun x => regw m * x) (repeat one G);
          v_mu := repeat (np_zeros K) G;
          v_lambda := repeat (map (fun x => regv m * x) (repeat one K)) G;
          pred_sum_all := np_zeros (num_cases te);
          pred_this := np_zeros (num_cases te);
          cache := (np_zeros (num_cases tr), np_zeros (num_cases tr));
          cache_test := (np_zeros (num_cases te), np_zeros (num_cases te));
          random := g |}.

End Sampler.

Section Draws.
Context {num rng : Type} {S : Scalar num} {RS : RandomState num rng}.
Local Open Scope num_scope.

(** [m[:, f]] and [m[:, f] = a] for a two-dimensional array [m] *)
Fixpoint column (m : list (list num)) (f : nat) : result (list num) :=
  match m with
  | [] => Ok []
  | r :: m' => x <- getitem r f ;; c <- column m' f ;; Ok (x :: c)
  end.

Fixpoint set_column_each (m : list (list num)) (f : nat) (a : list num)
  : list (list num) :=
  match m, a with
  | r :: m', x :: a' => setitem r f x :: set_column_each m' f a'
  | _, _ => []
  end.

Definition set_column (m : list (list num)) (f : nat) (a : list num)
  : result (list (list num)) :=
  if Nat.eqb (length m) (length a) then Ok (set_column_each m f a)
  else match a with
       | [y] => Ok (map (fun r => setitem r f y) m)
       | _ => Raise ValueError
       end.

(** *** [draw_alpha] *)
Definition draw_alpha (self : MCMC_learn num rng) : MCMC_learn num rng :=
  if negb (do_multilevel (fm self)) then assign self (Aalpha (alpha_0 self))
  else
    let alpha_n := alpha_0 self + of_Z (Z.of_nat (num_cases (train self))) in
    let gamma_n := np_sum (map (fun e => e * e) (fst (cache self))) in
    let (a, g) := ran_gamma (alpha_n / two) (gamma_n / two) (random self) in
    assign (assign self (Aalpha a)) (Arandom g).

(** *** [draw_w0] *)

(** The divisor of line 309, [reg0 + alpha * num_cases].  [reg0] is a
    Python float and [num_cases] a Python int; [alpha] is a Python float
    as long as the hyperpriors are off ([__init__] and [draw_alpha] assign
    [1.0] and [alpha_0]) and a numpy array once they are on ([ran_gamma]
    returns one).  Python's division of floats raises on a zero divisor,
    numpy's returns an infinity or a NaN. *)
Definition python_divisor (python_float : bool) (den : num) : result unit :=
  if python_float && negb (nonzero den) then Raise ZeroDivisionError
  else Ok tt.

Definition draw_w0 (self : MCMC_learn num rng) : result (MCMC_learn num rng) :=
  let m := fm self in
  _ <- py_assert (Nat.eqb (num_cases (train self)) (length (fst (cache self)))) ;;
  let w0_mean := np_sum (map (fun e => e - w0 m) (fst (cache self))) in
  let den := reg0 m + alpha self * of_Z (Z.of_nat (num_cases (train self))) in
  _ <- python_divisor (negb (do_multilevel m)) den ;;
  let w0_sigma_sqr := one / den in
  let w0_mean :=
    - w0_sigma_sqr * (alpha self * w0_mean - w0_mean_0 self * reg0 m) in
  let w0_old := w0 m in
  let (w0_new, g) :=
    if do_sample m then ran_gaussian w0_mean (sqrt w0_sigma_sqr) (random self)
    else (w0_mean, random self) in
  Ok (assign
        (assign (assign self (Afm (set_w0 m w0_new))) (Arandom g))
        (Acache (map (fun e => e - (w0_old - w0_new)) (fst (cache self)),
                 snd (cache self)))).

(** *** [draw_w] *)

(** Lines 329-338: the mean and the variance of the posterior of [w[i]],
    from the row [x_li] of the transposed data. *)
Definition w_posterior (w_mu_g w_lambda_g : list num) (x_li : list (nat * num))
           (i : nat) (self : MCMC_learn num rng) : result (num * num) :=
  wi <- getitem (w (fm self)) i ;;
  Y <- row_sub_take (row_scale wi x_li) (fst (cache self)) ;;
  let h := row_multiply x_li (row_opp Y) in
  let w_mean := row_sum h in
  let w_sigma_sqr := row_sum (row_multiply x_li x_li) in
  lam <- getitem w_lambda_g i ;;
  let w_sigma_sqr := one / (lam + alpha self * w_sigma_sqr) in
  mu <- getitem w_mu_g i ;;
  let w_mean := - w_sigma_sqr * (alpha self * w_mean - mu * lam) in
  Ok (w_mean, w_sigma_sqr).

(** Lines 348-351: the draw from that posterior, its mean when the
    sampler does not sample. *)
Definition posterior_draw (sample : bool) (mean sigma_sqr : num) (g : rng)
  : num * rng :=
  if sample then ran_gaussian mean (sqrt sigma_sqr) g else (mean, g).

(** Lines 343-351: the value committed to the parameter whose value
    before the draw is [old]. *)
Definition commit (old : num) (sample : bool) (mean sigma_sqr : num) (g : rng)
  : num * rng :=
  if isinf old then (zero, g)
  else if isnan old then (zero, g)
  else posterior_draw sample mean sigma_sqr g.

(** the body of the loop of [draw_w] *)
Definition draw_w_i (X : csr_matrix num) (w_mu_g w_lambda_g : list num) (i : nat)
           (self : MCMC_learn num rng) : result (MCMC_learn num rng) :=
  let m := fm self in
  x_li <- getrow X i ;;
  ms <- w_posterior w_mu_g w_lambda_g x_li i self ;;
  w_old <- getitem (w m) i ;;
  let (w_new, g) := commit w_old (do_sample m) (fst ms) (snd ms) (random self) in
  Ok (assign
        (assign (assign self (Afm (set_w m (setitem (w m) i w_new)))) (Arandom g))
        (Acache (sub_row (fst (cache self)) (row_scale (w_old - w_new) x_li),
                 snd (cache self)))).

Definition draw_w (w_mu_g w_lambda_g : list num) (self : MCMC_learn num rng)
  : result (MCMC_learn num rng) :=
  let X := tocsr (data_t (train self)) in
  foreach (seq 0 (length (w (fm self)))) (draw_w_i X w_mu_g w_lambda_g) self.

(** *** [draw_v] *)

(** [h = x_li.multiply(-Y)] with [Y = val * x_li] and
    [Y.data -= np.take(self.cache[1], Y.indices)] *)
Definition h_term (val : num) (x_li : list (nat * num)) (q : list num)
  : result (list (nat * num)) :=
  Y <- row_sub_take (row_scale val x_li) q ;;
  Ok (row_multiply x_li (row_opp Y)).

(** Lines 361-375 *)
Definition v_posterior (X : csr_matrix num) (f : nat) (v_mu_g v_lambda_g : list num)
           (x_li : list (nat * num)) (i : nat) (self : MCMC_learn num rng)
  : result (num * num) :=
  vf <- getitem (v (fm self)) f ;;
  vfi <- getitem vf i ;;
  h <- h_term vfi x_li (snd (cache self)) ;;
  v_mean <- row_dot (csr_shape1 X) h (fst (cache self)) ;;
  let v_sigma_sqr := row_sum (row_multiply h h) in
  let v_mean := v_mean - vfi * v_sigma_sqr in
  lam <- getitem v_lambda_g i ;;
  let v_sigma_sqr := one / (lam + alpha self * v_sigma_sqr) in
  mu <- getitem v_mu_g i ;;
  let v_mean := - v_sigma_sqr * (alpha self * v_mean - mu * lam) in
  Ok (v_mean, v_sigma_sqr).

(** the body of the loop of [draw_v] *)
Definition draw_v_i (X : csr_matrix num) (f : nat) (v_mu_g v_lambda_g : list num)
           (i : nat) (self : MCMC_learn num rng) : result (MCMC_learn num rng) :=
  let m := fm self in
  x_li <- getrow X i ;;
  ms <- v_posterior X f v_mu_g v_lambda_g x_li i self ;;
  vf <- getitem (v m) f ;;
  v_old <- getitem vf i ;;
  let (v_new, g) := commit v_old (do_sample m) (fst ms) (snd ms) (random self) in
  h <- h_term v_old x_li (snd (cache self)) ;;
  Ok (assign
        (assign (assign self (Afm (set_v m (setitem (v m) f (setitem vf i v_new)))))
                (Arandom g))
        (Acache (sub_row (fst (cache self)) (row_scale (v_old - v_new) h),
                 sub_row (snd (cache self)) (row_scale (v_old - v_new) x_li)))).

Definition draw_v (f : nat) (v_mu_g v_lambda_g : list num) (self : MCMC_learn num rng)
  : result (MCMC_learn num rng) :=
  let X := tocsr (data_t (train self)) in
  vf <- getitem (v (fm self)) f ;;
  foreach (seq 0 (length vf)) (draw_v_i X f v_mu_g v_lambda_g) self.

End Draws.

Section Hyperpriors.
Context {num rng : Type} {S : Scalar num} {RS : RandomState num rng}.
Local Open Scope num_scope.

(** [ran_gaussian(mean, stdev)] on arrays: one standard normal variate,
    shared by all components. *)
Definition ran_gaussian_array (mean stdev : list num) (g : rng)
  : result (list num * rng) :=
  let (z, g') := np_random_randn g in
  r <- broadcast2 add mean (map (fun s => s * z) stdev) ;;
  Ok (r, g').

(** *** [draw_w_mu] *)
Definition draw_w_mu (self : MCMC_learn num rng) : result (MCMC_learn num rng) :=
  if negb (do_multilevel (fm self))
  then Ok (assign self (Aw_mu (map (fun x => mu_0 self * x)
                                   (repeat one (length (w_mu self))))))
  else
    let g := attr_group (meta self) in
    w_mu_mean <- np_bincount g (w (fm self)) ;;
    let g := np_unique g in
    n_g <- take (num_attr_per_group (meta self)) g ;;
    let den := map (fun n => n + beta_0 self) n_g in
    w_mu_mean <- broadcast2 div
                   (map (fun x => x + beta_0 self * mu_0 self) w_mu_mean) den ;;
    t <- broadcast2 mul den (w_lambda self) ;;
    let w_mu_sigma_sqr := map (fun x => one / x) t in
    if do_sample (fm self) then
      rg <- ran_gaussian_array w_mu_mean (map sqrt w_mu_sigma_sqr) (random self) ;;
      Ok (assign (assign self (Aw_mu (fst rg))) (Arandom (snd rg)))
    else Ok (assign self (Aw_mu w_mu_mean)).

(** [beta_0 * (mu - mu_0) * (mu - mu_0) + gamma_0], per group *)
Definition lambda_gamma_prior (self : MCMC_learn num rng) (mu : list num) : list num :=
  map (fun x => beta_0 self * (x - mu_0 self) * (x - mu_0 self) + gamma_0 self) mu.

(** [(a - b) * (a - b)] *)
Definition squared_deviation (a b : list num) : result (list num) :=
  d <- broadcast2 sub a b ;;
  Ok (map (fun x => x * x) d).

(** *** [draw_w_lambda] *)
Definition draw_w_lambda (self : MCMC_learn num rng) : result (MCMC_learn num rng) :=
  if negb (do_multilevel (fm self)) then Ok self
  else
    let w_lambda_gamma := lambda_gamma_prior self (w_mu self) in
    let g := attr_group (meta self) in
    w_mu_g <- take (w_mu self) g ;;
    dev <- squared_deviation (w (fm self)) w_mu_g ;;
    b <- np_bincount g dev ;;
    w_lambda_gamma <- inplace add w_lambda_gamma b ;;
    let g := np_unique g in
    n_g <- take (num_attr_per_group (meta self)) g ;;
    let w_lambda_alpha := map (fun n => alpha_0 self + n + one) n_g in
    if do_sample (fm self) then
      rg <- ran_gamma_array (map (fun x => x / two) w_lambda_alpha)
                            (map (fun x => x / two) w_lambda_gamma)
                            (random self) ;;
      Ok (assign (assign self (Aw_lambda (fst rg))) (Arandom (snd rg)))
    else
      r <- broadcast2 div w_lambda_alpha w_lambda_gamma ;;
      Ok (assign self (Aw_lambda r)).

(** *** [draw_v_mu] *)
Definition draw_v_mu (self : MCMC_learn num rng) : result (MCMC_learn num rng) :=
  if negb (do_multilevel (fm self))
  then Ok (assign self (Av_mu (map (map (fun _ => mu_0 self * one)) (v_mu self))))
  else
    let g := attr_group (meta self) in
    foreach (xrange (num_factor (fm self)))
      (fun f self =>
         vf <- getitem (v (fm self)) f ;;
         v_mu_mean <- np_bincount g vf ;;
         let den := map (fun n => n + beta_0 self)
                        (num_attr_per_group (meta self)) in
         v_mu_mean <- broadcast2 div
                        (map (fun x => x + beta_0 self * mu_0 self) v_mu_mean)
                        den ;;
         lam <- column (v_lambda self) f ;;
         t <- broadcast2 mul den lam ;;
         let v_mu_sigma_sqr := map (fun x => one / x) t in
         if do_sample (fm self) then
           rg <- ran_gaussian_array v_mu_mean (map sqrt v_mu_sigma_sqr)
                                    (random self) ;;
           m' <- set_column (v_mu self) f (fst rg) ;;
           Ok (assign (assign self (Av_mu m')) (Arandom (snd rg)))
         else
           m' <- set_column (v_mu self) f v_mu_mean ;;
           Ok (assign self (Av_mu m')))
      self.

(** *** [draw_v_lambda] *)
Definition draw_v_lambda (self : MCMC_learn num rng) : result (MCMC_learn num rng) :=
  if negb (do_multilevel (fm self)) then Ok self
  else
    foreach (xrange (num_factor (fm self)))
      (fun f self =>
         mu_f <- column (v_mu self) f ;;
         let v_lambda_gamma := lambda_gamma_prior self mu_f in
         let g := attr_group (meta self) in
         vf <- getitem (v (fm self)) f ;;
         mu_g <- take mu_f g ;;
         dev <- squared_deviation vf mu_g ;;
         b <- np_bincount g dev ;;
         v_lambda_gamma <- inplace add v_lambda_gamma b ;;
         let g := np_unique g in
         n_g <- take (num_attr_per_group (meta self)) g ;;
         let v_lambda_alpha := map (fun n => alpha_0 self + n + one) n_g in
         if do_sample (fm self) then
           rg <- ran_gamma_array (map (fun x => x / two) v_lambda_alpha)
                                 (map (fun x => x / two) v_lambda_gamma)
                                 (random self) ;;
           m' <- set_column (v_lambda self) f (fst rg) ;;
           Ok (assign (assign self (Av_lambda m')) (Arandom (snd rg)))
         else
           r <- broadcast2 div v_lambda_alpha v_lambda_gamma ;;
           m' <- set_column (v_lambda self) f r ;;
           Ok (assign self (Av_lambda m')))
      self.

(** *** [draw_all] *)

(** Lines 296-302: the q-terms of factor [f] are rebuilt in row 1 of the
    train cache, then the factor's parameters are drawn. *)
Definition draw_all_factor (f : nat) (self : MCMC_learn num rng)
  : result (MCMC_learn num rng) :=
  vf <- getitem (v (fm self)) f ;;
  q <- rmatvec vf (data_t (train self)) ;;
  c1 <- inplace add (np_zeros_like (snd (cache self))) q ;;
  let self := assign self (Acache (fst (cache self), c1)) in
  let g := attr_group (meta self) in
  mu_f <- column (v_mu self) f ;;
  mu_g <- take mu_f g ;;
  lam_f <- column (v_lambda self) f ;;
  lam_g <- take lam_f g ;;
  draw_v f mu_g lam_g self.

Definition draw_all (self : MCMC_learn num rng) : result (MCMC_learn num rng) :=
  let self := draw_alpha self in
  self <- (if k0 (fm self) then draw_w0 self else Ok self) ;;
  self <- (if k1 (fm self) then
             self <- draw_w_lambda self ;;
             self <- draw_w_mu self ;;
             let g := attr_group (meta self) in
             mu_g <- take (w_mu self) g ;;
             lam_g <- take (w_lambda self) g ;;
             draw_w mu_g lam_g self
           else Ok self) ;;
  self <- (if (0 <? num_factor (fm self))%Z then
             self <- draw_v_lambda self ;;
             draw_v_mu self
           else Ok self) ;;
  foreach (xrange (num_factor (fm self))) draw_all_factor self.

End Hyperpriors.

Section Learning.
Context {num rng : Type} {S : Scalar num} {RS : RandomState num rng}.
Local Open Scope num_scope.

Definition is_regression (t : string) : bool := String.eqb t "regression".
Definition is_classification (t : string) : bool := String.eqb t "classification".

(** *** [evaluate]: the pair [(rmse, mae)].  [from_case] is not used. *)
Definition evaluate (self : MCMC_learn num rng) (pred target : list num)
           (normalizer : num) (from_case to_case : nat) : result (num * num) :=
  _ <- py_assert (Nat.eqb (length pred) (length target)) ;;
  let end_ := Nat.min (length pred) to_case in
  let tmp := map (fun p => p * normalizer) (firstn end_ pred) in
  let tmp := map (np_clip (self_min_target self) (self_max_target self)) tmp in
  err <- broadcast2 sub tmp (firstn end_ target) ;;
  let rmse_ := np_sum (map (fun e => e * e) err) in
  let mae_ := np_sum (map fabs err) in
  let num_cases_ := of_Z (Z.of_nat end_) in
  Ok (sqrt (rmse_ / num_cases_), mae_ / num_cases_).

(** *** [predict] *)
Definition predict (self : MCMC_learn num rng) : result (list num) :=
  out <- (if do_sample (fm self) then
            _ <- py_assert (Nat.eqb (num_cases (test self))
                                    (length (pred_sum_all self))) ;;
            Ok (map (fun p => p / of_Z (self_num_iter self)) (pred_sum_all self))
          else
            _ <- py_assert (Nat.eqb (num_cases (test self))
                                    (length (pred_this self))) ;;
            Ok (pred_this self)) ;;
  if is_regression (task (fm self))
  then Ok (map (np_clip (self_min_target self) (self_max_target self)) out)
  else if is_classification (task (fm self))
  then Ok (map (np_clip zero one) out)
  else Raise (Exception "Unknown task").

(** *** [learn] *)

(** Lines 156-159: the test predictions of this iteration are kept, and
    added, clipped, to the running sum. *)
Definition accumulate_test (self : MCMC_learn num rng) : result (MCMC_learn num rng) :=
  let tmp := fst (cache_test self) in
  let self := assign self (Apred_this tmp) in
  let tmp := map (np_clip (self_min_target self) (self_max_target self)) tmp in
  s <- inplace add (pred_sum_all self) tmp ;;
  Ok (assign self (Apred_sum_all s)).

(** Lines 162-167: the RMSE on the training set, and the e-terms turned
    into residuals. *)
Definition evaluate_train (self : MCMC_learn num rng) : result (MCMC_learn num rng * num) :=
  let tmp := map (np_clip (self_min_target self) (self_max_target self))
                 (fst (cache self)) in
  err <- broadcast2 sub tmp (target_value (train self)) ;;
  let rmse_train := np_sum (map (fun e => e * e) err) in
  self <- remove_target self ;;
  Ok (self, sqrt (rmse_train / of_Z (Z.of_nat (num_cases (train self))))).

(** One iteration of the loop of [learn]; besides the new state, what the
    iteration prints: the RMSE on the training set and on the test set.
    The state is paired with the lines printed so far. *)
Definition learn_iteration (i : nat) (sl : MCMC_learn num rng * list (num * num))
  : result (MCMC_learn num rng * list (num * num)) :=
  self <- draw_all (fst sl) ;;
  self <- predict_data_and_write_to_eterms self ;;
  if is_regression (task (fm self)) then
    self <- accumulate_test self ;;
    sr <- evaluate_train self ;;
    let self := fst sr in
    ev <- evaluate self (pred_sum_all self) (target_value (test self))
            (one / of_Z (Z.of_nat i + 1)) 0 (num_eval_cases self) ;;
    Ok (self, snd sl ++ [(snd sr, fst ev)])
  else if is_classification (task (fm self)) then Ok (self, snd sl)
  else Raise (Exception "Unknown task").

(** [learn]: the final state, the lines printed and the predictions
    saved to the output file ([self.fm.save] is always true). *)
Definition learn (self : MCMC_learn num rng)
  : result (MCMC_learn num rng * list (num * num) * list num) :=
  let self := assign self (Afm (set_regs (fm self) zero zero zero)) in
  self <- predict_data_and_write_to_eterms self ;;
  self <- (if is_regression (task (fm self)) then remove_target self
           else Raise (Exception "Unknown task")) ;;
  sl <- foreach (xrange (self_num_iter self)) learn_iteration (self, []) ;;
  pred <- predict (fst sl) ;;
  Ok (sl, pred).

(** *** [main], on the contents of the two files.  The constructor of
    [libFM] gets the method, the seed, the iterations and the dimensions
    of the command line and its own defaults for the rest. *)
Context {HI : HasInf num}.

Definition main (train_file test_file : list (line (num := num)))
           (method0 : method_name) (dim : list Z) (seed0 : option Z)
           (iteration : Z) (g : rng)
  : result (MCMC_learn num rng * list (num * num) * list num) :=
  let num_all_attribute :=
    Nat.max (get_num_attribute train_file) (get_num_attribute test_file) in
  tr <- Data_init train_file num_all_attribute ;;
  te <- Data_init test_file num_all_attribute ;;
  _ <- py_assert (Nat.eqb num_all_attribute
                          (Nat.max (num_feature tr) (num_feature te))) ;;
  let mt := DataMetaInfo_init num_all_attribute in
  mg <- libFM_init num_all_attribute iteration dim
          [zero; zero; of_Z 1 / of_Z 10] (of_Z 1 / of_Z 10) "regression"
          method0 seed0 g ;;
  mcmc_ <- MCMC_learn_init (fst mg) mt tr te (snd mg) ;;
  learn mcmc_.

End Learning.

(** ** A generator for concrete runs

    The variates are read off a tape, zero once the tape is used up; a
    gamma variate is the tape's value times the scale.  Seeding rewinds to
    a tape that the seed determines. *)

Section Tape.
Context {num : Type} {S : Scalar num}.
Local Open Scope num_scope.

Definition tape_randn (t : list num) : num * list num :=
  match t with
  | [] => (zero, [])
  | z :: t' => (z, t')
  end.

Definition tape_gamma (shape scale : num) (t : list num) : num * list num :=
  match t with
  | [] => (zero, [])
  | u :: t' => (u * scale, t')
  end.

Definition tape_seed (s : Z) : list num :=
  map (fun k => of_Z (s + Z.of_nat k) / of_Z 16) (seq 0 8).

Definition tape_random : RandomState num (list num) :=
  {| np_random_seed := tape_seed;
     np_random_randn := tape_randn;
     np_random_gamma := tape_gamma |}.

End Tape.

(** ** Concrete runs

    Two one-line files: the training file [1 0:1] and the test file
    [1 1:1], so that feature 1 occurs in the test set only.  A second
    training file, [1 0:1 1:1], has two features in its case.  The runs
    are in binary64, the generator reads the tape [1/2, 1/4, 1/8, 3/4]. *)

Module Demo.
Local Open Scope Z_scope.

Definition num : Type := B64.binary64.
Definition rng : Type := list num.
Definition rs : RandomState num rng := tape_random.
#[local] Existing Instance rs.

Definition train_file : list (line (num := num)) :=
  [(B64.of_Z 1, [(0%nat, B64.of_Z 1)])].
Definition test_file : list (line (num := num)) :=
  [(B64.of_Z 1, [(1%nat, B64.of_Z 1)])].
Definition train_file2 : list (line (num := num)) :=
  [(B64.of_Z 1, [(0%nat, B64.of_Z 1); (1%nat, B64.of_Z 1)])].

Definition tape : list num :=
  [B64.ratio 1 2; B64.ratio 1 4; B64.ratio 1 8; B64.ratio 3 4].

(** [libFM(2, num_iter=1, dim=..., param_regular=..., method=...)] and
    [MCMC_learn(fm, meta, train, test)] on these files *)
Definition sampler (train_lines : list (line (num := num))) (dim : list Z)
           (reg : list num) (m : method_name) (sd : option Z) (g : list num)
  : result (MCMC_learn num rng) :=
  tr <- Data_init train_lines 2 ;;
  te <- Data_init test_file 2 ;;
  mg <- libFM_init 2 1 dim reg (B64.ratio 1 10) "regression" m sd g ;;
  MCMC_learn_init (fst mg) (DataMetaInfo_init 2) tr te (snd mg).

(** [self.w_mu[g]], [self.w_lambda[g]] as [draw_all] passes them on *)
Definition w_hyper (s : MCMC_learn num rng) : result (list num * list num) :=
  mu_g <- take (w_mu s) (attr_group (meta s)) ;;
  lam_g <- take (w_lambda s) (attr_group (meta s)) ;;
  Ok (mu_g, lam_g).

Definition v_hyper (f : nat) (s : MCMC_learn num rng) : result (list num * list num) :=
  mu_f <- column (v_mu s) f ;;
  mu_g <- take mu_f (attr_group (meta s)) ;;
  lam_f <- column (v_lambda s) f ;;
  lam_g <- take lam_f (attr_group (meta s)) ;;
  Ok (mu_g, lam_g).

(** The state [learn] is in when [draw_w] reaches feature 1 in the first
    sweep of an ALS run with [dim = '1,1,1']. *)
Definition before_w1 : result (MCMC_learn num rng) :=
  s <- sampler train_file [1; 1; 1] [B64.of_Z 1; B64.of_Z 2; B64.of_Z 3]
         als None tape ;;
  let s := assign s (Afm (set_regs (fm s) zero zero zero)) in
  s <- predict_data_and_write_to_eterms s ;;
  s <- remove_target s ;;
  let s := draw_alpha s in
  s <- draw_w0 s ;;
  s <- draw_w_lambda s ;;
  s <- draw_w_mu s ;;
  h <- w_hyper s ;;
  draw_w_i (tocsr (data_t (train s))) (fst h) (snd h) 0 s.

(** ... and when [draw_v] reaches factor 0 of feature 0 in that sweep. *)
Definition before_v00 : result (MCMC_learn num rng) :=
  s <- before_w1 ;;
  h <- w_hyper s ;;
  s <- draw_w_i (tocsr (data_t (train s))) (fst h) (snd h) 1 s ;;
  s <- draw_v_lambda s ;;
  s <- draw_v_mu s ;;
  vf <- getitem (v (fm s)) 0 ;;
  q <- rmatvec vf (data_t (train s)) ;;
  c1 <- inplace add (np_zeros_like (snd (cache s))) q ;;
  Ok (assign s (Acache (fst (cache s), c1))).

(** the value of a computation that does not raise *)
Definition the {A : Type} (r : result A)
  : match r with Ok _ => A | Raise _ => unit end :=
  match r with Ok a => a | Raise _ => tt end.

(** The state [learn] enters its loop in, for an ALS run with
    [dim = '1,1,1'] on the training file with two features. *)
Definition entering_loop_run : result (MCMC_learn num rng) :=
  Eval vm_compute in
    (s <- sampler train_file2 [1; 1; 1] [zero; zero; zero] als None tape ;;
     let s := assign s (Afm (set_regs (fm s) zero zero zero)) in
     s <- predict_data_and_write_to_eterms s ;;
     remove_target s).
Definition entering_loop : MCMC_learn num rng := the entering_loop_run.

(** ... and the state after the first sweep, in which the loop enters the
    full recompute. *)
Definition entering_recompute_run : result (MCMC_learn num rng) :=
  Eval vm_compute in (draw_all entering_loop).
Definition entering_recompute : MCMC_learn num rng := the entering_recompute_run.

(** ... and the state after the first iteration. *)
Definition after_iteration_run : result (MCMC_learn num rng * list (num * num)) :=
  Eval vm_compute in (learn_iteration 0 (entering_loop, [])).
Definition after_iteration : MCMC_learn num rng * list (num * num) :=
  the after_iteration_run.

(** ... and the state that recompute leaves. *)
Definition recomputed_run : result (MCMC_learn num rng) :=
  Eval vm_compute in (predict_data_and_write_to_eterms entering_recompute).
Definition recomputed : MCMC_learn num rng := the recomputed_run.

(** The states of [before_w1] and [before_v00], with the hyperparameters
    [draw_all] hands to [draw_w] and [draw_v]. *)
Definition state_w1_run : result (MCMC_learn num rng) :=
  Eval vm_compute in before_w1.
Definition state_w1 : MCMC_learn num rng := the state_w1_run.
Definition hyper_w1_run : result (list num * list num) :=
  Eval vm_compute in (w_hyper state_w1).
Definition hyper_w1 : list num * list num := the hyper_w1_run.
Definition state_v00_run : result (MCMC_learn num rng) :=
  Eval vm_compute in before_v00.
Definition state_v00 : MCMC_learn num rng := the state_v00_run.
Definition hyper_v00_run : result (list num * list num) :=
  Eval vm_compute in (v_hyper 0 state_v00).
Definition hyper_v00 : list num * list num := the hyper_v00_run.

(** The objects of the ALS run on the training file with two features:
    the data, the model, the sampler as constructed, and what [learn]
    returns on it. *)
Definition train2_run : result (Data num) :=
  Eval vm_compute in (Data_init train_file2 2).
Definition train2 : Data num := the train2_run.
Definition test1_run : result (Data num) :=
  Eval vm_compute in (Data_init test_file 2).
Definition test1 : Data num := the test1_run.
Definition model_als_run : result (libFM num * list num) :=
  Eval vm_compute in
    (libFM_init 2 1 [1; 1; 1] [zero; zero; zero] (B64.ratio 1 10)
                "regression" als None tape).
Definition model_als : libFM num * list num := the model_als_run.
Definition fresh_run : result (MCMC_learn num rng) :=
  Eval vm_compute in
    (MCMC_learn_init (fst model_als) (DataMetaInfo_init 2) train2 test1
                     (snd model_als)).
Definition fresh : MCMC_learn num rng := the fresh_run.
Definition learned_run
  : result (MCMC_learn num rng * list (num * num) * list num) :=
  Eval vm_compute in (learn fresh).
Definition learned : MCMC_learn num rng * list (num * num) * list num :=
  the learned_run.

(** The training file [1 0:0 1:1], whose case stores an explicit zero for
    feature 0, and the state its ALS run with [dim = '1,1,0'] is in when
    [draw_w] starts in the first sweep, with the hyperparameters [draw_all]
    hands to [draw_w]. *)
Definition train_file_zero : list (line (num := num)) :=
  [(B64.of_Z 1, [(0%nat, B64.of_Z 0); (1%nat, B64.of_Z 1)])].
Definition state_zero_run : result (MCMC_learn num rng) :=
  Eval vm_compute in
    (s <- sampler train_file_zero [1; 1; 0] [zero; zero; zero] als None tape ;;
     let s := assign s (Afm (set_regs (fm s) zero zero zero)) in
     s <- predict_data_and_write_to_eterms s ;;
     s <- remove_target s ;;
     let s := draw_alpha s in
     s <- draw_w0 s ;;
     s <- draw_w_lambda s ;;
     draw_w_mu s).
Definition state_zero : MCMC_learn num rng := the state_zero_run.
Definition hyper_zero_run : result (list num * list num) :=
  Eval vm_compute in (w_hyper state_zero).
Definition hyper_zero : list num * list num := the hyper_zero_run.

(** The training file of the two cases [1 0:1] and [2 1:1], and the state
    its ALS run with [dim = '1,1,1'] enters the loop of [learn] in. *)
Definition train_file_two : list (line (num := num)) :=
  [(B64.of_Z 1, [(0%nat, B64.of_Z 1)]); (B64.of_Z 2, [(1%nat, B64.of_Z 1)])].
Definition state_two_run : result (MCMC_learn num rng) :=
  Eval vm_compute in
    (s <- sampler train_file_two [1; 1; 1] [zero; zero; zero] als None tape ;;
     let s := assign s (Afm (set_regs (fm s) zero zero zero)) in
     s <- predict_data_and_write_to_eterms s ;;
     remove_target s).
Definition state_two : MCMC_learn num rng := the state_two_run.
Definition hyper_two_run : result (list num * list num) :=
  Eval vm_compute in (w_hyper state_two).
Definition hyper_two : list num * list num := the hyper_two_run.


(** The sampler of an MCMC run on the training file with two features. *)
Definition fresh_mcmc_run : result (MCMC_learn num rng) :=
  Eval vm_compute in
    (sampler train_file2 [1; 1; 1] [zero; zero; zero] mcmc None tape).
Definition fresh_mcmc : MCMC_learn num rng := the fresh_mcmc_run.

(** The same sampler for a model whose task is 'classification'. *)
Definition model_cls_run : result (libFM num * list num) :=
  Eval vm_compute in
    (libFM_init 2 1 [1; 1; 1] [zero; zero; zero] (B64.ratio 1 10)
                "classification" als None tape).
Definition model_cls : libFM num * list num := the model_cls_run.
Definition classifier_run : result (MCMC_learn num rng) :=
  Eval vm_compute in
    (MCMC_learn_init (fst model_cls) (DataMetaInfo_init 2) train2 test1
                     (snd model_cls)).
Definition classifier : MCMC_learn num rng := the classifier_run.

End Demo.

(** ** The prediction of a factorization machine *)

Section Formula.
Context {num rng : Type} {RO : RingOps num}.
Local Open Scope num_scope.

(** [sum_{i < n} f i] *)
Fixpoint sum_upto (n : nat) (f : nat -> num) : num :=
  match n with
  | O => zero
  | Datatypes.S n' => sum_upto n' f + f n'
  end.

(** [sum_i v_fi x_i] and [sum_i v_fi^2 x_i^2] for factor [f] of the model
    and a case whose feature [i] has the value [x i], over [F] features *)
Definition factor_sum (m : libFM num) (F : nat) (x : nat -> num) (f : nat) : num :=
  sum_upto F (fun i => nth i (nth f (v m) []) zero * x i).

Definition factor_squares (m : libFM num) (F : nat) (x : nat -> num) (f : nat)
  : num :=
  sum_upto F (fun i => (nth i (nth f (v m) []) zero * nth i (nth f (v m) []) zero)
                       * (x i * x i)).

(** The prediction as the specification writes it:
    [bias + sum_i w_i x_i
          + sum_f (0.5 (sum_i v_fi x_i)^2 - 0.5 sum_i v_fi^2 x_i^2)],
    the bias and the linear term being there when the model has them. *)
Definition spec_prediction (m : libFM num) (F : nat) (x : nat -> num) : num :=
  (if k0 m then w0 m else zero)
  + (if k1 m then sum_upto F (fun i => nth i (w m) zero * x i) else zero)
  + sum_upto (Z.to_nat (num_factor m))
      (fun f => half * (factor_sum m F x f * factor_sum m F x f)
                - half * factor_squares m F x f).

(** the feature values of case [c] of a data set *)
Definition case_of (d : Data num) (c : nat) : nat -> num :=
  fun i => coo_get (data d) c i.

(** The two rows of a cache of the data set [d] when the first loop of the
    recompute has done [n] factors, and when the second loop has. *)
Definition eterms_upto (m : libFM num) (F : nat) (d : Data num) (n : nat)
           (c : list num * list num) : Prop :=
  length (fst c) = num_cases d /\
  length (snd c) = num_cases d /\
  (forall k, nth k (snd c) zero = zero) /\
  (forall k, k < num_cases d ->
             nth k (fst c) zero
             = sum_upto n (fun f => half * (factor_sum m F (case_of d k) f
                                            * factor_sum m F (case_of d k) f))).

Definition qterms_upto (m : libFM num) (F : nat) (d : Data num) (n : nat)
           (c : list num * list num) : Prop :=
  length (fst c) = num_cases d /\
  length (snd c) = num_cases d /\
  (forall k, k < num_cases d ->
             nth k (fst c) zero
             = sum_upto (Z.to_nat (num_factor m))
                        (fun f => half * (factor_sum m F (case_of d k) f
                                          * factor_sum m F (case_of d k) f))) /\
  (forall k, k < num_cases d ->
             nth k (snd c) zero
             = - sum_upto n (fun f => half * factor_squares m F (case_of d k) f)).

(** row [i] of [X.multiply(X)] for [X = M.tocsr()] *)
Definition squared_row (M : coo_matrix num) (i : nat) : list (nat * num) :=
  row_multiply (csr_row_of M i) (csr_row_of M i).

(** The shapes the constructors give the objects: a data set over [F]
    features, with its transpose, its targets and all entries inside the
    shape; a model over [F] features; caches as long as the data sets. *)
Definition data_shaped (F : nat) (d : Data num) : Prop :=
  data_t d = transpose (data d) /\
  shape0 (data d) = num_cases d /\
  shape1 (data d) = F /\
  forallb (in_shape (num_cases d) F) (coo_entries (data d)) = true /\
  length (target_value d) = num_cases d.

Definition model_shaped (F : nat) (m : libFM num) : Prop :=
  (k1 m = true -> length (w m) = F) /\
  length (v m) = Z.to_nat (num_factor m) /\
  Forall (fun vf => length vf = F) (v m).

Definition caches_shaped (s : MCMC_learn num rng) : Prop :=
  length (fst (cache s)) = num_cases (train s) /\
  length (snd (cache s)) = num_cases (train s) /\
  length (fst (cache_test s)) = num_cases (test s) /\
  length (snd (cache_test s)) = num_cases (test s).

Definition shaped (F : nat) (s : MCMC_learn num rng) : Prop :=
  data_shaped F (train s) /\ data_shaped F (test s) /\
  model_shaped F (fm s) /\ caches_shaped s.

(** The invariant of the train cache between two recomputes: row 0 holds
    the residuals [e(c) = prediction(c) - target(c)] of the model as it is
    now; and, while the parameters of factor [f] are drawn, row 1 holds
    that factor's sums [q(c) = sum_i v_fi x_ci]. *)
Definition residuals (F : nat) (s : MCMC_learn num rng) : Prop :=
  forall k, k < num_cases (train s) ->
    nth k (fst (cache s)) zero
    = spec_prediction (fm s) F (case_of (train s) k)
      - nth k (target_value (train s)) zero.

Definition q_terms (F f : nat) (s : MCMC_learn num rng) : Prop :=
  forall k, k < num_cases (train s) ->
    nth k (snd (cache s)) zero = factor_sum (fm s) F (case_of (train s) k) f.

End Formula.

(** ** An example in exact arithmetic

    Two training cases and one test case over two features, with a model
    of one factor, over the rational numbers.  The second training case
    stores an explicit zero for feature 0.  The caches of the sampler hold
    arbitrary numbers, to show what does not depend on them. *)

Module Exact.

Definition q (z : Z) : Qc := Rat.of_Z z.

Definition cases : Data Qc :=
  {| target_value := [q 1; q 2];
     data := {| shape0 := 2; shape1 := 2;
                coo_entries := [(0%nat, 0%nat, q 1); (0%nat, 1%nat, q 2);
                                (1%nat, 0%nat, q 0); (1%nat, 1%nat, q 3)] |};
     data_t := transpose {| shape0 := 2; shape1 := 2;
                            coo_entries := [(0%nat, 0%nat, q 1);
                                            (0%nat, 1%nat, q 2);
                                            (1%nat, 0%nat, q 0);
                                            (1%nat, 1%nat, q 3)] |};
     num_cases := 2; num_feature := 2; num_values := 4;
     min_target := q 1; max_target := q 2 |}.

Definition new_cases : Data Qc :=
  {| target_value := [q 1];
     data := {| shape0 := 1; shape1 := 2;
                coo_entries := [(0%nat, 0%nat, q 1)] |};
     data_t := transpose {| shape0 := 1; shape1 := 2;
                            coo_entries := [(0%nat, 0%nat, q 1)] |};
     num_cases := 1; num_feature := 2; num_values := 1;
     min_target := q 1; max_target := q 1 |}.

Definition model : libFM Qc :=
  {| do_sample := false; do_multilevel := false; num_attribute := 2;
     num_iter := 1; init_stdev := Q2Qc (Qmake 1 10); task := "regression";
     method := mcmc; k0 := true; k1 := true; num_factor := 1;
     reg0 := q 0; regw := q 0; regv := q 0; seed := None;
     w0 := q 1; w := [q 2; q 3]; v := [[q 1; q 2]] |}.

Definition sampler : MCMC_learn Qc unit :=
  {| fm := model;
     meta := {| attr_group := [0%nat; 0%nat]; num_attr_groups := 1;
                num_attr_per_group := [q 2] |};
     self_num_iter := 1; num_eval_cases := 1;
     self_min_target := q 1; self_max_target := q 2;
     train := cases; test := new_cases;
     alpha_0 := q 1; gamma_0 := q 1; beta_0 := q 1; mu_0 := q 0;
     alpha := q 1; w0_mean_0 := q 0;
     w_mu := [q 0]; w_lambda := [q 0]; v_mu := [[q 0]]; v_lambda := [[q 0]];
     pred_sum_all := [q 0]; pred_this := [q 0];
     cache := ([q 5; q 7], [q 1; q 1]); cache_test := ([q 0], [q 0]);
     random := tt |}.

(** a generator that returns the mean of the distribution asked for *)
Definition rs : RandomState Qc unit :=
  {| np_random_seed := fun _ => tt;
     np_random_randn := fun g => (q 0, g);
     np_random_gamma := fun a b g => (Qcmult a b, g) |}.

(** the value of a computation that does not raise *)
Definition the {A : Type} (r : result A)
  : match r with Ok _ => A | Raise _ => unit end :=
  match r with Ok a => a | Raise _ => tt end.

(** The state [learn] enters its loop in, and the states the steps of the
    first sweep leave when they are run on it. *)
Definition start_run : result (MCMC_learn Qc unit) :=
  Eval vm_compute in
    (s <- predict_data_and_write_to_eterms sampler ;; remove_target s).
Definition start : MCMC_learn Qc unit := the start_run.

Definition after_w0_run : result (MCMC_learn Qc unit) :=
  Eval vm_compute in (draw_w0 (RS := rs) start).
Definition after_w0 : MCMC_learn Qc unit := the after_w0_run.

Definition after_w_run : result (MCMC_learn Qc unit) :=
  Eval vm_compute in (draw_w (RS := rs) [q 0; q 0] [q 1; q 1] start).
Definition after_w : MCMC_learn Qc unit := the after_w_run.

Definition after_factor_run : result (MCMC_learn Qc unit) :=
  Eval vm_compute in (draw_all_factor (RS := rs) 0 start).
Definition after_factor : MCMC_learn Qc unit := the after_factor_run.

Definition after_sweep_run : result (MCMC_learn Qc unit) :=
  Eval vm_compute in (draw_all (RS := rs) start).
Definition after_sweep : MCMC_learn Qc unit := the after_sweep_run.

(** ... and what one iteration and the whole of [learn] return. *)
Definition after_iteration_run
  : result (MCMC_learn Qc unit * list (Qc * Qc)) :=
  Eval vm_compute in (learn_iteration (RS := rs) 0 (start, [])).
Definition after_iteration : MCMC_learn Qc unit * list (Qc * Qc) :=
  the after_iteration_run.

Definition learned_run
  : result (MCMC_learn Qc unit * list (Qc * Qc) * list Qc) :=
  Eval vm_compute in (learn (RS := rs) sampler).
Definition learned : MCMC_learn Qc unit * list (Qc * Qc) * list Qc :=
  the learned_run.

End Exact.

(** ** The vocabulary of the properties *)

Section Vocabulary.
Context {num rng : Type} {S : Scalar num} {RS : RandomState num rng}.
Local Open Scope num_scope.

(** What [evaluate] returns when its assertion holds: the RMSE and the
    MAE of the first [n] predictions, scaled by [normalizer] and clipped
    to [lo, hi], against the first [n] targets. *)
Definition rmse_mae (lo hi : num) (pred target : list num) (normalizer : num)
           (n : nat) : num * num :=
  let err := map2 sub (map (np_clip lo hi)
                           (map (fun p => p * normalizer) (firstn n pred)))
                  (firstn n target) in
  (sqrt (np_sum (map (fun e => e * e) err) / of_Z (Z.of_nat n)),
   np_sum (map fabs err) / of_Z (Z.of_nat n)).

(** A draw from the Gamma distribution with the given shape and rate, in
    terms of numpy's sampler, whose second parameter is the scale. *)
Definition gamma_shape_rate (shape rate : num) (g : rng) : num * rng :=
  np_random_gamma shape (one / rate) g.

(** The row [x] of a sparse matrix stores an entry at column [c]. *)
Definition row_stores (x : list (nat * num)) (c : nat) : bool :=
  existsb (fun p => Nat.eqb (fst p) c) x.

(** The seed is one numpy accepts, or the constructor does not reseed. *)
Definition seed_fine (seed0 : option Z) : Prop :=
  forall s, seed0 = Some s -> (s < 2 ^ 32)%Z.

(** The scale [init_stdev] is one numpy accepts (its sign bit is clear),
    or the constructor draws nothing: [dim[1] = 0] and [dim[2] <= 0]. *)
Definition scale_fine (sd : num) (d1 d2 : Z) : Prop :=
  signbit sd = false \/ (d1 = 0%Z /\ (d2 <= 0)%Z).

(** [acc += clip(p)] for the vectors [p] of [ps], one after the other:
    the running sum of the clipped predictions. *)
Fixpoint running_sum (lo hi : num) (ps : list (list num)) (acc : list num)
  : result (list num) :=
  match ps with
  | [] => Ok acc
  | p :: ps' =>
      acc' <- inplace add acc (map (np_clip lo hi) p) ;;
      running_sum lo hi ps' acc'
  end.

(** [iterations i s ts]: the states [ts] are those the iterations [i],
    [i + 1], ... of the loop of [learn] leave, one after the other,
    starting in the state [s]; each iteration keeps in [pred_this] the
    test predictions of its full recompute. *)
Fixpoint iterations (i : nat) (s : MCMC_learn num rng)
         (ts : list (MCMC_learn num rng)) : Prop :=
  match ts with
  | [] => True
  | t :: ts' =>
      (exists l l' s1 s2,
          learn_iteration i (s, l) = Ok (t, l') /\
          draw_all s = Ok s1 /\
          predict_data_and_write_to_eterms s1 = Ok s2 /\
          pred_this t = fst (cache_test s2)) /\
      iterations (Datatypes.S i) t ts'
  end.

(** The configuration of a model: all of [libFM] but the parameters and
    the regularization constants. *)
Definition config (m : libFM num) :=
  (do_sample m, do_multilevel m, num_attribute m, num_iter m, init_stdev m,
   task m, method m, k0 m, k1 m, num_factor m, seed m).

(** [updates allowed s s']: [s'] comes from [s] by assignments to the
    attributes that [allowed] admits, the configuration of the model
    staying as it is. *)
Inductive updates (allowed : attr num rng -> bool)
  : MCMC_learn num rng -> MCMC_learn num rng -> Prop :=
| updates_refl s : updates allowed s s
| updates_assign s s1 a :
    updates allowed s s1 ->
    allowed a = true ->
    (forall m', a = Afm m' -> config m' = config (fm s1)) ->
    updates allowed s (assign s1 a).

(** the attributes a sweep of the sampler assigns *)
Definition sweep_attr (a : attr num rng) : bool :=
  match a with
  | Apred_sum_all _ | Apred_this _ | Acache_test _ => false
  | _ => true
  end.

(** the attributes the full recompute assigns *)
Definition cache_attr (a : attr num rng) : bool :=
  match a with
  | Acache _ | Acache_test _ => true
  | _ => false
  end.

Definition any_attr (a : attr num rng) : bool := true.

(** A sampler in point-estimate mode (what [libFM.__init__] makes of the
    method 'als') whose generator is in the state [r]. *)
Definition point_estimate (r : rng) (s : MCMC_learn num rng) : Prop :=
  do_sample (fm s) = false /\ do_multilevel (fm s) = false /\ random s = r.

(** the attributes no method ever assigns *)
Definition constants (s : MCMC_learn num rng) :=
  (meta s, self_num_iter s, num_eval_cases s, self_min_target s,
   self_max_target s, train s, test s,
   (alpha_0 s, gamma_0 s, beta_0 s, mu_0 s, w0_mean_0 s)).

End Vocabulary.

(* PROPERTIES *)

(** * Properties *)

(** ** The error monad *)

Lemma bind_Ok_inv {A B : Type} (m : result A) (k : A -> result B) (b : B) :
  bind m k = Ok b -> exists a, m = Ok a /\ k a = Ok b.
Proof.
  destruct m as [a|e]; simpl; intros H.
  - exists a. split; [reflexivity | exact H].
  - discriminate H.
Qed.

Lemma py_assert_Ok_inv (b : bool) (u : unit) : py_assert b = Ok u -> b = true.
Proof. destruct b; simpl; [reflexivity | discriminate]. Qed.

(** Splits a hypothesis [x <- m ;; k = Ok b] into [m = Ok x] and
    [k x = Ok b], as often as it can. *)
Ltac bind_inv H :=
  match type of H with
  | bind ?m ?k = Ok ?b =>
      let a := fresh "a" in
      let Ha := fresh "Ha" in
      let Hk := fresh "Hk" in
      destruct (bind_Ok_inv m k H) as [a [Ha Hk]]; clear H;
      cbv beta in Hk; try bind_inv Hk
  | _ => idtac
  end.

(** One bind of the hypothesis [H]: [x] and [Hx : m = Ok x] are
    introduced, [H] becomes the rest. *)
Tactic Notation "bind_step" hyp(H) ident(x) ident(Hx) :=
  match type of H with
  | bind ?m ?k = Ok ?b =>
      let H' := fresh in
      destruct (bind_Ok_inv m k H) as [x [Hx H']]; clear H; rename H' into H;
      cbv beta in H
  end.

Lemma foreach_app {I A : Type} (l1 l2 : list I) (body : I -> A -> result A) (a : A) :
  foreach (l1 ++ l2) body a = (a' <- foreach l1 body a ;; foreach l2 body a').
Proof.
  revert a. induction l1 as [|i l1 IH]; intros a; simpl.
  - reflexivity.
  - destruct (body i a) as [a'|e]; simpl; [apply IH | reflexivity].
Qed.

(** An invariant of the body of a loop is an invariant of the loop. *)
Lemma foreach_invariant {I A : Type} (P : A -> Prop) (body : I -> A -> result A) :
  (forall i a a', P a -> body i a = Ok a' -> P a') ->
  forall l a a', P a -> foreach l body a = Ok a' -> P a'.
Proof.
  intros Hbody l. induction l as [|i l IH]; simpl; intros a a' Ha H.
  - injection H as <-. exact Ha.
  - bind_step H a1 H1. eapply IH; [eapply Hbody; eassumption | eassumption].
Qed.

(** ** Regularization in ALS mode (C3) *)

Section Regularization.
Context {num rng : Type} {S : Scalar num} {RS : RandomState num rng}.

(** Whatever triple the constructor is given, an ALS model has all three
    regularization constants at zero; the constructor fails only with the
    ValueError of a seed or of a scale numpy refuses. *)
Lemma libFM_init_als_regs n it d0 d1 d2 (r0 r1 r2 sd : num) tk sd0 g :
  match libFM_init n it [d0; d1; d2] [r0; r1; r2] sd tk als sd0 g with
  | Ok (m, _) =>
      do_sample m = false /\ do_multilevel m = false /\
      reg0 m = zero /\ regw m = zero /\ regv m = zero
  | Raise e => e = ValueError
  end.
Proof.
  unfold libFM_init, np_random_normal, np_random_normal2. cbn [is_mcmc].
  destruct sd0 as [s|]; cbn [bind];
    repeat (match goal with
            | |- context [if ?b then _ else _] => destruct b eqn:?
            | |- context [let (_, _) := ?p in _] => destruct p
            end; cbn [bind]);
    repeat split.
Qed.

End Regularization.

(** C3, evaluated: a model built with [method='als'] and
    [param_regular='1,2,3'] has [reg0 = regw = regv = 0]; the sampler built
    on it has all prior precisions [w_lambda], [v_lambda] at 0, and so they
    are after [learn]: the triple is discarded, not used. *)
Theorem als_ignores_param_regular :
  match Demo.sampler Demo.train_file [1; 1; 1]%Z
          [B64.of_Z 1; B64.of_Z 2; B64.of_Z 3] als None Demo.tape with
  | Ok s =>
      do_sample (fm s) = false /\ do_multilevel (fm s) = false /\
      (reg0 (fm s), regw (fm s), regv (fm s)) = (zero, zero, zero) /\
      w_lambda s = [zero] /\ v_lambda s = [[zero]] /\
      match learn (RS := Demo.rs) s with
      | Ok (s', _, _) =>
          (reg0 (fm s'), regw (fm s'), regv (fm s')) = (zero, zero, zero) /\
          w_lambda s' = [zero] /\ v_lambda s' = [[zero]]
      | Raise _ => False
      end
  | Raise _ => False
  end.
Proof. vm_compute. repeat split; reflexivity. Qed.

(** ** The noise precision (C5) *)

Section NoisePrecision.
Context {num rng : Type} {S : Scalar num} {RS : RandomState num rng}.
Local Open Scope num_scope.

(** C5: without multilevel, [draw_alpha] sets [alpha] to its prior value
    [alpha_0] and leaves the generator alone; with multilevel, [alpha] is
    a Gamma variate of shape [(alpha_0 + N) / 2] and rate
    [(sum_c e_c^2) / 2], [N] the number of training cases and [e] row 0
    of the train cache. *)
Theorem draw_alpha_posterior (self : MCMC_learn num rng) :
  let N := of_Z (Z.of_nat (num_cases (train self))) in
  let e := fst (cache self) in
  (alpha (draw_alpha self), random (draw_alpha self)) =
    if do_multilevel (fm self)
    then gamma_shape_rate ((alpha_0 self + N) / two)
                          (np_sum (map (fun x => x * x) e) / two)
                          (random self)
    else (alpha_0 self, random self).
Proof.
  unfold draw_alpha, gamma_shape_rate, ran_gamma.
  destruct (do_multilevel (fm self)); simpl.
  - destruct (np_random_gamma _ _ _). reflexivity.
  - reflexivity.
Qed.

(** The sampler starts with [alpha] at that prior value. *)
Lemma MCMC_learn_init_alpha m mt tr te g (s : MCMC_learn num rng) :
  MCMC_learn_init m mt tr te g = Ok s -> alpha s = alpha_0 s.
Proof.
  unfold MCMC_learn_init. destruct (num_factor m <? 0)%Z; [discriminate|].
  intros H. injection H as <-. reflexivity.
Qed.

End NoisePrecision.

(** ** Evaluation (C8) *)

Section Evaluation.
Context {num rng : Type} {S : Scalar num} {RS : RandomState num rng}.
Local Open Scope num_scope.

Lemma map2_length (f : num -> num -> num) (a b : list num) :
  length (map2 f a b) = Nat.min (length a) (length b).
Proof.
  revert b. induction a as [|x a IH]; intros [|y b]; simpl; try reflexivity.
  rewrite IH. reflexivity.
Qed.

Lemma broadcast2_same_length (f : num -> num -> num) (a b : list num) :
  length a = length b -> broadcast2 f a b = Ok (map2 f a b).
Proof.
  intros H. unfold broadcast2. rewrite H, Nat.eqb_refl. reflexivity.
Qed.

Lemma inplace_same_length (f : num -> num -> num) (a b : list num) :
  length a = length b -> inplace f a b = Ok (map2 f a b).
Proof.
  intros H. unfold inplace. rewrite H, Nat.eqb_refl. reflexivity.
Qed.

(** C8, as the code has it: [evaluate] fails its assertion when the two
    vectors differ in length; otherwise the RMSE and the MAE are those of
    the first [min(len(pred), to_case)] cases: the square root of the
    mean squared clipped error, and the mean absolute clipped error. *)
Theorem evaluate_count (self : MCMC_learn num rng) (pred target : list num)
        (normalizer : num) (from_case to_case : nat) :
  evaluate self pred target normalizer from_case to_case =
    if Nat.eqb (length pred) (length target)
    then Ok (rmse_mae (self_min_target self) (self_max_target self)
                      pred target normalizer
                      (Nat.min (length pred) to_case))
    else Raise AssertionError.
Proof.
  unfold evaluate, rmse_mae.
  destruct (Nat.eqb (length pred) (length target)) eqn:Hlen; simpl.
  - apply Nat.eqb_eq in Hlen.
    rewrite broadcast2_same_length.
    + reflexivity.
    + rewrite !length_map, !length_firstn, Hlen. reflexivity.
  - reflexivity.
Qed.

End Evaluation.

(** C8, the counterexample: two predictions against one target are not
    evaluated over [min(2, 1) = 1] case; the assertion fails. *)
Lemma evaluate_length_mismatch :
  match Demo.sampler Demo.train_file [1; 1; 0]%Z [zero; zero; zero] mcmc None
          Demo.tape with
  | Ok s =>
      evaluate s [B64.of_Z 1; B64.of_Z 1] [B64.of_Z 1] one 0 2
        = Raise AssertionError /\
      evaluate s [B64.of_Z 1; B64.of_Z 1] [B64.of_Z 1] one 0 2
        <> Ok (rmse_mae (self_min_target s) (self_max_target s)
                 [B64.of_Z 1; B64.of_Z 1] [B64.of_Z 1] one
                 (Nat.min 2 1))
  | Raise _ => False
  end.
Proof. vm_compute. split; [reflexivity | discriminate]. Qed.

(** ** Determinism (C9) *)

Section Determinism.
Context {num rng : Type} {S : Scalar num} {RS : RandomState num rng}
        {HI : HasInf num}.

(** C9, as the code has it: with a seed above -1 the constructor reseeds
    the generator, so the model it builds, and with it the whole run of
    [main] (final state, printed errors, predictions), are the same
    whatever state the generator was in before, in both modes. *)
Theorem seeded_runs_agree (train_file test_file : list (line (num := num)))
        (n : nat) (reg : list num) (sd : num) (tk : string)
        (method0 : method_name) (dim : list Z) (s : Z) (it : Z) (g1 g2 : rng) :
  (-1 < s)%Z ->
  libFM_init n it dim reg sd tk method0 (Some s) g1
    = libFM_init n it dim reg sd tk method0 (Some s) g2 /\
  main train_file test_file method0 dim (Some s) it g1
    = main train_file test_file method0 dim (Some s) it g2.
Proof.
  intros Hs. apply Z.ltb_lt in Hs.
  assert (Hinit : forall n' reg' sd' tk',
             libFM_init n' it dim reg' sd' tk' method0 (Some s) g1
             = libFM_init n' it dim reg' sd' tk' method0 (Some s) g2).
  { intros. unfold libFM_init. rewrite Hs. reflexivity. }
  split; [apply Hinit|].
  unfold main. rewrite Hinit. reflexivity.
Qed.

End Determinism.

Lemma seeded_runs_agree_witness :
  libFM_init (RS := Demo.rs) 1 1 [1; 1; 0]%Z [zero; zero; zero]
             (B64.ratio 1 10) "regression" als (Some 0%Z) []
    = libFM_init (RS := Demo.rs) 1 1 [1; 1; 0]%Z [zero; zero; zero]
                 (B64.ratio 1 10) "regression" als (Some 0%Z) Demo.tape /\
  main (RS := Demo.rs) Demo.train_file Demo.train_file als [1; 1; 0]%Z
       (Some 0%Z) 1 []
    = main (RS := Demo.rs) Demo.train_file Demo.train_file als [1; 1; 0]%Z
           (Some 0%Z) 1 Demo.tape.
Proof. apply seeded_runs_agree. lia. Defined.

(** C9, the counterexample: the seed -5 does not reseed the generator; two
    ALS runs with that seed and the same files end in different weights
    when the generator is in different states at the start. *)
Lemma negative_seed_runs_differ :
  match main (RS := Demo.rs) Demo.train_file Demo.train_file als [1; 1; 0]%Z
             (Some (-5)%Z) 1 [],
        main (RS := Demo.rs) Demo.train_file Demo.train_file als [1; 1; 0]%Z
             (Some (-5)%Z) 1 Demo.tape with
  | Ok (s1, _, _), Ok (s2, _, _) =>
      do_sample (fm s1) = false /\ w (fm s1) <> w (fm s2)
  | _, _ => False
  end.
Proof. vm_compute. split; [reflexivity | discriminate]. Qed.

(** ** What the methods assign *)

Section Frames.
Context {num rng : Type} {S : Scalar num} {RS : RandomState num rng}.

Lemma updates_trans (A : attr num rng -> bool) (s1 s2 s3 : MCMC_learn num rng) :
  updates A s1 s2 -> updates A s2 s3 -> updates A s1 s3.
Proof.
  intros H12 H23. induction H23 as [|s2 s3 a H23 IH Ha Hm].
  - exact H12.
  - apply updates_assign; auto.
Qed.

Lemma updates_mono (A B : attr num rng -> bool) :
  (forall a, A a = true -> B a = true) ->
  forall s s', updates A s s' -> updates B s s'.
Proof.
  intros HAB s s' H. induction H as [|s s1 a H IH Ha Hm].
  - apply updates_refl.
  - apply updates_assign; auto.
Qed.

(** A projection that no admitted assignment changes is the same after
    the updates. *)
Lemma updates_preserve {T : Type} (p : MCMC_learn num rng -> T)
      (A : attr num rng -> bool) :
  (forall s a, A a = true ->
               (forall m', a = Afm m' -> config m' = config (fm s)) ->
               p (assign s a) = p s) ->
  forall s s', updates A s s' -> p s' = p s.
Proof.
  intros Hp s s' H. induction H as [|s s1 a H IH Ha Hm].
  - reflexivity.
  - rewrite Hp by assumption. exact IH.
Qed.

Lemma updates_constants (A : attr num rng -> bool) (s s' : MCMC_learn num rng) :
  updates A s s' -> constants s' = constants s.
Proof.
  apply updates_preserve. intros s0 a _ _. reflexivity.
Qed.

Lemma updates_config (A : attr num rng -> bool) (s s' : MCMC_learn num rng) :
  updates A s s' -> config (fm s') = config (fm s).
Proof.
  apply (updates_preserve (fun s => config (fm s))).
  intros s0 a _ Hm. destruct a; try reflexivity.
  simpl. apply Hm. reflexivity.
Qed.

(** A sweep leaves the test cache and the stored predictions alone. *)
Lemma sweep_keeps_test (s s' : MCMC_learn num rng) :
  updates sweep_attr s s' ->
  cache_test s' = cache_test s /\
  pred_sum_all s' = pred_sum_all s /\
  pred_this s' = pred_this s.
Proof.
  intros H. repeat split.
  - revert s s' H. apply updates_preserve.
    intros s a Ha _. destruct a; try reflexivity; discriminate Ha.
  - revert s s' H. apply updates_preserve.
    intros s a Ha _. destruct a; try reflexivity; discriminate Ha.
  - revert s s' H. apply updates_preserve.
    intros s a Ha _. destruct a; try reflexivity; discriminate Ha.
Qed.

(** The recompute leaves the model and the stored predictions alone. *)
Lemma cache_updates_keep (s s' : MCMC_learn num rng) :
  updates cache_attr s s' ->
  fm s' = fm s /\ pred_sum_all s' = pred_sum_all s /\
  pred_this s' = pred_this s /\ random s' = random s.
Proof.
  intros H. repeat split.
  - revert s s' H. apply updates_preserve.
    intros s a Ha _. destruct a; try reflexivity; discriminate Ha.
  - revert s s' H. apply updates_preserve.
    intros s a Ha _. destruct a; try reflexivity; discriminate Ha.
  - revert s s' H. apply updates_preserve.
    intros s a Ha _. destruct a; try reflexivity; discriminate Ha.
  - revert s s' H. apply updates_preserve.
    intros s a Ha _. destruct a; try reflexivity; discriminate Ha.
Qed.

Lemma updates_foreach (A : attr num rng -> bool) {I : Type} (l : list I)
      (body : I -> MCMC_learn num rng -> result (MCMC_learn num rng)) :
  (forall i s s', body i s = Ok s' -> updates A s s') ->
  forall s s', foreach l body s = Ok s' -> updates A s s'.
Proof.
  intros Hbody. induction l as [|i l IH]; simpl; intros s s' H.
  - injection H as <-. apply updates_refl.
  - bind_step H s1 H1.
    eapply updates_trans; [eapply Hbody | eapply IH]; eassumption.
Qed.

End Frames.

(** Proves [updates A s s'] for an [s'] that is literally a chain of
    assignments on a state known to come from [s]. *)
Ltac updates_chain :=
  repeat first
    [ eassumption
    | apply updates_refl
    | apply updates_assign;
      [ | reflexivity
        | let m := fresh "m" in
          let E := fresh "E" in
          intros m E; first [discriminate E | injection E as <-; reflexivity] ] ].

(** Takes the equations of the error monad among the hypotheses apart:
    binds, pairs, conditionals, until they are equations between values. *)
Ltac monad_inv :=
  repeat match goal with
         | H : bind _ _ = Ok _ |- _ => bind_inv H
         | H : Ok _ = Ok _ |- _ => injection H as H
         | H : Raise _ = Ok _ |- _ => discriminate H
         | H : (let (_, _) := ?p in _) = Ok _ |- _ => destruct p
         | H : (if ?b then _ else _) = Ok _ |- _ => destruct b eqn:?
         end.

Section Footprints.
Context {num rng : Type} {S : Scalar num} {RS : RandomState num rng}.

Lemma draw_alpha_updates (s : MCMC_learn num rng) :
  updates sweep_attr s (draw_alpha s).
Proof.
  unfold draw_alpha. destruct (negb (do_multilevel (fm s))).
  - updates_chain.
  - destruct (ran_gamma _ _ _). updates_chain.
Qed.

Lemma draw_w0_updates (s s' : MCMC_learn num rng) :
  draw_w0 s = Ok s' -> updates sweep_attr s s'.
Proof.
  unfold draw_w0. intros H. monad_inv; subst s'; updates_chain.
Qed.

Lemma draw_w_i_updates X mu lam i (s s' : MCMC_learn num rng) :
  draw_w_i X mu lam i s = Ok s' -> updates sweep_attr s s'.
Proof.
  unfold draw_w_i. intros H. monad_inv; subst s'; updates_chain.
Qed.

Lemma draw_w_updates mu lam (s s' : MCMC_learn num rng) :
  draw_w mu lam s = Ok s' -> updates sweep_attr s s'.
Proof.
  unfold draw_w. apply updates_foreach. intros i. apply draw_w_i_updates.
Qed.

Lemma draw_v_i_updates X f mu lam i (s s' : MCMC_learn num rng) :
  draw_v_i X f mu lam i s = Ok s' -> updates sweep_attr s s'.
Proof.
  unfold draw_v_i. intros H. monad_inv; subst s'; updates_chain.
Qed.

Lemma draw_v_updates f mu lam (s s' : MCMC_learn num rng) :
  draw_v f mu lam s = Ok s' -> updates sweep_attr s s'.
Proof.
  unfold draw_v. intros H. bind_step H vf Hvf. revert H.
  apply updates_foreach. intros i. apply draw_v_i_updates.
Qed.

Lemma draw_w_mu_updates (s s' : MCMC_learn num rng) :
  draw_w_mu s = Ok s' -> updates sweep_attr s s'.
Proof.
  unfold draw_w_mu. intros H. monad_inv; subst s'; updates_chain.
Qed.

Lemma draw_w_lambda_updates (s s' : MCMC_learn num rng) :
  draw_w_lambda s = Ok s' -> updates sweep_attr s s'.
Proof.
  unfold draw_w_lambda. intros H. monad_inv; subst s'; updates_chain.
Qed.

Lemma draw_v_mu_updates (s s' : MCMC_learn num rng) :
  draw_v_mu s = Ok s' -> updates sweep_attr s s'.
Proof.
  unfold draw_v_mu. destruct (negb (do_multilevel (fm s))).
  - intros H. injection H as <-. updates_chain.
  - apply updates_foreach. intros f s0 s1 H.
    monad_inv; subst s1; updates_chain.
Qed.

Lemma draw_v_lambda_updates (s s' : MCMC_learn num rng) :
  draw_v_lambda s = Ok s' -> updates sweep_attr s s'.
Proof.
  unfold draw_v_lambda. destruct (negb (do_multilevel (fm s))).
  - intros H. injection H as <-. updates_chain.
  - apply updates_foreach. intros f s0 s1 H.
    monad_inv; subst s1; updates_chain.
Qed.

Lemma draw_all_factor_updates f (s s' : MCMC_learn num rng) :
  draw_all_factor f s = Ok s' -> updates sweep_attr s s'.
Proof.
  unfold draw_all_factor. intros H.
  bind_step H vf Hvf. bind_step H q Hq. bind_step H c1 Hc1.
  bind_step H mu_f Hmu_f. bind_step H mu_g Hmu_g.
  bind_step H lam_f Hlam_f. bind_step H lam_g Hlam_g.
  eapply updates_trans; [|eapply draw_v_updates; exact H].
  updates_chain.
Qed.

(** A sweep assigns the model's parameters, the hyperparameters, the train
    cache and the generator, nothing else. *)
Lemma draw_all_updates (s s' : MCMC_learn num rng) :
  draw_all s = Ok s' -> updates sweep_attr s s'.
Proof.
  unfold draw_all. intros H.
  bind_step H s1 H1. bind_step H s2 H2. bind_step H s3 H3.
  eapply updates_trans; [apply draw_alpha_updates|].
  eapply updates_trans.
  { destruct (k0 (fm (draw_alpha s))).
    - eapply draw_w0_updates; exact H1.
    - injection H1 as <-. apply updates_refl. }
  eapply updates_trans.
  { destruct (k1 (fm s1)).
    - bind_step H2 t1 Ht1. bind_step H2 t2 Ht2.
      bind_step H2 mu_g Hmu. bind_step H2 lam_g Hlam.
      eapply updates_trans; [eapply draw_w_lambda_updates; exact Ht1|].
      eapply updates_trans; [eapply draw_w_mu_updates; exact Ht2|].
      eapply draw_w_updates; exact H2.
    - injection H2 as <-. apply updates_refl. }
  eapply updates_trans.
  { destruct (0 <? num_factor (fm s2))%Z.
    - bind_step H3 t1 Ht1.
      eapply updates_trans; [eapply draw_v_lambda_updates; exact Ht1|].
      eapply draw_v_mu_updates; exact H3.
    - injection H3 as <-. apply updates_refl. }
  revert H. apply updates_foreach. apply draw_all_factor_updates.
Qed.

End Footprints.

Section RecomputeFootprint.
Context {num rng : Type} {RO : RingOps num}.

(** The recompute assigns the two caches, nothing else; at its end row 1 of
    both is zero. *)
Lemma recompute_updates (s s' : MCMC_learn num rng) :
  predict_data_and_write_to_eterms s = Ok s' -> updates cache_attr s s'.
Proof.
  unfold predict_data_and_write_to_eterms. intros H.
  monad_inv; subst s'; updates_chain.
Qed.

Lemma remove_target_updates (s s' : MCMC_learn num rng) :
  remove_target s = Ok s' -> updates cache_attr s s'.
Proof.
  unfold remove_target. intros H. monad_inv; subst s'; updates_chain.
Qed.




End RecomputeFootprint.

Section LearnFootprint.
Context {num rng : Type} {S : Scalar num} {RS : RandomState num rng}.

Lemma sweep_attr_any (a : attr num rng) : sweep_attr a = true -> any_attr a = true.
Proof. reflexivity. Qed.

Lemma cache_attr_any (a : attr num rng) : cache_attr a = true -> any_attr a = true.
Proof. reflexivity. Qed.

Lemma accumulate_test_keeps (s s' : MCMC_learn num rng) :
  accumulate_test s = Ok s' ->
  updates any_attr s s' /\ cache s' = cache s /\ cache_test s' = cache_test s /\
  fm s' = fm s /\
  pred_this s' = fst (cache_test s) /\
  inplace add (pred_sum_all s)
          (map (np_clip (self_min_target s) (self_max_target s))
               (fst (cache_test s)))
    = Ok (pred_sum_all s').
Proof.
  unfold accumulate_test. intros H. bind_step H r Hr.
  injection H as <-.
  repeat split; try reflexivity; [updates_chain | exact Hr].
Qed.

Lemma evaluate_train_keeps (s s' : MCMC_learn num rng) (r : num) :
  evaluate_train s = Ok (s', r) ->
  remove_target s = Ok s'.
Proof.
  unfold evaluate_train. intros H. bind_step H err Herr. bind_step H s1 H1.
  injection H as <- _. exact H1.
Qed.

Lemma remove_target_keeps_preds (s s' : MCMC_learn num rng) :
  remove_target s = Ok s' ->
  fm s' = fm s /\ pred_sum_all s' = pred_sum_all s /\ pred_this s' = pred_this s.
Proof.
  intros H. apply remove_target_updates in H.
  apply cache_updates_keep in H. tauto.
Qed.

End LearnFootprint.

(** ** The learning loop *)

Section Loop.
Context {num rng : Type} {S : Scalar num} {RS : RandomState num rng}.
Local Open Scope num_scope.

Lemma config_task (m m' : libFM num) : config m' = config m -> task m' = task m.
Proof. unfold config. intros H. injection H. congruence. Qed.

Lemma config_do_sample (m m' : libFM num) :
  config m' = config m -> do_sample m' = do_sample m.
Proof. unfold config. intros H. injection H. congruence. Qed.

(** One iteration, taken apart: the sweep, the full recompute, the
    accumulation of the test predictions, and the subtraction of the
    target, once, each fed with the state the one before it left. *)
Lemma learn_iteration_inv (i : nat) (s s' : MCMC_learn num rng)
      (l l' : list (num * num)) :
  is_regression (task (fm s)) = true ->
  learn_iteration i (s, l) = Ok (s', l') ->
  exists s1 s2 s3,
    draw_all s = Ok s1 /\
    predict_data_and_write_to_eterms s1 = Ok s2 /\
    accumulate_test s2 = Ok s3 /\
    remove_target s3 = Ok s'.
Proof.
  intros Hreg H. unfold learn_iteration in H. simpl fst in H. simpl snd in H.
  bind_step H s1 H1. bind_step H s2 H2.
  assert (Ht : task (fm s2) = task (fm s)).
  { apply config_task.
    pose proof (updates_config (draw_all_updates _ H1)) as C1.
    pose proof (updates_config (recompute_updates _ H2)) as C2. congruence. }
  rewrite Ht, Hreg in H.
  bind_step H s3 H3. bind_step H sr Hsr. bind_step H ev Hev.
  destruct sr as [s4 r]. simpl in H.
  injection H as <- _.
  exists s1, s2, s3. repeat split; try assumption.
  eapply evaluate_train_keeps; exact Hsr.
Qed.

Lemma learn_iteration_updates (i : nat) (sl sl' : MCMC_learn num rng * list (num * num)) :
  learn_iteration i sl = Ok sl' -> updates any_attr (fst sl) (fst sl').
Proof.
  unfold learn_iteration. intros H. bind_step H s1 H1. bind_step H s2 H2.
  assert (H01 : updates any_attr (fst sl) s2).
  { eapply updates_trans.
    - eapply updates_mono; [apply sweep_attr_any|].
      eapply draw_all_updates; exact H1.
    - eapply updates_mono; [apply cache_attr_any|].
      eapply recompute_updates; exact H2. }
  destruct (is_regression (task (fm s2))).
  - bind_step H s3 H3. bind_step H sr Hsr. bind_step H ev Hev.
    injection H as <-. simpl.
    destruct sr as [s4 r]. apply evaluate_train_keeps in Hsr.
    eapply updates_trans; [exact H01|].
    eapply updates_trans.
    + apply accumulate_test_keeps in H3. apply H3.
    + eapply updates_mono; [apply cache_attr_any|].
      simpl. eapply remove_target_updates; exact Hsr.
  - destruct (is_classification (task (fm s2))); [|discriminate H].
    injection H as <-. exact H01.
Qed.

(** The loop of [learn] changes neither the constants of the sampler nor
    the configuration of the model. *)
Lemma learn_loop_updates (l : list nat) (sl sl' : MCMC_learn num rng * list (num * num)) :
  foreach l learn_iteration sl = Ok sl' -> updates any_attr (fst sl) (fst sl').
Proof.
  revert sl. induction l as [|i l IH]; simpl; intros sl H.
  - injection H as <-. apply updates_refl.
  - bind_step H sl1 H1. eapply updates_trans.
    + eapply learn_iteration_updates; exact H1.
    + apply IH. exact H.
Qed.

(** [learn], taken apart. *)
Lemma learn_inv (s s' : MCMC_learn num rng) (l : list (num * num)) (pred : list num) :
  learn s = Ok (s', l, pred) ->
  is_regression (task (fm s)) = true /\
  updates any_attr s s' /\
  predict s' = Ok pred.
Proof.
  unfold learn. intros H.
  bind_step H s1 H1. bind_step H s2 H2. bind_step H sl Hsl. bind_step H p Hp.
  destruct sl as [sf lf]. injection H as <- <- <-.
  assert (H0 : updates any_attr s s1).
  { eapply updates_trans; [|eapply updates_mono; [apply cache_attr_any|];
                             eapply recompute_updates; exact H1].
    updates_chain. }
  assert (Ht : task (fm s1) = task (fm s)).
  { apply config_task. eapply updates_config. exact H0. }
  destruct (is_regression (task (fm s1))) eqn:Hreg; [|discriminate H2].
  split; [rewrite <- Ht; exact Hreg|].
  split; [|exact Hp].
  eapply updates_trans; [exact H0|].
  eapply updates_trans.
  - eapply updates_mono; [apply cache_attr_any|].
    eapply remove_target_updates; exact H2.
  - apply learn_loop_updates in Hsl. exact Hsl.
Qed.

End Loop.

(** ** The q-terms between two recomputes (C4) *)

Section QTerms.
Context {num rng : Type} {S : Scalar num} {RS : RandomState num rng}.


End QTerms.



(** ** The aggregation of the predictions (C6) *)

Section Aggregation.
Context {num rng : Type} {S : Scalar num} {RS : RandomState num rng}.
Local Open Scope num_scope.

Lemma constants_bounds (s s' : MCMC_learn num rng) :
  constants s' = constants s ->
  self_min_target s' = self_min_target s /\
  self_max_target s' = self_max_target s /\
  self_num_iter s' = self_num_iter s /\
  test s' = test s /\ train s' = train s.
Proof. unfold constants. intros H. injection H. intros. repeat split; congruence. Qed.

(** What [predict] returns for a regression. *)
Lemma predict_regression (s : MCMC_learn num rng) :
  is_regression (task (fm s)) = true ->
  predict s =
    let clip := np_clip (self_min_target s) (self_max_target s) in
    if do_sample (fm s) then
      if Nat.eqb (num_cases (test s)) (length (pred_sum_all s))
      then Ok (map clip (map (fun p => p / of_Z (self_num_iter s)) (pred_sum_all s)))
      else Raise AssertionError
    else
      if Nat.eqb (num_cases (test s)) (length (pred_this s))
      then Ok (map clip (pred_this s))
      else Raise AssertionError.
Proof.
  intros Hreg. unfold predict. rewrite Hreg.
  destruct (do_sample (fm s)).
  - destruct (Nat.eqb _ _); reflexivity.
  - destruct (Nat.eqb _ _); reflexivity.
Qed.

(** One iteration keeps the test predictions of its full recompute and
    adds them, clipped, to the running sum. *)
Lemma iteration_accumulates (i : nat) (s s' : MCMC_learn num rng)
      (l l' : list (num * num)) :
  is_regression (task (fm s)) = true ->
  learn_iteration i (s, l) = Ok (s', l') ->
  exists s1 s2,
    draw_all s = Ok s1 /\
    predict_data_and_write_to_eterms s1 = Ok s2 /\
    pred_this s' = fst (cache_test s2) /\
    inplace add (pred_sum_all s)
            (map (np_clip (self_min_target s) (self_max_target s))
                 (fst (cache_test s2)))
      = Ok (pred_sum_all s').
Proof.
  intros Hreg H.
  destruct (@learn_iteration_inv _ _ _ _ i s s' l l' Hreg H)
    as (s1 & s2 & s3 & H1 & H2 & H3 & H4).
  exists s1, s2. split; [exact H1|]. split; [exact H2|].
  pose proof (draw_all_updates _ H1) as U1.
  pose proof (recompute_updates _ H2) as U2.
  destruct (sweep_keeps_test U1) as (_ & P1 & _).
  destruct (cache_updates_keep U2) as (_ & P2 & _ & _).
  destruct (constants_bounds (updates_constants U1)) as (B1 & B1' & _).
  destruct (constants_bounds (updates_constants U2)) as (B2 & B2' & _).
  destruct (accumulate_test_keeps _ H3) as (_ & _ & _ & _ & T1 & T2).
  destruct (remove_target_keeps_preds _ H4) as (_ & R1 & R2).
  split; [congruence|].
  rewrite R1, <- T2. congruence.
Qed.

Lemma last_cons_shift {A : Type} (l : list A) (a d : A) :
  last (a :: l) d = last l a.
Proof.
  revert a d. induction l as [|b l IH]; intros a d; [reflexivity|].
  change (last (a :: b :: l) d) with (last (b :: l) d).
  rewrite (IH b d), (IH b a). reflexivity.
Qed.

(** The states the loop of [learn] goes through, and what it has summed
    up when it ends. *)
Lemma loop_trace (n i : nat) (s s' : MCMC_learn num rng)
      (l l' : list (num * num)) :
  is_regression (task (fm s)) = true ->
  foreach (seq i n) learn_iteration (s, l) = Ok (s', l') ->
  exists ts,
    iterations i s ts /\ length ts = n /\ s' = last ts s /\
    running_sum (self_min_target s) (self_max_target s)
                (map pred_this ts) (pred_sum_all s)
    = Ok (pred_sum_all s') /\
    pred_this s' = last (map pred_this ts) (pred_this s).
Proof.
  revert i s l. induction n as [|n IH]; intros i s l Hreg H.
  - cbn [seq foreach] in H. injection H as <- <-. exists [].
    cbn [iterations length last map running_sum]. repeat split.
  - cbn [seq foreach] in H. bind_step H sl1 H1. destruct sl1 as [t l1].
    destruct (@iteration_accumulates i s t l l1 Hreg H1)
      as (s1 & s2 & D1 & D2 & P & A).
    pose proof (learn_iteration_updates _ _ H1) as U. cbn [fst] in U.
    destruct (constants_bounds (updates_constants U)) as (Bmin & Bmax & _).
    assert (Hreg' : is_regression (task (fm t)) = true).
    { rewrite (config_task (updates_config U)). exact Hreg. }
    destruct (IH (Datatypes.S i) t l1 Hreg' H) as (ts & I & L & E & R & P').
    exists (t :: ts).
    split; [cbn [iterations]; split; [exists l, l1, s1, s2; auto | exact I]|].
    split; [cbn [length]; rewrite L; reflexivity|].
    split; [rewrite last_cons_shift; exact E|].
    split.
    + cbn [map running_sum]. rewrite P, A. cbn [bind].
      rewrite <- Bmin, <- Bmax. exact R.
    + cbn [map]. rewrite last_cons_shift. exact P'.
Qed.

(** C6.  Every iteration of the loop keeps the test predictions of its
    full recompute in [pred_this] and adds them, clipped, to the running
    sum [pred_sum_all].  [predict] returns the running sum divided by the
    number of iterations and clipped when the sampler samples, and the
    clipped [pred_this] when it does not.  When [learn] returns, its loop
    has gone through [num_iter] states [ts], each left by one iteration
    run on the one before, starting from the state [s0] the first
    recompute and the subtraction of the targets leave; the state it
    returns is the last of them; the running sum of that state is the sum
    it started with plus the clipped test predictions of every iteration,
    in order, and its [pred_this] those of the last iteration; and the
    predictions it saves are that sum divided by [num_iter] and clipped
    in sampling mode, and the clipped predictions of the last iteration
    otherwise. *)
Theorem prediction_aggregation :
  (forall (i : nat) (s s' : MCMC_learn num rng) (l l' : list (num * num)),
      is_regression (task (fm s)) = true ->
      learn_iteration i (s, l) = Ok (s', l') ->
      exists s1 s2,
        draw_all s = Ok s1 /\
        predict_data_and_write_to_eterms s1 = Ok s2 /\
        pred_this s' = fst (cache_test s2) /\
        inplace add (pred_sum_all s)
                (map (np_clip (self_min_target s) (self_max_target s))
                     (fst (cache_test s2)))
          = Ok (pred_sum_all s')) /\
  (forall s : MCMC_learn num rng,
      is_regression (task (fm s)) = true ->
      predict s =
        let clip := np_clip (self_min_target s) (self_max_target s) in
        if do_sample (fm s) then
          if Nat.eqb (num_cases (test s)) (length (pred_sum_all s))
          then Ok (map clip (map (fun p => p / of_Z (self_num_iter s))
                                 (pred_sum_all s)))
          else Raise AssertionError
        else
          if Nat.eqb (num_cases (test s)) (length (pred_this s))
          then Ok (map clip (pred_this s))
          else Raise AssertionError) /\
  (forall (s s' : MCMC_learn num rng) (l : list (num * num)) (pred : list num),
      learn s = Ok (s', l, pred) ->
      let clip := np_clip (self_min_target s) (self_max_target s) in
      (exists s0 ts,
          (exists s1,
              predict_data_and_write_to_eterms
                (assign s (Afm (set_regs (fm s) zero zero zero))) = Ok s1 /\
              remove_target s1 = Ok s0) /\
          pred_sum_all s0 = pred_sum_all s /\ pred_this s0 = pred_this s /\
          iterations 0 s0 ts /\
          length ts = Z.to_nat (self_num_iter s) /\
          s' = last ts s0 /\
          running_sum (self_min_target s) (self_max_target s)
                      (map pred_this ts) (pred_sum_all s)
          = Ok (pred_sum_all s') /\
          pred_this s' = last (map pred_this ts) (pred_this s)) /\
      pred = (if do_sample (fm s)
              then map clip (map (fun p => p / of_Z (self_num_iter s))
                                 (pred_sum_all s'))
              else map clip (pred_this s')) /\
      predict s' = Ok pred /\
      is_regression (task (fm s')) = true /\
      do_sample (fm s') = do_sample (fm s) /\
      self_num_iter s' = self_num_iter s /\
      self_min_target s' = self_min_target s /\
      self_max_target s' = self_max_target s).
Proof.
  split; [|split].
  - apply iteration_accumulates.
  - apply predict_regression.
  - intros s s' l pred H clip.
    destruct (learn_inv _ H) as (Hreg & U & Hp).
    pose proof (updates_config U) as C.
    destruct (constants_bounds (updates_constants U)) as (B1 & B2 & B3 & _).
    assert (Hreg' : is_regression (task (fm s')) = true)
      by (rewrite (config_task C); exact Hreg).
    pose proof (config_do_sample C) as Hds.
    split; [|split].
    + pose proof H as H'. unfold learn in H'.
      bind_step H' s1 H1. bind_step H' s0 Hs0. bind_step H' sl Hsl.
      bind_step H' p Hp'. injection H' as E1 E2. subst sl.
      destruct (is_regression (task (fm s1))) eqn:R1; [|discriminate Hs0].
      assert (U1 : updates any_attr s s1).
      { eapply updates_trans;
          [|eapply updates_mono; [apply cache_attr_any|];
            eapply recompute_updates; exact H1].
        updates_chain. }
      pose proof (recompute_updates _ H1) as V1.
      destruct (cache_updates_keep V1) as (_ & P1 & P1' & _).
      cbn [assign pred_sum_all pred_this] in P1, P1'.
      destruct (remove_target_keeps_preds _ Hs0) as (Ef0 & P0 & P0').
      assert (U0 : updates any_attr s s0).
      { eapply updates_trans; [exact U1|].
        eapply updates_mono; [apply cache_attr_any|].
        eapply remove_target_updates; exact Hs0. }
      destruct (constants_bounds (updates_constants U0)) as (A1 & A2 & A3 & _).
      assert (Hreg0 : is_regression (task (fm s0)) = true).
      { rewrite (config_task (updates_config U0)). exact Hreg. }
      unfold xrange in Hsl. rewrite A3 in Hsl.
      destruct (@loop_trace _ _ _ _ _ _ Hreg0 Hsl) as (ts & I & L & E & R & P).
      exists s0, ts.
      split; [exists s1; split; assumption|].
      split; [congruence|]. split; [congruence|].
      split; [exact I|]. split; [exact L|]. split; [exact E|].
      rewrite A1, A2 in R. split; [rewrite <- P1, <- P0; exact R|].
      rewrite P. f_equal. congruence.
    + rewrite (predict_regression _ Hreg') in Hp. cbv zeta in Hp.
      rewrite Hds, B1, B2, B3 in Hp. subst clip.
      destruct (do_sample (fm s));
        destruct (Nat.eqb _ _); try discriminate Hp;
        injection Hp as <-; reflexivity.
    + repeat split; assumption.
Qed.

End Aggregation.

Lemma prediction_aggregation_witness :
  exists ts,
    iterations (RS := Demo.rs) 0 Demo.entering_loop ts /\
    length ts = 1 /\
    fst (fst Demo.learned) = last ts Demo.entering_loop /\
    running_sum (self_min_target Demo.fresh) (self_max_target Demo.fresh)
                (map pred_this ts) (pred_sum_all Demo.fresh)
    = Ok (pred_sum_all (fst (fst Demo.learned))) /\
    snd Demo.learned
    = map (np_clip (self_min_target Demo.fresh) (self_max_target Demo.fresh))
          (last (map pred_this ts) (pred_this Demo.fresh)).
Proof.
  destruct (proj2 (proj2 (prediction_aggregation (S := binary64_scalar)
                                                 (RS := Demo.rs)))
                  Demo.fresh (fst (fst Demo.learned))
                  (snd (fst Demo.learned)) (snd Demo.learned))
    as ((s0 & ts & (s1 & H1 & H0) & _ & _ & I & L & E & R & P) & Hp & _).
  - vm_compute. reflexivity.
  - vm_compute in H1. injection H1 as <-.
    vm_compute in H0. injection H0 as <-.
    exists ts. split; [exact I|]. split; [exact L|]. split; [exact E|].
    split; [exact R|]. rewrite P in Hp. exact Hp.
Defined.

(** ** The guard against non-finite draws (C2) *)

(** C2, evaluated, in the first sweep of an ALS run on the training file
    [1 0:1] and the test file [1 1:1] with [dim = '1,1,1'].

    Feature 1 has no training case: the posterior of [w[1]] has variance
    [1/0 = inf] and mean [-inf * 0 = NaN].  The value of [w[1]] before the
    draw is finite, and that value is what the guard of [draw_w] tests: the
    NaN is committed to [w[1]].

    Feature 0 is alone in its case: the h-term of [v[0][0]] is zero (and
    so stores nothing) and the posterior is again [(NaN, inf)]; the NaN is
    committed to [v[0][0]], and the patch made from it, [NaN * x_li], turns
    row 1 of the train cache into NaN.  Row 0 is patched with [NaN * h],
    which stores nothing, and stays as it is. *)
Theorem nonfinite_draw_is_committed :
  (let s := Demo.state_w1 in
   let X := tocsr (data_t (train s)) in
   let mu := fst Demo.hyper_w1 in
   let lam := snd Demo.hyper_w1 in
   getrow X 1 = Ok [] /\
   B64.finite (nth 1 (w (fm s)) zero) = true /\
   w_posterior mu lam [] 1 s = Ok (B64.nan, B64.pinf) /\
   posterior_draw (RS := Demo.rs) (do_sample (fm s)) B64.nan B64.pinf (random s)
     = (B64.nan, random s) /\
   match draw_w_i (RS := Demo.rs) X mu lam 1 s with
   | Ok s' => nth 1 (w (fm s')) zero = B64.nan
   | Raise _ => False
   end) /\
  (let s := Demo.state_v00 in
   let X := tocsr (data_t (train s)) in
   let mu := fst Demo.hyper_v00 in
   let lam := snd Demo.hyper_v00 in
   getrow X 0 = Ok [(0, one)] /\
   B64.finite (nth 0 (nth 0 (v (fm s)) []) zero) = true /\
   v_posterior X 0 mu lam [(0, one)] 0 s = Ok (B64.nan, B64.pinf) /\
   posterior_draw (RS := Demo.rs) (do_sample (fm s)) B64.nan B64.pinf (random s)
     = (B64.nan, random s) /\
   match draw_v_i (RS := Demo.rs) X 0 mu lam 0 s with
   | Ok s' =>
       nth 0 (nth 0 (v (fm s')) []) zero = B64.nan /\
       snd (cache s') = [B64.nan] /\
       B64.finite (nth 0 (fst (cache s)) zero) = true /\
       fst (cache s') = fst (cache s)
   | Raise _ => False
   end).
Proof. vm_compute. repeat split; reflexivity. Qed.

(** The guard tests the value of the parameter before the draw and nothing
    else: when that value is finite, whatever is drawn is committed. *)
Lemma commit_finite_old {num rng : Type} {S : Scalar num} {RS : RandomState num rng}
      (old : num) (sample : bool) (mean sigma_sqr : num) (g : rng) :
  isinf old = false -> isnan old = false ->
  commit old sample mean sigma_sqr g = posterior_draw sample mean sigma_sqr g.
Proof. intros Hi Hn. unfold commit. rewrite Hi, Hn. reflexivity. Qed.

(** ** The clipping bounds (C10) *)

(** *** The order of binary64 *)

Lemma SFcompare_antisym (x y : spec_float) :
  SFcompare y x = option_map CompOpp (SFcompare x y).
Proof.
  destruct x as [sx|sx| |sx mx ex], y as [sy|sy| |sy my ey];
    try destruct sx; try destruct sy; simpl; try reflexivity.
  - rewrite (Z.compare_antisym ex ey). destruct (ex ?= ey)%Z; simpl; try reflexivity.
    rewrite (Pos.compare_cont_antisym mx my Eq). reflexivity.
  - rewrite (Z.compare_antisym ex ey). destruct (ex ?= ey)%Z; simpl; try reflexivity.
    rewrite (Pos.compare_cont_antisym mx my Eq). simpl.
    destruct (Pos.compare_cont Eq mx my); reflexivity.
Qed.

Lemma SFcompare_nan (x y : spec_float) :
  B64.is_nan x = false -> B64.is_nan y = false ->
  exists c, SFcompare x y = Some c.
Proof.
  destruct x, y; simpl; intros Hx Hy; try discriminate; eexists; reflexivity.
Qed.

Lemma SFleb_refl (x : spec_float) : B64.is_nan x = false -> SFleb x x = true.
Proof.
  unfold SFleb.
  destruct x as [sx|sx| |sx mx ex]; try destruct sx; simpl; intros H;
    try reflexivity; try discriminate H.
  - rewrite Z.compare_refl. fold (Pos.compare mx mx).
    rewrite Pos.compare_refl. reflexivity.
  - rewrite Z.compare_refl. fold (Pos.compare mx mx).
    rewrite Pos.compare_refl. reflexivity.
Qed.


Lemma SFleb_not_nan (x y : spec_float) :
  SFleb x y = true -> B64.is_nan x = false /\ B64.is_nan y = false.
Proof.
  unfold SFleb. destruct x, y; simpl; intros H; try discriminate H;
    split; reflexivity.
Qed.

(** not [y < x], for numbers, is [x <= y] *)
Lemma SFltb_false_leb (x y : spec_float) :
  B64.is_nan x = false -> B64.is_nan y = false ->
  SFltb y x = false -> SFleb x y = true.
Proof.
  intros Hx Hy. unfold SFltb, SFleb. rewrite (SFcompare_antisym x y).
  destruct (SFcompare_nan _ _ Hx Hy) as [c ->]. destruct c; simpl; congruence.
Qed.


Lemma SFleb_ltb_false (x y : spec_float) : SFleb x y = true -> SFltb y x = false.
Proof.
  unfold SFltb, SFleb. rewrite (SFcompare_antisym x y).
  destruct (SFcompare x y) as [[| |]|]; simpl; congruence.
Qed.

(** *** [np.clip] in binary64: a NaN stays a NaN, a number ends up between
    the bounds, provided the lower one is not above the upper one. *)
Lemma np_clip_within (lo hi x : B64.binary64) :
  SFleb lo hi = true ->
  B64.is_nan (np_clip lo hi x) = true \/ B64.within lo hi (np_clip lo hi x) = true.
Proof.
  intros Hlh. destruct (SFleb_not_nan _ _ Hlh) as [Hlo Hhi].
  unfold np_clip, np_maximum, np_minimum, B64.within. cbn [isnan ltb binary64_scalar].
  destruct (B64.is_nan x) eqn:Hx.
  - rewrite Hx. left. exact Hx.
  - rewrite Hlo. destruct (SFltb x lo) eqn:Hxl.
    + rewrite Hlo, Hhi, (SFleb_ltb_false _ _ Hlh). right.
      rewrite (SFleb_refl _ Hlo), Hlh. reflexivity.
    + rewrite Hx, Hhi. destruct (SFltb hi x) eqn:Hhx; right.
      * rewrite Hlh, (SFleb_refl _ Hhi). reflexivity.
      * rewrite (SFltb_false_leb _ _ Hlo Hx Hxl), (SFltb_false_leb _ _ Hx Hhi Hhx).
        reflexivity.
Qed.

(** *** The bounds [Data.__init__] computes *)












(** ** The frame of a cache patch (C7) *)

Section StoredColumns.
Context {num : Type} {RO : RingOps num}.
Local Open Scope num_scope.

Lemma row_get_absent (x : list (nat * num)) (c : nat) :
  row_stores x c = false -> row_get x c = zero.
Proof.
  unfold row_stores, row_get. induction x as [|p x IH]; simpl.
  - reflexivity.
  - destruct (Nat.eqb (fst p) c); simpl; [discriminate | exact IH].
Qed.

Lemma row_stores_scale (d : num) (x : list (nat * num)) (c : nat) :
  row_stores (row_scale d x) c = row_stores x c.
Proof.
  unfold row_stores, row_scale. induction x as [|p x IH];
    cbn [map existsb fst]; [reflexivity|]. rewrite IH. reflexivity.
Qed.

(** a product of sparse rows stores nothing where its left factor stores
    nothing *)
Lemma row_stores_multiply (x y : list (nat * num)) (c : nat) :
  row_stores x c = false -> row_stores (row_multiply x y) c = false.
Proof.
  unfold row_stores. revert y.
  induction x as [|[k a] x IH]; intros [|[k' b] y]; cbn [row_multiply];
    try reflexivity.
  cbn [map existsb fst]. intros H. apply orb_false_iff in H as [Hk Hx].
  destruct (nonzero (a * b)).
  - cbn [map existsb fst]. rewrite Hk. apply IH. exact Hx.
  - apply IH. exact Hx.
Qed.

End StoredColumns.

Section PatchFrame.
Context {num rng : Type} {S : Scalar num} {RS : RandomState num rng}.
Local Open Scope num_scope.

(** The law of zero the property needs: [a - 0 = a], which holds in
    binary64 as in exact arithmetic. *)
Variable sub_zero : forall a : num, a - zero = a.

Lemma sub_row_vanishes (a : list num) (x : list (nat * num)) (c : nat) (d : num) :
  row_get x c = zero -> nth c (sub_row a x) d = nth c a d.
Proof.
  unfold sub_row. intros Hz.
  assert (G : forall (a : list num) (k c : nat),
             row_get x (k + c) = zero ->
             nth c (map (fun ce => snd ce - row_get x (fst ce))
                        (combine (seq k (length a)) a)) d
             = nth c a d).
  { clear a c Hz. induction a as [|e a IH]; intros k c Hz.
    - destruct c; reflexivity.
    - destruct c as [|c]; simpl.
      + rewrite Nat.add_0_r in Hz. rewrite Hz. apply sub_zero.
      + apply IH. replace (Datatypes.S k + c)%nat with (k + Datatypes.S c)%nat by lia.
        exact Hz. }
  apply G. exact Hz.
Qed.

Lemma sub_row_unstored (a : list num) (x : list (nat * num)) (c : nat)
      (e d : num) :
  row_stores x c = false -> nth c (sub_row a (row_scale e x)) d = nth c a d.
Proof.
  intros H. apply sub_row_vanishes. apply row_get_absent.
  rewrite row_stores_scale. exact H.
Qed.

(** A draw of [w[i]] patches row 0 of the train cache and leaves row 1
    alone, a draw of [v[f][i]] patches both rows, and either patch leaves
    the entry of every case [c] as it is when row [i] of the transposed
    data stores nothing at [c]: the file of the case does not name
    feature [i]. *)
Theorem patch_leaves_unstored_cases (X : csr_matrix num) (f i c : nat)
        (mu lam : list num) (x_li : list (nat * num)) (s : MCMC_learn num rng)
        (d : num) :
  getrow X i = Ok x_li ->
  row_stores x_li c = false ->
  (forall s', draw_w_i X mu lam i s = Ok s' ->
              nth c (fst (cache s')) d = nth c (fst (cache s)) d /\
              snd (cache s') = snd (cache s)) /\
  (forall s', draw_v_i X f mu lam i s = Ok s' ->
              nth c (fst (cache s')) d = nth c (fst (cache s)) d /\
              nth c (snd (cache s')) d = nth c (snd (cache s)) d).
Proof.
  intros Hrow Hv. split.
  - intros s' H. unfold draw_w_i in H. rewrite Hrow in H. cbn [bind] in H.
    bind_step H ms Hms. bind_step H w_old Hw.
    destruct (commit _ _ _ _ _) as [w_new g]. injection H as <-.
    cbn [cache assign fst snd]. split; [|reflexivity].
    apply sub_row_unstored. exact Hv.
  - intros s' H. unfold draw_v_i in H. rewrite Hrow in H. cbn [bind] in H.
    bind_step H ms Hms. bind_step H vf Hvf. bind_step H v_old Hv_old.
    destruct (commit _ _ _ _ _) as [v_new g].
    bind_step H h Hh. injection H as <-.
    cbn [cache assign fst snd]. split.
    + apply sub_row_unstored.
      unfold h_term in Hh. bind_step Hh Y HY. injection Hh as <-.
      apply row_stores_multiply. exact Hv.
    + apply sub_row_unstored. exact Hv.
Qed.

End PatchFrame.

Lemma SFsub_zero_r (a : B64.binary64) : sub a zero = a.
Proof. destruct a as [[|]|[|]| |]; reflexivity. Qed.

Lemma patch_leaves_unstored_cases_witness :
  getrow (tocsr (data_t (train Demo.state_two))) 0 = Ok [(0, one)] /\
  (exists s', draw_w_i (RS := Demo.rs) (tocsr (data_t (train Demo.state_two)))
                       (fst Demo.hyper_two) (snd Demo.hyper_two) 0 Demo.state_two
              = Ok s' /\
              nth 0 (fst (cache s')) zero <> nth 0 (fst (cache Demo.state_two)) zero /\
              nth 1 (fst (cache s')) zero = nth 1 (fst (cache Demo.state_two)) zero /\
              snd (cache s') = snd (cache Demo.state_two)) /\
  (exists s', draw_v_i (RS := Demo.rs) (tocsr (data_t (train Demo.state_two))) 0
                       (fst Demo.hyper_two) (snd Demo.hyper_two) 0 Demo.state_two
              = Ok s' /\
              nth 1 (fst (cache s')) zero = nth 1 (fst (cache Demo.state_two)) zero /\
              nth 1 (snd (cache s')) zero = nth 1 (snd (cache Demo.state_two)) zero).
Proof.
  pose proof (@patch_leaves_unstored_cases B64.binary64 Demo.rng binary64_scalar
                Demo.rs SFsub_zero_r (tocsr (data_t (train Demo.state_two))) 0 0 1
                (fst Demo.hyper_two) (snd Demo.hyper_two) [(0, one)]
                Demo.state_two zero eq_refl eq_refl) as [Hw Hv].
  split; [reflexivity|]. split.
  - destruct (draw_w_i (tocsr (data_t (train Demo.state_two)))
                       (fst Demo.hyper_two) (snd Demo.hyper_two) 0 Demo.state_two)
      as [s'|e] eqn:E; [|vm_compute in E; discriminate].
    exists s'. split; [reflexivity|]. split; [|exact (Hw s' E)].
    vm_compute in E. injection E as <-. vm_compute. discriminate.
  - destruct (draw_v_i (tocsr (data_t (train Demo.state_two))) 0
                       (fst Demo.hyper_two) (snd Demo.hyper_two) 0 Demo.state_two)
      as [s'|e] eqn:E; [|vm_compute in E; discriminate].
    exists s'. split; [reflexivity|]. exact (Hv s' E).
Defined.

(** C7, evaluated on the training file [1 0:0 1:1], ALS, [dim = '1,1,0'],
    at the draw of [w[0]] in the first sweep.  The case stores a zero for
    feature 0; before the draw [w[0]] and the cache entry of the case are
    finite; the draw commits a NaN to [w[0]], and the patch
    [(w_old - NaN) * 0] turns the cache entry of the case into a NaN. *)
Lemma stored_zero_patched_with_nan :
  getrow (tocsr (data_t (train Demo.state_zero))) 0 = Ok [(0, zero)] /\
  B64.finite (nth 0 (w (fm Demo.state_zero)) zero) = true /\
  B64.finite (nth 0 (fst (cache Demo.state_zero)) zero) = true /\
  match draw_w_i (RS := Demo.rs) (tocsr (data_t (train Demo.state_zero)))
                 (fst Demo.hyper_zero) (snd Demo.hyper_zero) 0 Demo.state_zero with
  | Ok s' =>
      B64.is_nan (nth 0 (w (fm s')) zero) = true /\
      B64.is_nan (nth 0 (fst (cache s')) zero) = true
  | Raise _ => False
  end.
Proof. vm_compute. repeat split; reflexivity. Qed.

(** ** The recompute computes the prediction (C1) *)

Section RingFacts.
Context {num : Type} {RO : RingOps num}.
Variable Rth : ring_theory zero one add mul sub opp (@eq num).
Add Ring num_ring : Rth.
Local Open Scope num_scope.

(** *** Sums *)

Lemma fold_add_from (l : list num) (a : num) :
  fold_left add l a = a + np_sum l.
Proof.
  unfold np_sum. revert a. induction l as [|x l IH]; intros a; simpl.
  - ring.
  - rewrite (IH (a + x)), (IH (zero + x)). ring.
Qed.

Lemma np_sum_cons (x : num) (l : list num) : np_sum (x :: l) = x + np_sum l.
Proof. unfold np_sum at 1. simpl. rewrite fold_add_from. ring. Qed.

Lemma sum_upto_ext (n : nat) (f g : nat -> num) :
  (forall i, i < n -> f i = g i) -> sum_upto n f = sum_upto n g.
Proof.
  induction n as [|n IH]; intros H; simpl.
  - reflexivity.
  - rewrite IH by (intros i Hi; apply H; lia). rewrite H by lia. reflexivity.
Qed.

Lemma sum_upto_add (n : nat) (f g : nat -> num) :
  sum_upto n (fun i => f i + g i) = sum_upto n f + sum_upto n g.
Proof. induction n as [|n IH]; simpl; [|rewrite IH]; ring. Qed.

Lemma sum_upto_scale (n : nat) (a : num) (f : nat -> num) :
  sum_upto n (fun i => a * f i) = a * sum_upto n f.
Proof. induction n as [|n IH]; simpl; [|rewrite IH]; ring. Qed.

Lemma sum_upto_zero (n : nat) : sum_upto n (fun _ => zero) = zero.
Proof. induction n as [|n IH]; simpl; [|rewrite IH]; ring. Qed.

(** a sum with one term *)
Lemma sum_upto_single (n i0 : nat) (a : num) :
  i0 < n -> sum_upto n (fun i => if Nat.eqb i0 i then a else zero) = a.
Proof.
  induction n as [|n IH]; intros H; [lia|]. simpl.
  destruct (Nat.eqb_spec i0 n) as [->|Hne].
  - rewrite (@sum_upto_ext n _ (fun _ => zero)).
    + rewrite sum_upto_zero. ring.
    + intros i Hi. destruct (Nat.eqb_spec n i); [lia | reflexivity].
  - rewrite IH by lia. ring.
Qed.

(** the first term set apart *)
Lemma sum_upto_shift (n : nat) (f : nat -> num) :
  sum_upto (Datatypes.S n) f = f 0 + sum_upto n (fun i => f (Datatypes.S i)).
Proof.
  induction n as [|n IH].
  - simpl. ring.
  - change (sum_upto (Datatypes.S (Datatypes.S n)) f)
      with (sum_upto (Datatypes.S n) f + f (Datatypes.S n)).
    rewrite IH. simpl. ring.
Qed.

(** *** Arrays *)

Lemma np_zeros_length (n : nat) : length (np_zeros (num := num) n) = n.
Proof. apply repeat_length. Qed.

Lemma nth_np_zeros (n c : nat) : nth c (np_zeros n) zero = zero.
Proof.
  unfold np_zeros. revert c. induction n as [|n IH]; intros [|c]; simpl; auto.
Qed.

Lemma add_at_length (j : nat) (d : num) (y : list num) :
  length (add_at j d y) = length y.
Proof.
  revert j. induction y as [|h y IH]; intros [|j]; simpl; auto.
Qed.

Lemma nth_add_at (j c : nat) (d : num) (y : list num) :
  j < length y ->
  nth c (add_at j d y) zero = nth c y zero + (if Nat.eqb j c then d else zero).
Proof.
  revert j c. induction y as [|h y IH]; intros j c Hj; simpl in Hj; [lia|].
  destruct j as [|j], c as [|c]; simpl; try ring.
  rewrite IH by lia. reflexivity.
Qed.

Lemma nth_map2 (f : num -> num -> num) (a b : list num) (c : nat) :
  length a = length b -> c < length a ->
  nth c (map2 f a b) zero = f (nth c a zero) (nth c b zero).
Proof.
  revert b c. induction a as [|x a IH]; intros [|y b] c Hl Hc; simpl in *; try lia.
  destruct c as [|c]; [reflexivity|]. apply IH; lia.
Qed.

Lemma nth_map_in (f : num -> num) (a : list num) (c : nat) :
  c < length a -> nth c (map f a) zero = f (nth c a zero).
Proof.
  revert c. induction a as [|x a IH]; intros c Hc; simpl in *; [lia|].
  destruct c as [|c]; [reflexivity|]. apply IH; lia.
Qed.

End RingFacts.

Section MatVec.
Context {num : Type} {RO : RingOps num}.
Variable Rth : ring_theory zero one add mul sub opp (@eq num).
Add Ring num_ring_matvec : Rth.
Local Open Scope num_scope.

(** *** [v * M] for a COO matrix: entry [c] of the product is
    [sum_i v_i M_ic]. *)

Lemma rmatvec_fold (v : list num) (F : nat) (L : list (nat * nat * num))
      (y : list num) (c : nat) :
  forallb (in_shape F (length y)) L = true ->
  let r := fold_left
             (fun y e => add_at (entry_col e)
                                (entry_val e * nth (entry_row e) v zero) y) L y in
  length r = length y /\
  nth c r zero
  = nth c y zero
    + sum_upto F (fun i => nth i v zero
                           * np_sum (map entry_val (filter (at_pos i c) L))).
Proof.
  revert y. induction L as [|e L IH]; intros y HL; cbn [fold_left].
  - split; [reflexivity|].
    rewrite (@sum_upto_ext _ _ F _ (fun _ => zero)).
    + rewrite (sum_upto_zero Rth). ring.
    + intros i _. cbn. unfold np_sum. cbn. ring.
  - cbn [forallb] in HL. apply andb_prop in HL. destruct HL as [He HL].
    unfold in_shape in He. apply andb_prop in He. destruct He as [Hi Hj].
    apply Nat.ltb_lt in Hi. apply Nat.ltb_lt in Hj.
    specialize (IH (add_at (entry_col e)
                           (entry_val e * nth (entry_row e) v zero) y)).
    rewrite add_at_length in IH. destruct (IH HL) as [Hlen Hnth].
    split; [exact Hlen|].
    rewrite Hnth, (nth_add_at Rth) by exact Hj.
    rewrite (@sum_upto_ext _ _ F
               (fun i => nth i v zero
                         * np_sum (map entry_val (filter (at_pos i c) (e :: L))))
               (fun i => (if Nat.eqb (entry_row e) i
                          then (if Nat.eqb (entry_col e) c
                                then entry_val e * nth (entry_row e) v zero
                                else zero)
                          else zero)
                         + nth i v zero
                           * np_sum (map entry_val (filter (at_pos i c) L)))).
    + rewrite (sum_upto_add Rth), (sum_upto_single Rth) by exact Hi. ring.
    + intros i _. cbn [filter]. unfold at_pos at 1.
      destruct (Nat.eqb_spec (entry_row e) i) as [<-|Hne]; cbn [andb].
      * destruct (Nat.eqb (entry_col e) c); cbn [map].
        -- rewrite (np_sum_cons Rth). ring.
        -- ring.
      * ring.
Qed.

Lemma rmatvec_spec (v : list num) (M : coo_matrix num) :
  length v = shape0 M ->
  forallb (in_shape (shape0 M) (shape1 M)) (coo_entries M) = true ->
  exists r, rmatvec v M = Ok r /\ length r = shape1 M /\
            forall c, nth c r zero
                      = sum_upto (shape0 M) (fun i => nth i v zero * coo_get M i c).
Proof.
  intros Hv HM. unfold rmatvec. rewrite Hv, Nat.eqb_refl.
  eexists. split; [reflexivity|].
  assert (HM' : forallb (in_shape (shape0 M) (length (np_zeros (num := num) (shape1 M))))
                        (coo_entries M) = true)
    by (rewrite np_zeros_length; exact HM).
  split.
  - destruct (rmatvec_fold v (shape0 M) (coo_entries M) (np_zeros (shape1 M)) 0 HM')
      as [Hl _].
    rewrite Hl. apply np_zeros_length.
  - intros c.
    destruct (rmatvec_fold v (shape0 M) (coo_entries M) (np_zeros (shape1 M)) c HM')
      as [_ Hn].
    rewrite Hn, nth_np_zeros. unfold coo_get. ring.
Qed.

Lemma coo_get_transpose (M : coo_matrix num) (i c : nat) :
  coo_get (transpose M) i c = coo_get M c i.
Proof.
  unfold coo_get, transpose. cbn [coo_entries]. f_equal.
  induction (coo_entries M) as [|[[r k] x] L IH]; [reflexivity|].
  unfold at_pos, entry_row, entry_col, entry_val in *. simpl.
  rewrite (andb_comm (Nat.eqb k i)).
  destruct (Nat.eqb r c && Nat.eqb k i); simpl; rewrite IH; reflexivity.
Qed.

Lemma transpose_in_shape (M : coo_matrix num) (r c : nat) :
  forallb (in_shape r c) (coo_entries M) = true ->
  forallb (in_shape c r) (coo_entries (transpose M)) = true.
Proof.
  unfold transpose. cbn [coo_entries].
  induction (coo_entries M) as [|[[i k] x] L IH]; [reflexivity|].
  unfold in_shape, entry_row, entry_col in *. simpl.
  intros H. apply andb_prop in H. destruct H as [He HL].
  rewrite (IH HL), andb_true_r, andb_comm. exact He.
Qed.

End MatVec.

Section CsrMatVec.
Context {num : Type} {RO : RingOps num}.
Variable Rth : ring_theory zero one add mul sub opp (@eq num).
Add Ring num_ring_csr : Rth.
Local Open Scope num_scope.

(** The test for zero is exact: what [nonzero] rejects is the zero of the
    ring. *)
Variable nonzero_exact : forall x : num, nonzero x = false -> x = zero.

(** *** [u * X.multiply(X)] for [X = M.tocsr()]: entry [c] of the product
    is [sum_i u_i M_ic^2]. *)

Lemma row_multiply_app_same (a b : list (nat * num)) :
  row_multiply (a ++ b) (a ++ b) = row_multiply a a ++ row_multiply b b.
Proof.
  induction a as [|[k x] a IH]; simpl; [reflexivity|]. rewrite IH.
  destruct (nonzero (x * x)); reflexivity.
Qed.

Lemma not_stored_get (M : coo_matrix num) (i j : nat) :
  stored M i j = false -> coo_get M i j = zero.
Proof.
  unfold stored, coo_get. intros H.
  replace (filter (at_pos i j) (coo_entries M)) with (@nil (nat * nat * num)).
  - reflexivity.
  - symmetry. induction (coo_entries M) as [|e L IH]; [reflexivity|].
    simpl in H |- *. apply orb_false_elim in H. destruct H as [He HL].
    rewrite He. apply IH. exact HL.
Qed.

(** what the squared row holds at column [c] *)
Lemma squared_row_at (M : coo_matrix num) (i c : nat) :
  filter (fun p => Nat.eqb (fst p) c) (squared_row M i)
  = if stored M i c && Nat.ltb c (shape1 M)
    then if nonzero (coo_get M i c * coo_get M i c)
         then [(c, coo_get M i c * coo_get M i c)] else []
    else [].
Proof.
  unfold squared_row, csr_row_of.
  assert (G : forall n k,
             filter (fun p => Nat.eqb (fst p) c)
                    (row_multiply
                       (flat_map (fun j => if stored M i j
                                           then [(j, coo_get M i j)] else [])
                                 (seq k n))
                       (flat_map (fun j => if stored M i j
                                           then [(j, coo_get M i j)] else [])
                                 (seq k n)))
             = if stored M i c && (Nat.leb k c && Nat.ltb c (k + n))
               then if nonzero (coo_get M i c * coo_get M i c)
                    then [(c, coo_get M i c * coo_get M i c)] else []
               else []).
  { induction n as [|n IH]; intros k.
    - simpl. replace (Nat.leb k c && Nat.ltb c (k + 0)) with false.
      + rewrite andb_false_r. reflexivity.
      + symmetry. apply andb_false_iff.
        destruct (Nat.leb_spec k c); [right; apply Nat.ltb_ge; lia | left; reflexivity].
    - cbn [seq flat_map]. rewrite row_multiply_app_same, filter_app, IH.
      destruct (Nat.eqb_spec k c) as [->|Hne].
      + replace (Nat.leb (Datatypes.S c) c) with false
          by (symmetry; apply Nat.leb_gt; lia).
        rewrite andb_false_l, andb_false_r, app_nil_r.
        replace (Nat.leb c c && Nat.ltb c (c + Datatypes.S n)) with true.
        * rewrite andb_true_r. destruct (stored M i c); simpl.
          -- destruct (nonzero (coo_get M i c * coo_get M i c)); simpl;
               [rewrite Nat.eqb_refl|]; reflexivity.
          -- reflexivity.
        * symmetry. apply andb_true_intro.
          split; [apply Nat.leb_le; lia | apply Nat.ltb_lt; lia].
      + replace (filter (fun p => Nat.eqb (fst p) c)
                        (row_multiply
                           (if stored M i k then [(k, coo_get M i k)] else [])
                           (if stored M i k then [(k, coo_get M i k)] else [])))
          with (@nil (nat * num)).
        * cbn [app].
          replace (Nat.leb k c && Nat.ltb c (k + Datatypes.S n))
            with (Nat.leb (Datatypes.S k) c && Nat.ltb c (Datatypes.S k + n));
            [reflexivity|].
          destruct (Nat.leb_spec (Datatypes.S k) c), (Nat.leb_spec k c);
            try lia; cbn [andb]; try reflexivity.
          destruct (Nat.ltb_spec c (Datatypes.S k + n)),
                   (Nat.ltb_spec c (k + Datatypes.S n)); try lia; reflexivity.
        * destruct (stored M i k); simpl; [|reflexivity].
          destruct (nonzero (coo_get M i k * coo_get M i k)); simpl;
            [|reflexivity].
          destruct (Nat.eqb_spec k c); [contradiction | reflexivity]. }
  rewrite (G (shape1 M) 0). cbn [Nat.leb Nat.add andb]. reflexivity.
Qed.

Lemma squared_row_columns (M : coo_matrix num) (i : nat) :
  Forall (fun p => fst p < shape1 M) (squared_row M i).
Proof.
  unfold squared_row, csr_row_of.
  assert (G : forall l, Forall (fun j => j < shape1 M) l ->
             Forall (fun p => fst p < shape1 M)
                    (row_multiply
                       (flat_map (fun j => if stored M i j
                                           then [(j, coo_get M i j)] else [])
                                 l)
                       (flat_map (fun j => if stored M i j
                                           then [(j, coo_get M i j)] else [])
                                 l))).
  { induction l as [|j l IH]; intros Hl; [constructor|].
    cbn [flat_map]. rewrite row_multiply_app_same. apply Forall_app.
    inversion Hl as [|j' l' Hj Hl' E]. subst.
    split; [|apply IH; exact Hl'].
    destruct (stored M i j); simpl; [|constructor].
    destruct (nonzero (coo_get M i j * coo_get M i j)); constructor;
      [exact Hj | constructor]. }
  apply G. apply Forall_forall. intros j Hj. apply in_seq in Hj. lia.
Qed.

(** the contribution of one row to the product *)
Lemma csr_row_fold (ui : num) (r : list (nat * num)) (y : list num) (c : nat) :
  Forall (fun p => fst p < length y) r ->
  let y' := fold_left (fun y' p => add_at (fst p) (snd p * ui) y') r y in
  length y' = length y /\
  nth c y' zero
  = nth c y zero
    + np_sum (map (fun p => snd p * ui)
                  (filter (fun p => Nat.eqb (fst p) c) r)).
Proof.
  revert y. induction r as [|[j x] r IH]; intros y Hr; cbn [fold_left].
  - split; [reflexivity|]. unfold np_sum. cbn. ring.
  - inversion Hr as [|p r' Hj Hr' E]. subst. cbn [fst snd] in *.
    specialize (IH (add_at j (x * ui) y)). rewrite add_at_length in IH.
    destruct (IH Hr') as [Hl Hn]. split; [exact Hl|].
    rewrite Hn, (nth_add_at Rth) by exact Hj. cbn [filter fst].
    destruct (Nat.eqb j c); cbn [map snd].
    + rewrite (np_sum_cons Rth). ring.
    + ring.
Qed.

Lemma csr_rows_fold (M : coo_matrix num) (c : nat) :
  c < shape1 M ->
  forall (u : list num) (k : nat) (y : list num),
    length y = shape1 M ->
    let y' := fold_left
                (fun y ix => fold_left
                               (fun y' p => add_at (fst p) (snd p * fst ix) y')
                               (snd ix) y)
                (combine u (map (squared_row M) (seq k (length u)))) y in
    length y' = length y /\
    nth c y' zero
    = nth c y zero
      + sum_upto (length u)
                 (fun i => nth i u zero
                           * (coo_get M (k + i) c * coo_get M (k + i) c)).
Proof.
  intros Hc. induction u as [|ui u IH]; intros k y Hy.
  - cbn. split; [reflexivity | ring].
  - cbn [length seq map combine fold_left fst snd].
    assert (Hcols : Forall (fun p => fst p < length y) (squared_row M k))
      by (rewrite Hy; apply squared_row_columns).
    destruct (@csr_row_fold ui (squared_row M k) y c Hcols) as [Hl1 Hn1].
    destruct (IH (Datatypes.S k) _ (eq_trans Hl1 Hy)) as [Hl2 Hn2].
    split; [rewrite Hl2; exact Hl1|].
    rewrite Hn2, Hn1, squared_row_at, (sum_upto_shift Rth).
    apply Nat.ltb_lt in Hc. rewrite Hc, andb_true_r, Nat.add_0_r.
    rewrite (@sum_upto_ext _ _ (length u)
               (fun i => nth i u zero
                         * (coo_get M (Datatypes.S k + i) c
                            * coo_get M (Datatypes.S k + i) c))
               (fun i => nth (Datatypes.S i) (ui :: u) zero
                         * (coo_get M (k + Datatypes.S i) c
                            * coo_get M (k + Datatypes.S i) c))).
    + cbn [nth]. destruct (stored M k c) eqn:Hst.
      * destruct (nonzero (coo_get M k c * coo_get M k c)) eqn:Hnz.
        -- cbn [map snd]. rewrite (np_sum_cons Rth). unfold np_sum. cbn. ring.
        -- rewrite (nonzero_exact _ Hnz). unfold np_sum. cbn. ring.
      * rewrite (@not_stored_get M k c Hst). unfold np_sum. cbn. ring.
    + intros i _. cbn [nth]. rewrite Nat.add_succ_r. reflexivity.
Qed.

Lemma csr_square_rmatvec_spec (u : list num) (M : coo_matrix num) :
  length u = shape0 M ->
  exists r, csr_rmatvec u (csr_square (tocsr M)) = Ok r /\
            length r = shape1 M /\
            forall c, c < shape1 M ->
                      nth c r zero
                      = sum_upto (shape0 M)
                                 (fun i => nth i u zero
                                           * (coo_get M i c * coo_get M i c)).
Proof.
  intros Hu. unfold csr_rmatvec, csr_square, tocsr.
  cbn [csr_shape0 csr_shape1 csr_rows]. rewrite Hu, Nat.eqb_refl.
  eexists. split; [reflexivity|].
  rewrite map_map. fold (squared_row M). rewrite <- Hu.
  split.
  - destruct (shape1 M) as [|n] eqn:Hn.
    + (* no columns: every row is empty *)
      assert (G : forall (u : list num) k,
                 fold_left
                   (fun y ix => fold_left
                                  (fun y' p => add_at (fst p) (snd p * fst ix) y')
                                  (snd ix) y)
                   (combine u (map (squared_row M) (seq k (length u)))) (np_zeros 0)
                 = np_zeros 0).
      { clear. induction u as [|ui u IH]; intros k; [reflexivity|].
        cbn [length seq map combine fold_left fst snd].
        replace (fold_left (fun y' p => add_at (fst p) (snd p * ui) y')
                           (squared_row M k) (np_zeros 0))
          with (np_zeros (num := num) 0); [apply IH|].
        generalize (squared_row M k). intros r.
        induction r as [|[j x] r IHr]; [reflexivity|]. cbn [fold_left fst snd].
        replace (add_at j (x * ui) (np_zeros 0)) with (np_zeros (num := num) 0)
          by (destruct j; reflexivity).
        exact IHr. }
      rewrite G. reflexivity.
    + rewrite <- Hn.
      assert (Hc : 0 < shape1 M) by lia.
      destruct (@csr_rows_fold M 0 Hc u 0 (np_zeros (shape1 M))
                               (np_zeros_length _)) as [Hl _].
      rewrite Hl. apply np_zeros_length.
  - intros c Hc.
    destruct (@csr_rows_fold M c Hc u 0 (np_zeros (shape1 M))
                             (np_zeros_length _)) as [_ Hn].
    rewrite Hn, nth_np_zeros. cbn [Nat.add]. ring.
Qed.

End CsrMatVec.

Section RecomputeCorrect.
Context {num rng : Type} {RO : RingOps num}.
Variable Rth : ring_theory zero one add mul sub opp (@eq num).
Add Ring num_ring_recompute : Rth.
Variable nonzero_exact : forall x : num, nonzero x = false -> x = zero.
Local Open Scope num_scope.

Lemma inplace_equal_length (f : num -> num -> num) (a b : list num) :
  length a = length b -> inplace f a b = Ok (map2 f a b).
Proof. intros H. unfold inplace. rewrite H, Nat.eqb_refl. reflexivity. Qed.

Lemma map2_same_length (f : num -> num -> num) (a b : list num) :
  length a = length b -> length (map2 f a b) = length a.
Proof.
  revert b. induction a as [|x a IH]; intros [|y b] H; simpl in *; try lia.
  rewrite IH; lia.
Qed.

Lemma nth_beyond_zero (a : list num) (k : nat) :
  length a <= k -> nth k a zero = zero.
Proof. intros H. apply nth_overflow. exact H. Qed.

(** *** What the data and the model give *)

Variables (F : nat) (m : libFM num).
Hypothesis Hm : model_shaped F m.

Lemma factor_row (f : nat) :
  f < Z.to_nat (num_factor m) ->
  getitem (v m) f = Ok (nth f (v m) []) /\ length (nth f (v m) []) = F.
Proof.
  destruct Hm as (_ & Hlen & Hall). intros Hf. rewrite <- Hlen in Hf. split.
  - unfold getitem. rewrite (nth_error_nth' (v m) [] Hf). reflexivity.
  - rewrite Forall_forall in Hall. apply Hall. apply nth_In. exact Hf.
Qed.

(** [v[f] * data_t]: the factor sums of the cases *)
Lemma factor_product (d : Data num) (f : nat) :
  data_shaped F d -> f < Z.to_nat (num_factor m) ->
  exists q, rmatvec (nth f (v m) []) (data_t d) = Ok q /\
            length q = num_cases d /\
            forall k, nth k q zero = factor_sum m F (case_of d k) f.
Proof.
  intros (Et & H0 & H1 & Hin & _) Hf.
  destruct (@factor_row f Hf) as [_ Hlen].
  destruct (@rmatvec_spec _ _ Rth (nth f (v m) []) (data_t d))
    as (q & Hq & Hl & Hn).
  - rewrite Et. cbn [transpose shape0]. congruence.
  - rewrite Et. replace (shape0 (transpose (data d))) with F
      by (cbn [transpose shape0]; congruence).
    replace (shape1 (transpose (data d))) with (num_cases d)
      by (cbn [transpose shape1]; congruence).
    apply transpose_in_shape. exact Hin.
  - exists q. split; [exact Hq|]. split.
    + rewrite Hl, Et. cbn [transpose shape1]. exact H0.
    + intros k. rewrite Hn. unfold factor_sum, case_of.
      rewrite Et at 1. cbn [transpose shape0]. rewrite H1.
      apply sum_upto_ext. intros i _. rewrite Et, coo_get_transpose. reflexivity.
Qed.

(** [0.5 * (v[f] * v[f]) * data_t.multiply(data_t)] *)
Lemma factor_squares_product (d : Data num) (f : nat) :
  data_shaped F d -> f < Z.to_nat (num_factor m) ->
  exists q, csr_rmatvec (half_squares (nth f (v m) []))
                        (csr_square (tocsr (data_t d))) = Ok q /\
            length q = num_cases d /\
            forall k, k < num_cases d ->
                      nth k q zero = half * factor_squares m F (case_of d k) f.
Proof.
  intros (Et & H0 & H1 & Hin & _) Hf.
  destruct (@factor_row f Hf) as [_ Hlen].
  assert (S0 : shape0 (data_t d) = F)
    by (rewrite Et; cbn [transpose shape0]; exact H1).
  assert (S1 : shape1 (data_t d) = num_cases d)
    by (rewrite Et; cbn [transpose shape1]; exact H0).
  destruct (@csr_square_rmatvec_spec _ _ Rth nonzero_exact
                                     (half_squares (nth f (v m) [])) (data_t d))
    as (q & Hq & Hl & Hn).
  - unfold half_squares. rewrite length_map. congruence.
  - exists q. split; [exact Hq|]. split; [congruence|].
    intros k Hk. rewrite Hn by lia. rewrite S0.
    unfold factor_squares. rewrite <- (sum_upto_scale Rth).
    apply sum_upto_ext. intros i Hi.
    unfold half_squares. rewrite nth_map_in by lia.
    unfold case_of. rewrite Et, !coo_get_transpose. ring.
Qed.

(** [w * data_t] *)
Lemma linear_product (d : Data num) :
  data_shaped F d -> k1 m = true ->
  exists q, rmatvec (w m) (data_t d) = Ok q /\
            length q = num_cases d /\
            forall k, nth k q zero
                      = sum_upto F (fun i => nth i (w m) zero * case_of d k i).
Proof.
  intros (Et & H0 & H1 & Hin & _) Hk1.
  destruct Hm as (Hw & _ & _). specialize (Hw Hk1).
  destruct (@rmatvec_spec _ _ Rth (w m) (data_t d)) as (q & Hq & Hl & Hn).
  - rewrite Et. cbn [transpose shape0]. congruence.
  - rewrite Et. replace (shape0 (transpose (data d))) with F
      by (cbn [transpose shape0]; congruence).
    replace (shape1 (transpose (data d))) with (num_cases d)
      by (cbn [transpose shape1]; congruence).
    apply transpose_in_shape. exact Hin.
  - exists q. split; [exact Hq|]. split.
    + rewrite Hl, Et. cbn [transpose shape1]. exact H0.
    + intros k. rewrite Hn. unfold case_of.
      rewrite Et at 1. cbn [transpose shape0]. rewrite H1.
      apply sum_upto_ext. intros i _. rewrite Et, coo_get_transpose. reflexivity.
Qed.

End RecomputeCorrect.

Section RecomputeLoops.
Context {num rng : Type} {RO : RingOps num}.
Variable Rth : ring_theory zero one add mul sub opp (@eq num).
Add Ring num_ring_loops : Rth.
Local Open Scope num_scope.

Lemma sum_upto_sub (n : nat) (f g : nat -> num) :
  sum_upto n (fun i => f i - g i) = sum_upto n f - sum_upto n g.
Proof. induction n as [|n IH]; simpl; [|rewrite IH]; ring. Qed.

Variables (F : nat) (m : libFM num) (d : Data num).

(** one factor of the first loop, on one cache *)
Lemma add_half_square_step (n : nat) (c : list num * list num) (q : list num) :
  eterms_upto m F d n c ->
  length q = num_cases d ->
  (forall k, nth k q zero = factor_sum m F (case_of d k) n) ->
  exists c', add_half_square c q = Ok c' /\
             eterms_upto m F d (Datatypes.S n) c'.
Proof.
  intros (L0 & L1 & Z1 & E0) Lq Eq. unfold add_half_square.
  rewrite inplace_equal_length by congruence. cbn [bind].
  assert (Lc1 : length (map2 add (snd c) q) = num_cases d)
    by (rewrite map2_same_length; congruence).
  rewrite inplace_equal_length by (rewrite length_map; congruence).
  cbn [bind]. eexists. split; [reflexivity|].
  split; [|split; [|split]]; cbn [fst snd].
  - rewrite map2_same_length; [exact L0 | rewrite length_map; congruence].
  - unfold np_zeros_like. rewrite np_zeros_length. exact Lc1.
  - intros k. apply nth_np_zeros.
  - intros k Hk.
    rewrite nth_map2 by (rewrite ?length_map; congruence || lia).
    rewrite nth_map_in by lia. rewrite nth_map2 by (congruence || lia).
    rewrite (E0 k Hk), Z1, Eq. cbn [sum_upto]. ring.
Qed.

(** one factor of the second loop, on one cache *)
Lemma sub_q_step (n : nat) (c : list num * list num) (q : list num) :
  qterms_upto m F d n c ->
  length q = num_cases d ->
  (forall k, k < num_cases d ->
             nth k q zero = half * factor_squares m F (case_of d k) n) ->
  exists c', sub_q c q = Ok c' /\ qterms_upto m F d (Datatypes.S n) c'.
Proof.
  intros (L0 & L1 & E0 & E1) Lq Eq. unfold sub_q.
  rewrite inplace_equal_length by congruence. cbn [bind].
  eexists. split; [reflexivity|].
  split; [|split; [|split]]; cbn [fst snd].
  - exact L0.
  - rewrite map2_same_length; congruence.
  - exact E0.
  - intros k Hk. rewrite nth_map2 by (congruence || lia).
    rewrite (E1 k Hk), (Eq k Hk). cbn [sum_upto]. ring.
Qed.

Lemma eterms_start (c : list num * list num) :
  length (fst c) = num_cases d -> length (snd c) = num_cases d ->
  eterms_upto m F d 0 (np_zeros_like (fst c), np_zeros_like (snd c)).
Proof.
  intros L0 L1. unfold np_zeros_like.
  split; [|split; [|split]]; cbn [fst snd].
  - rewrite np_zeros_length. exact L0.
  - rewrite np_zeros_length. exact L1.
  - intros k. apply nth_np_zeros.
  - intros k _. rewrite nth_np_zeros. reflexivity.
Qed.

Lemma qterms_start (c : list num * list num) :
  eterms_upto m F d (Z.to_nat (num_factor m)) c -> qterms_upto m F d 0 c.
Proof.
  intros (L0 & L1 & Z1 & E0).
  split; [exact L0|]. split; [exact L1|]. split; [exact E0|].
  intros k _. rewrite Z1. cbn [sum_upto]. ring.
Qed.

End RecomputeLoops.

Section RecomputeFormula.
Context {num rng : Type} {RO : RingOps num}.
Variable Rth : ring_theory zero one add mul sub opp (@eq num).
Add Ring num_ring_formula : Rth.
Variable nonzero_exact : forall x : num, nonzero x = false -> x = zero.
Local Open Scope num_scope.

Variables (F : nat) (s : MCMC_learn num rng).
Hypothesis Hs : shaped F s.

Lemma eterm_loop (n : nat) (c0 : (list num * list num) * (list num * list num)) :
  eterms_upto (fm s) F (train s) 0 (fst c0) ->
  eterms_upto (fm s) F (test s) 0 (snd c0) ->
  (n <= Z.to_nat (num_factor (fm s)))%nat ->
  exists cc, foreach (seq 0 n) (eterm_step s) c0 = Ok cc /\
             eterms_upto (fm s) F (train s) n (fst cc) /\
             eterms_upto (fm s) F (test s) n (snd cc).
Proof.
  destruct Hs as (Htr & Hte & Hm & _). intros H0 H0t.
  induction n as [|n IH]; intros Hn.
  - exists c0. cbn [seq foreach]. auto.
  - destruct IH as (cc & Hcc & Hc & Hct); [lia|].
    rewrite seq_S, foreach_app, Hcc. cbn [bind foreach Nat.add].
    unfold eterm_step.
    assert (Hf : (n < Z.to_nat (num_factor (fm s)))%nat) by lia.
    rewrite (proj1 (factor_row Hm Hf)). cbn [bind].
    destruct (factor_product Rth Hm Htr Hf) as (q & Hq & Lq & Eq).
    destruct (factor_product Rth Hm Hte Hf) as (qt & Hqt & Lqt & Eqt).
    rewrite Hq, Hqt. cbn [bind].
    destruct (add_half_square_step Rth q Hc Lq Eq) as (c' & Hc' & Ec').
    destruct (add_half_square_step Rth qt Hct Lqt Eqt) as (ct' & Hct' & Ect').
    rewrite Hc', Hct'. cbn [bind]. exists (c', ct'). auto.
Qed.

Lemma qterm_loop (n : nat) (c0 : (list num * list num) * (list num * list num)) :
  qterms_upto (fm s) F (train s) 0 (fst c0) ->
  qterms_upto (fm s) F (test s) 0 (snd c0) ->
  (n <= Z.to_nat (num_factor (fm s)))%nat ->
  exists cc, foreach (seq 0 n) (qterm_step s) c0 = Ok cc /\
             qterms_upto (fm s) F (train s) n (fst cc) /\
             qterms_upto (fm s) F (test s) n (snd cc).
Proof.
  destruct Hs as (Htr & Hte & Hm & _). intros H0 H0t.
  induction n as [|n IH]; intros Hn.
  - exists c0. cbn [seq foreach]. auto.
  - destruct IH as (cc & Hcc & Hc & Hct); [lia|].
    rewrite seq_S, foreach_app, Hcc. cbn [bind foreach Nat.add].
    unfold qterm_step.
    assert (Hf : (n < Z.to_nat (num_factor (fm s)))%nat) by lia.
    rewrite (proj1 (factor_row Hm Hf)). cbn [bind].
    destruct (factor_squares_product Rth nonzero_exact Hm Htr Hf) as (q & Hq & Lq & Eq).
    destruct (factor_squares_product Rth nonzero_exact Hm Hte Hf) as (qt & Hqt & Lqt & Eqt).
    rewrite Hq. cbn [bind].
    destruct (sub_q_step Rth q Hc Lq Eq) as (c' & Hc' & Ec').
    rewrite Hc'. cbn [bind]. rewrite Hqt. cbn [bind].
    destruct (sub_q_step Rth qt Hct Lqt Eqt) as (ct' & Hct' & Ect').
    rewrite Hct'. cbn [bind]. exists (c', ct'). auto.
Qed.

(** the linear term of a case, as [linear_step] leaves it in the q-terms *)
Lemma add_q_linear (d : Data num) (c : list num * list num) :
  data_shaped F d ->
  qterms_upto (fm s) F d (Z.to_nat (num_factor (fm s))) c ->
  k1 (fm s) = true ->
  exists q c', rmatvec (w (fm s)) (data_t d) = Ok q /\ add_q c q = Ok c' /\
    length (fst c') = num_cases d /\ length (snd c') = num_cases d /\
    forall k, (k < num_cases d)%nat ->
      nth k (fst c') zero + nth k (snd c') zero
      = sum_upto F (fun i => nth i (w (fm s)) zero * case_of d k i)
        + sum_upto (Z.to_nat (num_factor (fm s)))
            (fun f => half * (factor_sum (fm s) F (case_of d k) f
                              * factor_sum (fm s) F (case_of d k) f)
                      - half * factor_squares (fm s) F (case_of d k) f).
Proof.
  destruct Hs as (_ & _ & Hm & _). intros Hd (L0 & L1 & E0 & E1) Hk1.
  destruct (linear_product Rth Hm Hd Hk1) as (q & Hq & Lq & Eq).
  exists q. unfold add_q. rewrite inplace_equal_length by congruence.
  cbn [bind]. eexists. split; [exact Hq|]. split; [reflexivity|].
  cbn [fst snd]. split; [exact L0|].
  split; [rewrite map2_same_length; congruence|].
  intros k Hk. rewrite nth_map2 by (congruence || lia).
  rewrite (E0 k Hk), (E1 k Hk), Eq, (sum_upto_sub Rth). ring.
Qed.

Lemma linear_step_sums (cc : (list num * list num) * (list num * list num)) :
  qterms_upto (fm s) F (train s) (Z.to_nat (num_factor (fm s))) (fst cc) ->
  qterms_upto (fm s) F (test s) (Z.to_nat (num_factor (fm s))) (snd cc) ->
  exists cc', linear_step s cc = Ok cc' /\
    (forall d c, (d, c) = (train s, fst cc') \/ (d, c) = (test s, snd cc') ->
       length (fst c) = num_cases d /\ length (snd c) = num_cases d /\
       forall k, (k < num_cases d)%nat ->
         nth k (fst c) zero + nth k (snd c) zero
         = (if k1 (fm s)
            then sum_upto F (fun i => nth i (w (fm s)) zero * case_of d k i)
            else zero)
           + sum_upto (Z.to_nat (num_factor (fm s)))
               (fun f => half * (factor_sum (fm s) F (case_of d k) f
                                 * factor_sum (fm s) F (case_of d k) f)
                         - half * factor_squares (fm s) F (case_of d k) f)).
Proof.
  intros Hc Hct. unfold linear_step.
  destruct (k1 (fm s)) eqn:Hk1.
  - destruct Hs as (Htr & Hte & _ & _).
    destruct (add_q_linear Htr Hc Hk1) as (q & c' & Hq & Hc' & L0 & L1 & E).
    destruct (add_q_linear Hte Hct Hk1) as (qt & ct' & Hqt & Hct' & L0t & L1t & Et).
    rewrite Hq. cbn [bind]. rewrite Hc'. cbn [bind].
    rewrite Hqt. cbn [bind]. rewrite Hct'. cbn [bind].
    exists (c', ct'). split; [reflexivity|].
    intros d c [Hdc|Hdc]; injection Hdc as -> ->; cbn [fst snd]; auto.
  - exists cc. split; [reflexivity|].
    intros d c [Hdc|Hdc]; injection Hdc as -> ->;
      [destruct Hc as (L0 & L1 & E0 & E1) | destruct Hct as (L0 & L1 & E0 & E1)];
      (split; [exact L0|]; split; [exact L1|]);
      intros k Hk; rewrite (E0 k Hk), (E1 k Hk), (sum_upto_sub Rth); ring.
Qed.

End RecomputeFormula.

Section RecomputeTheorem.
Context {num rng : Type} {RO : RingOps num}.
Variable Rth : ring_theory zero one add mul sub opp (@eq num).
Add Ring num_ring_theorem : Rth.
Variable nonzero_exact : forall x : num, nonzero x = false -> x = zero.
Local Open Scope num_scope.

Lemma recompute_formula (F : nat) (s : MCMC_learn num rng) :
  shaped F s ->
  exists s1,
    predict_data_and_write_to_eterms s = Ok s1 /\
    fm s1 = fm s /\
    length (fst (cache s1)) = num_cases (train s) /\
    length (fst (cache_test s1)) = num_cases (test s) /\
    (forall k, (k < num_cases (train s))%nat ->
       nth k (fst (cache s1)) zero
       = spec_prediction (fm s) F (case_of (train s) k)) /\
    (forall k, (k < num_cases (test s))%nat ->
       nth k (fst (cache_test s1)) zero
       = spec_prediction (fm s) F (case_of (test s) k)) /\
    exists s2,
      remove_target s1 = Ok s2 /\
      fm s2 = fm s /\
      forall k, (k < num_cases (train s))%nat ->
        nth k (fst (cache s2)) zero
        = spec_prediction (fm s) F (case_of (train s) k)
          - nth k (target_value (train s)) zero.
Proof.
  intros Hs. pose proof Hs as (Htr & Hte & Hm & (L0 & L1 & L0t & L1t)).
  unfold predict_data_and_write_to_eterms. cbv zeta. unfold xrange.
  destruct (eterm_loop Rth Hs (n := Z.to_nat (num_factor (fm s)))
              (np_zeros_like (fst (cache s)), np_zeros_like (snd (cache s)),
               (np_zeros_like (fst (cache_test s)),
                np_zeros_like (snd (cache_test s)))))
    as (cc1 & H1 & E1 & E1t).
  { cbn [fst snd]. apply eterms_start; assumption. }
  { cbn [fst snd]. apply eterms_start; assumption. }
  { lia. }
  rewrite H1. cbn [bind].
  destruct (qterm_loop Rth nonzero_exact Hs (n := Z.to_nat (num_factor (fm s))) cc1)
    as (cc2 & H2 & E2 & E2t).
  { apply (qterms_start Rth E1). }
  { apply (qterms_start Rth E1t). }
  { lia. }
  rewrite H2. cbn [bind].
  destruct (linear_step_sums Rth Hs cc2 E2 E2t) as (cc3 & H3 & E3).
  rewrite H3. cbn [bind].
  destruct (E3 (train s) (fst cc3) (or_introl eq_refl)) as (A0 & A1 & A).
  destruct (E3 (test s) (snd cc3) (or_intror eq_refl)) as (B0 & B1 & B).
  rewrite !inplace_equal_length by congruence. cbn [bind].
  set (c0 := if k0 (fm s)
             then map (fun e => e + w0 (fm s))
                      (map2 add (fst (fst cc3)) (snd (fst cc3)))
             else map2 add (fst (fst cc3)) (snd (fst cc3))).
  set (ct0 := if k0 (fm s)
              then map (fun e => e + w0 (fm s))
                       (map2 add (fst (snd cc3)) (snd (snd cc3)))
              else map2 add (fst (snd cc3)) (snd (snd cc3))).
  assert (Lc0 : length c0 = num_cases (train s)).
  { subst c0. destruct (k0 (fm s)); rewrite ?length_map, map2_same_length;
      congruence. }
  assert (Lct0 : length ct0 = num_cases (test s)).
  { subst ct0. destruct (k0 (fm s)); rewrite ?length_map, map2_same_length;
      congruence. }
  assert (Ec0 : forall k, (k < num_cases (train s))%nat ->
             nth k c0 zero = spec_prediction (fm s) F (case_of (train s) k)).
  { intros k Hk. subst c0. unfold spec_prediction.
    destruct (k0 (fm s)).
    - rewrite nth_map_in by (rewrite map2_same_length; congruence || lia).
      rewrite nth_map2 by (congruence || lia). rewrite (A k Hk). ring.
    - rewrite nth_map2 by (congruence || lia). rewrite (A k Hk). ring. }
  assert (Ect0 : forall k, (k < num_cases (test s))%nat ->
             nth k ct0 zero = spec_prediction (fm s) F (case_of (test s) k)).
  { intros k Hk. subst ct0. unfold spec_prediction.
    destruct (k0 (fm s)).
    - rewrite nth_map_in by (rewrite map2_same_length; congruence || lia).
      rewrite nth_map2 by (congruence || lia). rewrite (B k Hk). ring.
    - rewrite nth_map2 by (congruence || lia). rewrite (B k Hk). ring. }
  eexists. split; [reflexivity|]. cbn [assign fm cache cache_test fst snd].
  split; [reflexivity|]. split; [exact Lc0|]. split; [exact Lct0|].
  split; [exact Ec0|]. split; [exact Ect0|].
  unfold remove_target. cbn [assign fm cache cache_test train fst snd].
  destruct Htr as (_ & _ & _ & _ & Lt).
  rewrite inplace_equal_length by congruence. cbn [bind].
  eexists. split; [reflexivity|]. cbn [assign fm cache fst snd].
  split; [reflexivity|].
  intros k Hk. rewrite nth_map2 by (congruence || lia).
  rewrite (Ec0 k Hk). reflexivity.
Qed.

(** X1. In exact arithmetic (the ring laws, and a test for zero that only
    the zero of the ring fails), on a sampler whose data
    sets, model and caches have the shapes the constructors give them,
    [predict_data_and_write_to_eterms] never raises, leaves the model as
    it is, and leaves in row 0 of the train cache and of the test cache
    the prediction of the model equation for every case:
    [w0 + sum_i w_i x_i + sum_f (0.5 (sum_i v_fi x_i)^2
    - 0.5 sum_i v_fi^2 x_i^2)], whatever the caches held before.
    Subtracting the targets ([remove_target], lines 144 and 166) then
    succeeds and turns row 0 of the train cache into the residuals
    prediction minus target. *)
Theorem recompute_gives_model_equation (F : nat) (s : MCMC_learn num rng) :
  shaped F s ->
  exists s1,
    predict_data_and_write_to_eterms s = Ok s1 /\
    fm s1 = fm s /\
    length (fst (cache s1)) = num_cases (train s) /\
    length (fst (cache_test s1)) = num_cases (test s) /\
    (forall k, (k < num_cases (train s))%nat ->
       nth k (fst (cache s1)) zero
       = spec_prediction (fm s) F (case_of (train s) k)) /\
    (forall k, (k < num_cases (test s))%nat ->
       nth k (fst (cache_test s1)) zero
       = spec_prediction (fm s) F (case_of (test s) k)) /\
    exists s2,
      remove_target s1 = Ok s2 /\
      fm s2 = fm s /\
      forall k, (k < num_cases (train s))%nat ->
        nth k (fst (cache s2)) zero
        = spec_prediction (fm s) F (case_of (train s) k)
          - nth k (target_value (train s)) zero.
Proof. apply recompute_formula. Qed.

End RecomputeTheorem.

(** The rationals are an exact arithmetic: they satisfy the ring laws,
    their test for zero rejects the zero only, and two halves make one. *)
Lemma Qc_theory : ring_theory (zero : Qc) one add mul sub opp (@eq Qc).
Proof. exact Qcrt. Qed.

Lemma Qc_nonzero_exact (x : Qc) : nonzero x = false -> x = zero.
Proof.
  cbn [nonzero Qc_ring]. intros H. apply negb_false_iff in H.
  apply Qeq_bool_eq in H. apply Qc_is_canon. exact H.
Qed.

Lemma Qc_half_half : add (half : Qc) half = one.
Proof. apply Qc_is_canon. reflexivity. Qed.

Lemma recompute_gives_model_equation_witness :
  exists s1,
    predict_data_and_write_to_eterms Exact.sampler = Ok s1 /\
    fm s1 = Exact.model /\
    length (fst (cache s1)) = 2%nat /\
    length (fst (cache_test s1)) = 1%nat /\
    (forall k, (k < 2)%nat ->
       nth k (fst (cache s1)) zero
       = spec_prediction Exact.model 2 (case_of Exact.cases k)) /\
    (forall k, (k < 1)%nat ->
       nth k (fst (cache_test s1)) zero
       = spec_prediction Exact.model 2 (case_of Exact.new_cases k)) /\
    exists s2,
      remove_target s1 = Ok s2 /\
      fm s2 = Exact.model /\
      forall k, (k < 2)%nat ->
        nth k (fst (cache s2)) zero
        = sub (spec_prediction Exact.model 2 (case_of Exact.cases k))
              (nth k [Exact.q 1; Exact.q 2] zero).
Proof.
  apply (@recompute_gives_model_equation Qc unit Qc_ring Qc_theory
           Qc_nonzero_exact 2 Exact.sampler).
  repeat split; try reflexivity.
  repeat constructor.
Defined.

(** ** Loading the files and building the objects *)

Lemma fold_left_max_le (ids : list nat) (a b : nat) :
  fold_left Nat.max ids a <= b <-> a <= b /\ forall x, In x ids -> x <= b.
Proof.
  revert a. induction ids as [|i ids IH]; intros a; cbn [fold_left].
  - split; [intros H; split; [exact H | intros x []] | intros [H _]; exact H].
  - rewrite IH. split.
    + intros [H1 H2]. split; [lia|]. intros x [<- | Hx]; [lia | auto].
    + intros [H1 H2]. split.
      * pose proof (H2 i (or_introl eq_refl)). lia.
      * intros x Hx. apply H2. right. exact Hx.
Qed.

Section Construction.
Context {num : Type} {S : Scalar num} {HI : HasInf num}.
Local Open Scope num_scope.

Lemma feature_ids_in (lines : list (line (num := num))) (x : nat) :
  In x (flat_map (fun l => map fst (snd l)) lines) <->
  exists l p, In l lines /\ In p (snd l) /\ fst p = x.
Proof.
  rewrite in_flat_map. split.
  - intros (l & Hl & Hx). rewrite in_map_iff in Hx.
    destruct Hx as (p & Hp & Hin). exists l, p. auto.
  - intros (l & p & Hl & Hp & E). exists l. split; [exact Hl|].
    rewrite in_map_iff. exists p. auto.
Qed.

Lemma get_num_attribute_bound (lines : list (line (num := num))) (n : nat) :
  (forall l p, In l lines -> In p (snd l) -> fst p < n) <->
  get_num_attribute lines <= n.
Proof.
  unfold get_num_attribute. cbv zeta.
  pose proof (feature_ids_in lines) as Hids.
  destruct (flat_map (fun l => map fst (snd l)) lines) as [|i ids] eqn:E.
  - split; [lia|]. intros _ l p Hl Hp.
    exfalso. apply (proj2 (Hids (fst p))). exists l, p. auto.
  - split.
    + intros H. destruct n as [|n].
      * destruct (proj1 (Hids i) (or_introl eq_refl)) as (l & p & Hl & Hp & _).
        specialize (H l p Hl Hp). lia.
      * apply le_n_S. apply fold_left_max_le. split; [lia|].
        intros x Hx. destruct (proj1 (Hids x) Hx) as (l & p & Hl & Hp & <-).
        specialize (H l p Hl Hp). lia.
    + intros H l p Hl Hp. destruct n as [|n]; [lia|].
      apply le_S_n in H. apply fold_left_max_le in H. destruct H as [_ H].
      apply Nat.lt_succ_r. apply H. apply Hids. exists l, p. auto.
Qed.

(** X2. [get_num_attribute] returns the least number that exceeds every
    feature id of the file: every id of every line is below it, and it is
    at most any other number with that property (so it is 0 for a file
    without features). *)
Theorem get_num_attribute_least (lines : list (line (num := num))) :
  (forall l p, In l lines -> In p (snd l) -> fst p < get_num_attribute lines) /\
  (forall n, (forall l p, In l lines -> In p (snd l) -> fst p < n) ->
             get_num_attribute lines <= n).
Proof.
  split.
  - apply get_num_attribute_bound. apply le_n.
  - intros n H. apply get_num_attribute_bound. exact H.
Qed.

Lemma Data_init_entries (lines : list (line (num := num))) (F : nat) :
  get_num_attribute lines <= F ->
  forallb (in_shape (length lines) F)
    (flat_map (fun rl => map (fun fv => (fst rl, fst fv, snd fv)) (snd (snd rl)))
              (combine (seq 0 (length lines)) lines)) = true.
Proof.
  intros H. apply forallb_forall. intros e He.
  rewrite in_flat_map in He. destruct He as ([r l] & Hrl & He).
  rewrite in_map_iff in He. destruct He as (fv & <- & Hfv).
  cbn [fst snd] in *. unfold in_shape, entry_row, entry_col. cbn [fst snd].
  apply andb_true_intro. split; apply Nat.ltb_lt.
  - apply in_combine_l in Hrl. apply in_seq in Hrl. lia.
  - apply in_combine_r in Hrl.
    apply (proj2 (get_num_attribute_bound lines F) H l fv Hrl Hfv).
Qed.

End Construction.

Section DataLoading.
Context {num : Type} {S : Scalar num} {HI : HasInf num}.
Local Open Scope num_scope.

Lemma Data_init_ok (lines : list (line (num := num))) (F : nat) :
  get_num_attribute lines <= F ->
  exists d, Data_init lines F = Ok d /\ data_shaped F d /\
            num_cases d = length lines /\ target_value d = map fst lines /\
            num_feature d = F.
Proof.
  intros H. unfold Data_init. cbv zeta.
  rewrite (proj2 (Nat.leb_le _ _) H). cbn [py_assert bind].
  unfold coo_matrix_init. rewrite (Data_init_entries lines H). cbn [bind].
  eexists. split; [reflexivity|].
  unfold data_shaped.
  cbn [data data_t num_cases target_value num_feature shape0 shape1 coo_entries].
  rewrite (Data_init_entries lines H), length_map. repeat split.
Qed.

Lemma Data_init_inv (lines : list (line (num := num))) (F : nat) (d : Data num) :
  Data_init lines F = Ok d ->
  get_num_attribute lines <= F /\ data_shaped F d /\
  num_cases d = length lines /\ target_value d = map fst lines /\
  num_feature d = F.
Proof.
  intros H. destruct (Nat.leb (get_num_attribute lines) F) eqn:E.
  - apply Nat.leb_le in E. destruct (Data_init_ok lines E) as (d' & Hd & R).
    rewrite H in Hd. injection Hd as <-. split; [exact E | exact R].
  - unfold Data_init in H. cbv zeta in H. rewrite E in H. discriminate H.
Qed.

(** X3. [Data.__init__] fails, with the AssertionError of line 553,
    exactly when the file has a feature id of [max_feature] or more.
    Otherwise it returns a data set with one case per line, the targets in
    the order of the lines, a matrix of shape (lines, [max_feature]) all of
    whose entries lie inside that shape, and the transpose of that matrix. *)
Theorem Data_init_result (lines : list (line (num := num))) (F : nat) :
  match Data_init lines F with
  | Ok d => get_num_attribute lines <= F /\ data_shaped F d /\
            num_cases d = length lines /\ target_value d = map fst lines /\
            num_feature d = F
  | Raise e => e = AssertionError /\ F < get_num_attribute lines
  end.
Proof.
  destruct (Nat.leb (get_num_attribute lines) F) eqn:E.
  - apply Nat.leb_le in E. destruct (Data_init_ok lines E) as (d & -> & H).
    split; [exact E | exact H].
  - unfold Data_init. cbv zeta. rewrite E. cbn [py_assert bind].
    apply Nat.leb_gt in E. split; [reflexivity | exact E].
Qed.

End DataLoading.

Section MainLoading.
Context {num rng : Type} {S : Scalar num} {RS : RandomState num rng}
        {HI : HasInf num}.
Local Open Scope num_scope.

(** X4. [main] never fails while it loads the data: with the number of
    attributes it computes (the larger [get_num_attribute] of the two
    files), both [Data] constructors succeed, on any two files, and the
    assertion of line 668 holds; both data sets have that number of
    columns.  What [main] returns is what the model's constructor, the
    sampler's constructor and [learn] make of these two data sets. *)
Theorem main_loads_both_files
        (train_file test_file : list (line (num := num)))
        (method0 : method_name) (dim : list Z) (seed0 : option Z)
        (iteration : Z) (g : rng) :
  let A := Nat.max (get_num_attribute train_file) (get_num_attribute test_file) in
  exists tr te,
    Data_init train_file A = Ok tr /\ Data_init test_file A = Ok te /\
    data_shaped A tr /\ data_shaped A te /\
    num_cases tr = length train_file /\ num_cases te = length test_file /\
    main train_file test_file method0 dim seed0 iteration g
    = (mg <- libFM_init A iteration dim [zero; zero; of_Z 1 / of_Z 10]
               (of_Z 1 / of_Z 10) "regression" method0 seed0 g ;;
       mcmc_ <- MCMC_learn_init (fst mg) (DataMetaInfo_init A) tr te (snd mg) ;;
       learn mcmc_).
Proof.
  intros A.
  destruct (Data_init_ok train_file (F := A)) as (tr & Htr & Str & Ntr & _ & Ftr);
    [apply Nat.le_max_l|].
  destruct (Data_init_ok test_file (F := A)) as (te & Hte & Ste & Nte & _ & Fte);
    [apply Nat.le_max_r|].
  exists tr, te. repeat (split; [assumption|]).
  unfold main. cbv zeta. fold A. rewrite Htr, Hte. cbn [bind].
  rewrite Ftr, Fte, Nat.max_id, Nat.eqb_refl. reflexivity.
Qed.

End MainLoading.

Section ModelConstruction.
Context {num rng : Type} {S : Scalar num} {RS : RandomState num rng}.
Local Open Scope num_scope.

Lemma normal_each_length (loc scale : num) (n : nat) (g : rng) :
  length (fst (normal_each loc scale n g)) = n.
Proof.
  revert g. induction n as [|n IH]; intros g; cbn [normal_each].
  - reflexivity.
  - destruct (ran_gaussian loc scale g) as [x g1]. specialize (IH g1).
    destruct (normal_each loc scale n g1) as [r g2].
    cbn [fst length] in *. rewrite IH. reflexivity.
Qed.

Lemma normal_rows_shape (loc scale : num) (k n : nat) (g : rng) :
  length (fst (normal_rows loc scale k n g)) = k /\
  Forall (fun r => length r = n) (fst (normal_rows loc scale k n g)).
Proof.
  revert g. induction k as [|k IH]; intros g; cbn [normal_rows].
  - split; [reflexivity | constructor].
  - pose proof (normal_each_length loc scale n g) as Hx.
    destruct (normal_each loc scale n g) as [x g1]. specialize (IH g1).
    destruct (normal_rows loc scale k n g1) as [r g2].
    cbn [fst length] in *. destruct IH as [IH1 IH2]. split.
    + rewrite IH1. reflexivity.
    + constructor; assumption.
Qed.

Lemma seed_fine_dec (seed0 : option Z) :
  seed_fine seed0 \/ exists s, seed0 = Some s /\ (2 ^ 32 <= s)%Z.
Proof.
  destruct seed0 as [s|]; [|left; intros s; discriminate].
  destruct (Z.ltb_spec s (2 ^ 32)).
  - left. intros s' [= <-]. assumption.
  - right. eauto.
Qed.

Lemma scale_fine_dec (sd : num) (d1 d2 : Z) :
  scale_fine sd d1 d2 \/
  (signbit sd = true /\ (d1 <> 0%Z \/ (0 < d2)%Z)).
Proof.
  unfold scale_fine. destruct (signbit sd); [|left; left; reflexivity].
  destruct (Z.eq_dec d1 0) as [E1|E1]; [|right; split; [reflexivity | left; exact E1]].
  destruct (Z.ltb_spec 0 d2) as [E2|E2].
  - right. split; [reflexivity | right; exact E2].
  - left. right. split; assumption.
Qed.

Lemma seeded (seed0 : option Z) (g : rng) :
  seed_fine seed0 ->
  exists g1, match seed0 with
             | Some s =>
                 if (-1 <? s)%Z
                 then (if (s <? 2 ^ 32)%Z then Ok (np_random_seed s)
                       else Raise ValueError)
                 else Ok g
             | None => Ok g
             end = Ok g1.
Proof.
  intros Hseed. destruct seed0 as [s|]; [|eauto].
  destruct (-1 <? s)%Z; [|eauto].
  rewrite (proj2 (Z.ltb_lt _ _) (Hseed s eq_refl)). eauto.
Qed.

Lemma libFM_init_ok (n : nat) (it d0 d1 d2 : Z) (r0 r1 r2 sd : num)
      (tk : string) (mth : method_name) (seed0 : option Z) (g : rng) :
  seed_fine seed0 -> scale_fine sd d1 d2 ->
  exists m g', libFM_init n it [d0; d1; d2] [r0; r1; r2] sd tk mth seed0 g
               = Ok (m, g') /\
    model_shaped n m /\
    (k0 m, k1 m, num_factor m)
    = (negb (d0 =? 0)%Z, negb (d1 =? 0)%Z, d2) /\
    (do_sample m, do_multilevel m) = (is_mcmc mth, is_mcmc mth) /\
    (reg0 m, regw m, regv m, w0 m) = (zero, zero, zero, zero) /\
    (num_attribute m, num_iter m, task m) = (n, it, tk).
Proof.
  intros Hseed Hsd. unfold libFM_init.
  destruct (seeded g Hseed) as (g1' & ->).
  assert (HW : exists w' g2,
             (if negb (d1 =? 0)%Z then np_random_normal zero sd n g1'
              else Ok ([], g1')) = Ok (w', g2) /\
             (negb (d1 =? 0)%Z = true -> length w' = n)).
  { destruct (Z.eqb_spec d1 0) as [E1|E1]; cbn [negb].
    - do 2 eexists. split; [reflexivity | discriminate].
    - unfold np_random_normal.
      destruct Hsd as [-> | [E _]]; [|contradiction].
      pose proof (normal_each_length zero sd n g1') as Hw.
      destruct (normal_each zero sd n g1') as [w' g2]. eauto. }
  destruct HW as (w' & g2 & EW & HW).
  assert (HV : exists v' g3,
             (if (0 <? d2)%Z
              then np_random_normal2 zero sd (Z.to_nat d2) n g2
              else Ok ([], g2)) = Ok (v', g3) /\
             length v' = Z.to_nat d2 /\ Forall (fun r => length r = n) v').
  { destruct (Z.ltb_spec 0 d2) as [E2|E2].
    - unfold np_random_normal2.
      destruct Hsd as [-> | [_ E]]; [|lia].
      pose proof (normal_rows_shape zero sd (Z.to_nat d2) n g2) as Hv.
      destruct (normal_rows zero sd (Z.to_nat d2) n g2) as [v' g3]. eauto.
    - do 2 eexists. split; [reflexivity|]. split; [|constructor].
      destruct d2; try reflexivity; lia. }
  destruct HV as (v' & g3 & EV & HV1 & HV2).
  destruct mth; cbn [is_mcmc bind]; rewrite EW; cbn [bind]; rewrite EV;
    cbn [bind];
    (eexists; eexists; split; [reflexivity|]);
    unfold model_shaped;
    cbn [k0 k1 num_factor w v do_sample do_multilevel reg0 regw regv w0
         num_attribute num_iter task];
    repeat split; assumption.
Qed.

Lemma libFM_init_bad_dims (n : nat) (it : Z) (dim : list Z)
      (param_regular : list num) (sd : num) (tk : string)
      (mth : method_name) (seed0 : option Z) (g : rng) :
  length dim <> 3 \/ length param_regular <> 3 ->
  libFM_init n it dim param_regular sd tk mth seed0 g
  = Raise (Exception "Error dimension not matching 3").
Proof.
  intros H. unfold libFM_init.
  destruct mth, dim as [|? [|? [|? [|? ?]]]],
           param_regular as [|? [|? [|? [|? ?]]]];
    try reflexivity; exfalso; cbn [length] in H; destruct H; congruence.
Qed.

Lemma libFM_init_bad_seed (n : nat) (it d0 d1 d2 : Z) (r0 r1 r2 sd : num)
      (tk : string) (mth : method_name) (s : Z) (g : rng) :
  (2 ^ 32 <= s)%Z ->
  libFM_init n it [d0; d1; d2] [r0; r1; r2] sd tk mth (Some s) g
  = Raise ValueError.
Proof.
  intros Hs. unfold libFM_init.
  assert (E1 : (-1 <? s)%Z = true) by (apply Z.ltb_lt; lia).
  assert (E2 : (s <? 2 ^ 32)%Z = false) by (apply Z.ltb_ge; lia).
  destruct mth; cbn [is_mcmc]; rewrite E1, E2; reflexivity.
Qed.

Lemma libFM_init_bad_scale (n : nat) (it d0 d1 d2 : Z) (r0 r1 r2 sd : num)
      (tk : string) (mth : method_name) (seed0 : option Z) (g : rng) :
  seed_fine seed0 -> signbit sd = true -> d1 <> 0%Z \/ (0 < d2)%Z ->
  libFM_init n it [d0; d1; d2] [r0; r1; r2] sd tk mth seed0 g
  = Raise ValueError.
Proof.
  intros Hseed Hsd Hd. unfold libFM_init.
  destruct (seeded g Hseed) as (g1' & ->).
  unfold np_random_normal, np_random_normal2. rewrite Hsd.
  destruct (Z.eqb_spec d1 0) as [E1|E1]; cbn [negb].
  - destruct Hd as [Hd|Hd]; [contradiction|].
    rewrite (proj2 (Z.ltb_lt _ _) Hd).
    destruct mth; reflexivity.
  - destruct mth; reflexivity.
Qed.

Lemma libFM_init_cases (n : nat) (it : Z) (dim : list Z)
      (param_regular : list num) (sd : num) (tk : string)
      (mth : method_name) (seed0 : option Z) (g : rng) :
  match libFM_init n it dim param_regular sd tk mth seed0 g with
  | Ok (m, _) =>
      length dim = 3 /\ length param_regular = 3 /\
      seed_fine seed0 /\ scale_fine sd (nth 1 dim 0%Z) (nth 2 dim 0%Z) /\
      model_shaped n m /\
      (k0 m, k1 m, num_factor m)
      = (negb (nth 0 dim 0 =? 0)%Z, negb (nth 1 dim 0 =? 0)%Z, nth 2 dim 0%Z) /\
      (do_sample m, do_multilevel m) = (is_mcmc mth, is_mcmc mth) /\
      (reg0 m, regw m, regv m, w0 m) = (zero, zero, zero, zero) /\
      (num_attribute m, num_iter m, task m) = (n, it, tk)
  | Raise e =>
      (e = Exception "Error dimension not matching 3" /\
       (length dim <> 3 \/ length param_regular <> 3)) \/
      (e = ValueError /\ length dim = 3 /\ length param_regular = 3 /\
       ((exists s, seed0 = Some s /\ (2 ^ 32 <= s)%Z) \/
        (seed_fine seed0 /\ signbit sd = true /\
         (nth 1 dim 0%Z <> 0%Z \/ (0 < nth 2 dim 0)%Z))))
  end.
Proof.
  destruct (Nat.eq_dec (length dim) 3) as [Ld|Ld];
    [|rewrite libFM_init_bad_dims by (left; exact Ld);
      left; split; [reflexivity | left; exact Ld]].
  destruct (Nat.eq_dec (length param_regular) 3) as [Lp|Lp];
    [|rewrite libFM_init_bad_dims by (right; exact Lp);
      left; split; [reflexivity | right; exact Lp]].
  destruct dim as [|d0 [|d1 [|d2 [|d3 dim]]]]; try discriminate Ld.
  destruct param_regular as [|r0 [|r1 [|r2 [|r3 pr]]]]; try discriminate Lp.
  cbn [nth].
  destruct (seed_fine_dec seed0) as [Hs | (s & -> & Hs)].
  - destruct (scale_fine_dec sd d1 d2) as [Hsd | (Hsd & Hd)].
    + destruct (libFM_init_ok n it d0 r0 r1 r2 tk mth g Hs Hsd)
        as (m & g' & -> & H).
      repeat (split; [reflexivity || assumption|]). exact H.
    + rewrite libFM_init_bad_scale by assumption.
      right. repeat (split; [reflexivity|]). right. auto.
  - rewrite libFM_init_bad_seed by assumption.
    right. repeat (split; [reflexivity|]). left. eauto.
Qed.

Lemma libFM_init_inv (n : nat) (it : Z) (dim : list Z)
      (param_regular : list num) (sd : num) (tk : string)
      (mth : method_name) (seed0 : option Z) (g g' : rng) (m : libFM num) :
  libFM_init n it dim param_regular sd tk mth seed0 g = Ok (m, g') ->
  model_shaped n m /\
  (do_sample m, do_multilevel m) = (is_mcmc mth, is_mcmc mth) /\
  (num_attribute m, num_iter m, task m) = (n, it, tk).
Proof.
  intros Hm. pose proof (libFM_init_cases n it dim param_regular sd tk mth seed0 g) as H.
  rewrite Hm in H. destruct H as (_ & _ & _ & _ & Sm & _ & Hd & _ & Hn). auto.
Qed.

(** X5. What [libFM.__init__] does with its arguments.  It raises the
    Exception of lines 56 and 58 exactly when [dim] or [param_regular] does
    not have three components, and otherwise fails only with the
    ValueError of numpy: on a seed numpy refuses (2**32 or more), or, the
    seed being fine, on an [init_stdev] whose sign bit is set when there
    is something to draw ([dim[1] != 0] or [dim[2] > 0]).  When it returns,
    [w] has one weight per attribute if the model has linear terms, [v]
    has [num_factor] rows of one entry per attribute (none for
    [num_factor <= 0]), the bias is 0, the three regularization constants
    are 0 for both methods, and sampling and the hyperpriors are on for
    'mcmc' and off for 'als'. *)
Theorem libFM_init_result (n : nat) (it : Z) (dim : list Z)
        (param_regular : list num) (sd : num) (tk : string)
        (mth : method_name) (seed0 : option Z) (g : rng) :
  match libFM_init n it dim param_regular sd tk mth seed0 g with
  | Ok (m, _) =>
      length dim = 3 /\ length param_regular = 3 /\
      seed_fine seed0 /\ scale_fine sd (nth 1 dim 0%Z) (nth 2 dim 0%Z) /\
      model_shaped n m /\
      (k0 m, k1 m, num_factor m)
      = (negb (nth 0 dim 0 =? 0)%Z, negb (nth 1 dim 0 =? 0)%Z, nth 2 dim 0%Z) /\
      (do_sample m, do_multilevel m) = (is_mcmc mth, is_mcmc mth) /\
      (reg0 m, regw m, regv m, w0 m) = (zero, zero, zero, zero) /\
      (num_attribute m, num_iter m, task m) = (n, it, tk)
  | Raise e =>
      (e = Exception "Error dimension not matching 3" /\
       (length dim <> 3 \/ length param_regular <> 3)) \/
      (e = ValueError /\ length dim = 3 /\ length param_regular = 3 /\
       ((exists s, seed0 = Some s /\ (2 ^ 32 <= s)%Z) \/
        (seed_fine seed0 /\ signbit sd = true /\
         (nth 1 dim 0%Z <> 0%Z \/ (0 < nth 2 dim 0)%Z))))
  end.
Proof. apply libFM_init_cases. Qed.

End ModelConstruction.

Section SamplerConstruction.
Context {num rng : Type} {S : Scalar num} {RS : RandomState num rng}
        {HI : HasInf num}.
Local Open Scope num_scope.

Lemma MCMC_learn_init_shaped (F : nat) (m : libFM num) (mt : DataMetaInfo num)
      (tr te : Data num) (g : rng) :
  data_shaped F tr -> data_shaped F te -> model_shaped F m ->
  (0 <= num_factor m)%Z ->
  exists s, MCMC_learn_init m mt tr te g = Ok s /\ shaped F s /\
            fm s = m /\ train s = tr /\ test s = te /\ random s = g /\
            cache s = (np_zeros (num_cases tr), np_zeros (num_cases tr)) /\
            cache_test s = (np_zeros (num_cases te), np_zeros (num_cases te)) /\
            pred_sum_all s = np_zeros (num_cases te).
Proof.
  intros Htr Hte Hm Hk. unfold MCMC_learn_init.
  rewrite (proj2 (Z.ltb_ge _ _) Hk). eexists. split; [reflexivity|].
  unfold shaped, caches_shaped.
  cbn [fm train test cache cache_test random pred_sum_all fst snd].
  unfold np_zeros. rewrite !repeat_length.
  split; [|repeat split].
  split; [exact Htr|]. split; [exact Hte|]. split; [exact Hm|].
  repeat split.
Qed.

(** X6. The objects [main] builds fit together.  When the two [Data]
    constructors (with the same [max_feature]) and the model's constructor
    (with that number of attributes) succeed, [MCMC_learn.__init__] fails
    only for a negative [num_factor] (numpy refuses the shape of [v_mu]);
    otherwise the sampler it returns holds these very objects, its weight
    vector and each of its factor rows have one entry per column of the
    two data matrices, its two caches have one column per case of their
    data set and are zero, and the sum of the test predictions is zero. *)
Theorem constructed_sampler_shaped
        (train_file test_file : list (line (num := num))) (F : nat) (it : Z)
        (dim : list Z) (param_regular : list num) (sd : num) (tk : string)
        (mth : method_name) (seed0 : option Z) (g g' : rng)
        (mt : DataMetaInfo num) (tr te : Data num) (m : libFM num) :
  Data_init train_file F = Ok tr ->
  Data_init test_file F = Ok te ->
  libFM_init F it dim param_regular sd tk mth seed0 g = Ok (m, g') ->
  match MCMC_learn_init m mt tr te g' with
  | Ok s =>
      shaped F s /\ fm s = m /\ train s = tr /\ test s = te /\ random s = g' /\
      cache s = (np_zeros (length train_file), np_zeros (length train_file)) /\
      cache_test s = (np_zeros (length test_file), np_zeros (length test_file)) /\
      pred_sum_all s = np_zeros (length test_file)
  | Raise e => e = ValueError /\ (num_factor m < 0)%Z
  end.
Proof.
  intros Htr Hte Hm.
  destruct (Data_init_inv _ _ Htr) as (_ & Str & Ntr & _).
  destruct (Data_init_inv _ _ Hte) as (_ & Ste & Nte & _).
  destruct (libFM_init_inv _ _ _ _ _ _ _ _ _ Hm) as (Sm & _).
  destruct (Z.ltb_spec (num_factor m) 0) as [Hk|Hk].
  - unfold MCMC_learn_init. rewrite (proj2 (Z.ltb_lt _ _) Hk).
    split; [reflexivity | exact Hk].
  - destruct (MCMC_learn_init_shaped mt g' Str Ste Sm Hk)
      as (s & -> & H1 & H2 & H3 & H4 & H5 & H6 & H7 & H8).
    rewrite <- Ntr, <- Nte.
    split; [exact H1|]. repeat (split; [assumption|]). assumption.
Qed.

End SamplerConstruction.

(** ** Point estimates draw no random numbers *)

Section PointEstimate.
Context {num rng : Type} {S : Scalar num} {RS : RandomState num rng}.
Local Open Scope num_scope.

Lemma commit_point (old mean sigma_sqr : num) (g : rng) :
  snd (commit old false mean sigma_sqr g) = g.
Proof.
  unfold commit, posterior_draw.
  destruct (isinf old); [reflexivity|]. destruct (isnan old); reflexivity.
Qed.

Ltac point_split :=
  unfold point_estimate in *;
  cbn [assign fm random set_w0 set_w set_v do_sample do_multilevel] in *;
  repeat split; try tauto; try congruence.

Lemma draw_alpha_point (r : rng) (s : MCMC_learn num rng) :
  point_estimate r s -> point_estimate r (draw_alpha s).
Proof.
  intros (Hs & Hm & Hr). unfold draw_alpha. rewrite Hm. cbn [negb].
  point_split.
Qed.

Lemma draw_w0_point (r : rng) (s s' : MCMC_learn num rng) :
  point_estimate r s -> draw_w0 s = Ok s' -> point_estimate r s'.
Proof.
  intros (Hs & Hm & Hr) H. unfold draw_w0 in H. rewrite Hs in H.
  monad_inv. subst s'. point_split.
Qed.

Lemma draw_w_i_point (r : rng) X mu lam i (s s' : MCMC_learn num rng) :
  point_estimate r s -> draw_w_i X mu lam i s = Ok s' -> point_estimate r s'.
Proof.
  intros (Hs & Hm & Hr) H. unfold draw_w_i in H. rewrite Hs in H.
  bind_step H x_li Hx. bind_step H ms Hms. bind_step H w_old Hw.
  pose proof (commit_point w_old (fst ms) (snd ms) (random s)) as Hc.
  destruct (commit w_old false (fst ms) (snd ms) (random s)) as [w_new g].
  cbn [snd] in Hc. injection H as <-. point_split.
Qed.

Lemma draw_v_i_point (r : rng) X f mu lam i (s s' : MCMC_learn num rng) :
  point_estimate r s -> draw_v_i X f mu lam i s = Ok s' -> point_estimate r s'.
Proof.
  intros (Hs & Hm & Hr) H. unfold draw_v_i in H. rewrite Hs in H.
  bind_step H x_li Hx. bind_step H ms Hms. bind_step H vf Hvf.
  bind_step H v_old Hv.
  pose proof (commit_point v_old (fst ms) (snd ms) (random s)) as Hc.
  destruct (commit v_old false (fst ms) (snd ms) (random s)) as [v_new g].
  cbn [snd] in Hc. bind_step H h Hh. injection H as <-. point_split.
Qed.

Lemma draw_all_point (r : rng) (s s' : MCMC_learn num rng) :
  point_estimate r s -> draw_all s = Ok s' -> point_estimate r s'.
Proof.
  intros Hp H. unfold draw_all in H.
  apply draw_alpha_point in Hp.
  bind_step H s1 H1. bind_step H s2 H2. bind_step H s3 H3.
  assert (P1 : point_estimate r s1).
  { destruct (k0 (fm (draw_alpha s))).
    - eapply draw_w0_point; eassumption.
    - injection H1 as <-. exact Hp. }
  assert (P2 : point_estimate r s2).
  { destruct (k1 (fm s1)); [|injection H2 as <-; exact P1].
    bind_step H2 t1 Ht1. bind_step H2 t2 Ht2.
    bind_step H2 mu_g Hmu. bind_step H2 lam_g Hlam.
    assert (Q1 : point_estimate r t1).
    { destruct P1 as (Hs & Hm & Hr). unfold draw_w_lambda in Ht1.
      rewrite Hm in Ht1. injection Ht1 as <-. point_split. }
    assert (Q2 : point_estimate r t2).
    { destruct Q1 as (Hs & Hm & Hr). unfold draw_w_mu in Ht2.
      rewrite Hm in Ht2. injection Ht2 as <-. point_split. }
    unfold draw_w in H2. revert H2.
    apply (foreach_invariant (point_estimate r)); [|exact Q2].
    intros i a a' Ha. apply draw_w_i_point. exact Ha. }
  assert (P3 : point_estimate r s3).
  { destruct (0 <? num_factor (fm s2))%Z; [|injection H3 as <-; exact P2].
    bind_step H3 t1 Ht1.
    assert (Q1 : point_estimate r t1).
    { destruct P2 as (Hs & Hm & Hr). unfold draw_v_lambda in Ht1.
      rewrite Hm in Ht1. injection Ht1 as <-. point_split. }
    destruct Q1 as (Hs & Hm & Hr). unfold draw_v_mu in H3.
    rewrite Hm in H3. injection H3 as <-. point_split. }
  revert H. apply (foreach_invariant (point_estimate r)); [|exact P3].
  intros f a a' Ha H. unfold draw_all_factor in H.
  bind_step H vf Hvf. bind_step H q Hq. bind_step H c1 Hc1.
  bind_step H mu_f Hmu_f. bind_step H mu_g Hmu_g.
  bind_step H lam_f Hlam_f. bind_step H lam_g Hlam_g.
  unfold draw_v in H. bind_step H vf' Hvf'. revert H.
  apply (foreach_invariant (point_estimate r)).
  - intros i b b' Hb. apply draw_v_i_point. exact Hb.
  - destruct Ha as (Hs & Hm & Hr). point_split.
Qed.

Lemma learn_iteration_point (r : rng) (i : nat)
      (sl sl' : MCMC_learn num rng * list (num * num)) :
  point_estimate r (fst sl) -> learn_iteration i sl = Ok sl' ->
  point_estimate r (fst sl').
Proof.
  intros Hp H. unfold learn_iteration in H.
  bind_step H s1 H1. bind_step H s2 H2.
  assert (P2 : point_estimate r s2).
  { pose proof (draw_all_point Hp H1) as (Hs & Hm & Hr).
    destruct (cache_updates_keep (recompute_updates _ H2)) as (Ef & _ & _ & Er).
    unfold point_estimate. rewrite Ef, Er. auto. }
  destruct (is_regression (task (fm s2))).
  - bind_step H s3 H3. bind_step H sr Hsr. bind_step H ev Hev.
    injection H as <-. cbn [fst]. destruct sr as [s4 rm].
    apply evaluate_train_keeps in Hsr. cbn [fst].
    destruct (cache_updates_keep (remove_target_updates _ Hsr))
      as (Ef & _ & _ & Er).
    unfold accumulate_test in H3. bind_step H3 ps Hps. injection H3 as <-.
    unfold point_estimate. rewrite Ef, Er. destruct P2 as (Hs & Hm & Hr).
    point_split.
  - destruct (is_classification (task (fm s2))); [|discriminate H].
    injection H as <-. exact P2.
Qed.

(** X7. In point-estimate mode (method 'als': no sampling, no
    hyperpriors) [learn] draws no random number: the generator is, after
    [learn], in the state it was in before, whatever the data, the model
    and the number of iterations. *)
Theorem als_learn_draws_nothing (s s' : MCMC_learn num rng)
        (l : list (num * num)) (pred : list num) :
  do_sample (fm s) = false -> do_multilevel (fm s) = false ->
  learn s = Ok (s', l, pred) ->
  random s' = random s /\
  do_sample (fm s') = false /\ do_multilevel (fm s') = false.
Proof.
  intros Hs Hm H. unfold learn in H.
  bind_step H s1 H1. bind_step H s2 H2. bind_step H sl Hsl. bind_step H p Hp.
  injection H as E1 E2. subst sl.
  assert (P1 : point_estimate (random s) s1).
  { destruct (cache_updates_keep (recompute_updates _ H1)) as (Ef & _ & _ & Er).
    unfold point_estimate. rewrite Ef, Er. point_split. }
  assert (P2 : point_estimate (random s) s2).
  { destruct (is_regression (task (fm s1))); [|discriminate H2].
    destruct (cache_updates_keep (remove_target_updates _ H2))
      as (Ef & _ & _ & Er).
    unfold point_estimate. rewrite Ef, Er. exact P1. }
  assert (P3 : point_estimate (random s) (fst (s', l))).
  { revert Hsl.
    apply (foreach_invariant (fun sl => point_estimate (random s) (fst sl)));
      [|exact P2].
    intros i a a' Ha. apply learn_iteration_point. exact Ha. }
  destruct P3 as (A & B & C). auto.
Qed.

End PointEstimate.

(** ** What [learn] returns *)

Section LearnOutputs.
Context {num rng : Type} {S : Scalar num} {RS : RandomState num rng}.
Local Open Scope num_scope.

(** X8. A sweep of the sampler ([draw_all]) touches nothing on the test
    side: it changes neither the test cache nor the test predictions kept
    so far, neither the two data sets, the clipping bounds and the priors'
    constants, nor the model's configuration. *)
Theorem sweep_leaves_test_side (s s' : MCMC_learn num rng) :
  draw_all s = Ok s' ->
  cache_test s' = cache_test s /\
  pred_sum_all s' = pred_sum_all s /\ pred_this s' = pred_this s /\
  constants s' = constants s /\ config (fm s') = config (fm s).
Proof.
  intros H. pose proof (draw_all_updates _ H) as U.
  destruct (sweep_keeps_test U) as (A & B & C).
  repeat (split; [assumption|]). split.
  - eapply updates_constants; exact U.
  - eapply updates_config; exact U.
Qed.

Lemma learn_loop_log (n : list nat) (sl sl' : MCMC_learn num rng * list (num * num)) :
  is_regression (task (fm (fst sl))) = true ->
  foreach n learn_iteration sl = Ok sl' ->
  length (snd sl') = (length (snd sl) + length n)%nat.
Proof.
  revert sl. induction n as [|i n IH]; cbn [foreach length]; intros sl Hreg H.
  - injection H as <-. lia.
  - bind_step H sl1 H1.
    assert (Ht : task (fm (fst sl1)) = task (fm (fst sl))).
    { apply config_task. eapply updates_config.
      eapply learn_iteration_updates; exact H1. }
    rewrite (IH sl1 (eq_trans (f_equal is_regression Ht) Hreg) H).
    unfold learn_iteration in H1.
    bind_step H1 s1 D1. bind_step H1 s2 D2.
    assert (Ht2 : task (fm s2) = task (fm (fst sl))).
    { apply config_task.
      pose proof (updates_config (draw_all_updates _ D1)) as C1.
      pose proof (updates_config (recompute_updates _ D2)) as C2. congruence. }
    rewrite Ht2, Hreg in H1.
    bind_step H1 s3 D3. bind_step H1 sr Dsr. bind_step H1 ev Dev.
    injection H1 as <-. cbn [snd]. rewrite length_app. cbn [length]. lia.
Qed.

(** X9. When [learn] returns, it has printed one line (train RMSE, test
    RMSE) per iteration, [num_iter] lines in all (none for
    [num_iter <= 0]), and the prediction vector it saves has one entry per
    test case; the data sets and the clipping bounds of the sampler are
    the ones it started with. *)
Theorem learn_outputs (s s' : MCMC_learn num rng) (l : list (num * num))
        (pred : list num) :
  learn s = Ok (s', l, pred) ->
  length l = Z.to_nat (self_num_iter s) /\
  length pred = num_cases (test s) /\
  constants s' = constants s.
Proof.
  intros H. destruct (learn_inv _ H) as (Hreg & U & Hp).
  pose proof (updates_constants U) as C.
  destruct (constants_bounds C) as (_ & _ & _ & Et & _).
  split; [|split; [|exact C]].
  - unfold learn in H.
    bind_step H s1 H1. bind_step H s2 H2. bind_step H sl Hsl.
    bind_step H p Hp'. injection H as E1 E2. subst sl.
    assert (U1 : updates any_attr s s1).
    { eapply updates_trans; [|eapply updates_mono; [apply cache_attr_any|];
                               eapply recompute_updates; exact H1].
      updates_chain. }
    destruct (is_regression (task (fm s1))) eqn:R1; [|discriminate H2].
    pose proof (remove_target_updates _ H2) as U2.
    assert (R2 : is_regression (task (fm s2)) = true).
    { rewrite (config_task (updates_config U2)). exact R1. }
    pose proof (learn_loop_log _ (s2, []) R2 Hsl) as L.
    cbn [snd length] in L. unfold xrange in L. rewrite length_seq in L.
    rewrite L. cbn [Nat.add].
    destruct (constants_bounds (updates_constants U2)) as (_ & _ & E2' & _).
    destruct (constants_bounds (updates_constants U1)) as (_ & _ & E1' & _).
    congruence.
  - rewrite <- Et. rewrite predict_regression in Hp.
    + cbv zeta in Hp.
      destruct (do_sample (fm s'));
        [destruct (Nat.eqb_spec (num_cases (test s')) (length (pred_sum_all s')))
        |destruct (Nat.eqb_spec (num_cases (test s')) (length (pred_this s')))];
        try discriminate Hp; injection Hp as <-; rewrite ?length_map; congruence.
    + rewrite (config_task (updates_config U)). exact Hreg.
Qed.

(** X10. [learn] refuses every task but 'regression', 'classification'
    included (for which its loop has a branch): after the first full
    recompute it raises the Exception of line 146, before any sweep. *)
Theorem learn_refuses_other_tasks (s : MCMC_learn num rng) :
  is_regression (task (fm s)) = false ->
  match predict_data_and_write_to_eterms
          (assign s (Afm (set_regs (fm s) zero zero zero))) with
  | Ok _ => learn s = Raise (Exception "Unknown task")
  | Raise e => learn s = Raise e
  end.
Proof.
  intros Hreg. unfold learn. cbv zeta.
  destruct (predict_data_and_write_to_eterms
              (assign s (Afm (set_regs (fm s) zero zero zero)))) as [s1|e] eqn:H1;
    cbn [bind]; [|reflexivity].
  assert (Ht : task (fm s1) = task (fm s)).
  { destruct (cache_updates_keep (recompute_updates _ H1)) as (Ef & _).
    rewrite Ef. reflexivity. }
  rewrite Ht, Hreg. reflexivity.
Qed.

End LearnOutputs.

(** ** Clipping twice *)

(** A number between the bounds is left as it is. *)
Lemma np_clip_inside (lo hi x : B64.binary64) :
  B64.within lo hi x = true -> np_clip lo hi x = x.
Proof.
  unfold B64.within. intros H. apply andb_prop in H. destruct H as [H1 H2].
  destruct (SFleb_not_nan _ _ H1) as [Hlo Hx].
  destruct (SFleb_not_nan _ _ H2) as [_ Hhi].
  unfold np_clip, np_maximum, np_minimum. cbn [isnan ltb binary64_scalar].
  rewrite Hx, Hlo, (SFleb_ltb_false _ _ H1), Hx, Hhi, (SFleb_ltb_false _ _ H2).
  reflexivity.
Qed.

Lemma np_clip_idempotent (lo hi x : B64.binary64) :
  SFleb lo hi = true ->
  np_clip lo hi (np_clip lo hi x) = np_clip lo hi x.
Proof.
  intros H. destruct (np_clip_within lo hi x H) as [Hn | Hw].
  - unfold np_clip at 1. unfold np_maximum, np_minimum.
    cbn [isnan ltb binary64_scalar]. rewrite Hn, Hn. reflexivity.
  - apply np_clip_inside. exact Hw.
Qed.

Section ClipTwice.
Context {rng : Type}.

(** X11. In binary64, with bounds in order (as they are for a training
    file with at least one line and no NaN target), the vector [predict]
    returns for a regression task is a fixed point of the clipping:
    clipping it again to [min_target, max_target], as the evaluation of a
    saved prediction would, changes no entry, NaN entries included. *)
Theorem predict_output_clip_fixed (s : MCMC_learn B64.binary64 rng)
        (pred : list B64.binary64) :
  is_regression (task (fm s)) = true ->
  SFleb (self_min_target s) (self_max_target s) = true ->
  predict s = Ok pred ->
  map (np_clip (self_min_target s) (self_max_target s)) pred = pred.
Proof.
  intros Hreg Hb H. rewrite predict_regression in H by exact Hreg.
  cbv zeta in H.
  assert (E : forall a : list B64.binary64,
             map (np_clip (self_min_target s) (self_max_target s))
                 (map (np_clip (self_min_target s) (self_max_target s)) a)
             = map (np_clip (self_min_target s) (self_max_target s)) a).
  { intros a. rewrite map_map. apply map_ext. intros x.
    apply np_clip_idempotent. exact Hb. }
  destruct (do_sample (fm s)).
  - destruct (Nat.eqb _ _); [|discriminate H]. injection H as <-. apply E.
  - destruct (Nat.eqb _ _); [|discriminate H]. injection H as <-. apply E.
Qed.

End ClipTwice.

(** ** The full recompute, again *)

Lemma foreach_ext {I A : Type} (l : list I) (f g : I -> A -> result A) (a : A) :
  (forall i x, f i x = g i x) -> foreach l f a = foreach l g a.
Proof.
  intros H. revert a. induction l as [|i l IH]; intros a; cbn [foreach].
  - reflexivity.
  - rewrite H. destruct (g i a); cbn [bind]; [apply IH | reflexivity].
Qed.

Section RecomputeAgain.
Context {num rng : Type} {RO : RingOps num}.
Local Open Scope num_scope.

Lemma inplace_length (f : num -> num -> num) (a b c : list num) :
  inplace f a b = Ok c -> length c = length a.
Proof.
  unfold inplace. destruct (Nat.eqb_spec (length a) (length b)) as [E|E].
  - intros H. injection H as <-. apply map2_same_length. exact E.
  - destruct b as [|y [|z b]]; try discriminate.
    intros H. injection H as <-. apply length_map.
Qed.

(** the lengths of the four rows of a pair of caches *)
Lemma add_half_square_lengths (c c' : list num * list num) (q : list num) :
  add_half_square c q = Ok c' ->
  length (fst c') = length (fst c) /\ length (snd c') = length (snd c).
Proof.
  unfold add_half_square. intros H. bind_step H c1 Hc1. bind_step H c0 Hc0.
  injection H as <-. cbn [fst snd]. unfold np_zeros_like.
  rewrite np_zeros_length, (inplace_length _ _ _ Hc0), (inplace_length _ _ _ Hc1).
  auto.
Qed.

Lemma sub_q_lengths (c c' : list num * list num) (q : list num) :
  sub_q c q = Ok c' ->
  length (fst c') = length (fst c) /\ length (snd c') = length (snd c).
Proof.
  unfold sub_q. intros H. bind_step H c1 H1. injection H as <-. cbn [fst snd].
  rewrite (inplace_length _ _ _ H1). auto.
Qed.

Lemma add_q_lengths (c c' : list num * list num) (q : list num) :
  add_q c q = Ok c' ->
  length (fst c') = length (fst c) /\ length (snd c') = length (snd c).
Proof.
  unfold add_q. intros H. bind_step H c1 H1. injection H as <-. cbn [fst snd].
  rewrite (inplace_length _ _ _ H1). auto.
Qed.

Lemma recompute_loops_lengths (s : MCMC_learn num rng) (n0 n1 m0 m1 : nat)
      (cc cc' : (list num * list num) * (list num * list num)) :
  (length (fst (fst cc)), length (snd (fst cc)),
   length (fst (snd cc)), length (snd (snd cc))) = (n0, n1, m0, m1) ->
  (exists l, foreach l (eterm_step s) cc = Ok cc') \/
  (exists l, foreach l (qterm_step s) cc = Ok cc') \/
  linear_step s cc = Ok cc' ->
  (length (fst (fst cc')), length (snd (fst cc')),
   length (fst (snd cc')), length (snd (snd cc'))) = (n0, n1, m0, m1).
Proof.
  intros H0 [(l & H) | [(l & H) | H]].
  - revert H.
    apply (foreach_invariant
             (fun cc : (list num * list num) * (list num * list num) =>
                (length (fst (fst cc)), length (snd (fst cc)),
                 length (fst (snd cc)), length (snd (snd cc)))
                = (n0, n1, m0, m1))); [|exact H0].
    intros i a a' Ha H. unfold eterm_step in H.
    bind_step H vf Hvf. bind_step H q Hq. bind_step H qt Hqt.
    bind_step H c' Hc. bind_step H ct' Hct. injection H as <-. cbn [fst snd].
    destruct (add_half_square_lengths _ _ Hc) as [-> ->].
    destruct (add_half_square_lengths _ _ Hct) as [-> ->]. exact Ha.
  - revert H.
    apply (foreach_invariant
             (fun cc : (list num * list num) * (list num * list num) =>
                (length (fst (fst cc)), length (snd (fst cc)),
                 length (fst (snd cc)), length (snd (snd cc)))
                = (n0, n1, m0, m1))); [|exact H0].
    intros i a a' Ha H. unfold qterm_step in H.
    bind_step H vf Hvf. bind_step H q Hq. bind_step H c' Hc.
    bind_step H qt Hqt. bind_step H ct' Hct. injection H as <-. cbn [fst snd].
    destruct (sub_q_lengths _ _ Hc) as [-> ->].
    destruct (sub_q_lengths _ _ Hct) as [-> ->]. exact Ha.
  - unfold linear_step in H. destruct (k1 (fm s)).
    + bind_step H q Hq. bind_step H c' Hc.
      bind_step H qt Hqt. bind_step H ct' Hct. injection H as <-. cbn [fst snd].
      destruct (add_q_lengths _ _ Hc) as [-> ->].
      destruct (add_q_lengths _ _ Hct) as [-> ->]. exact H0.
    + injection H as <-. exact H0.
Qed.

(** The recompute keeps the lengths of the four rows of the caches. *)
Lemma recompute_lengths (s s1 : MCMC_learn num rng) :
  predict_data_and_write_to_eterms s = Ok s1 ->
  (length (fst (cache s1)), length (snd (cache s1)),
   length (fst (cache_test s1)), length (snd (cache_test s1)))
  = (length (fst (cache s)), length (snd (cache s)),
     length (fst (cache_test s)), length (snd (cache_test s))).
Proof.
  unfold predict_data_and_write_to_eterms. cbv zeta. intros H.
  bind_step H cc1 H1. bind_step H cc2 H2. bind_step H cc3 H3.
  bind_step H c0 Hc0. bind_step H ct0 Hct0. injection H as <-.
  assert (L1 := recompute_loops_lengths s _ eq_refl
                  (or_introl (ex_intro _ _ H1))).
  cbn [fst snd] in L1. unfold np_zeros_like in L1.
  rewrite !np_zeros_length in L1.
  assert (L2 := recompute_loops_lengths s _ L1
                  (or_intror (or_introl (ex_intro _ _ H2)))).
  assert (L3 := recompute_loops_lengths s _ L2 (or_intror (or_intror H3))).
  cbn [assign cache cache_test fst snd]. unfold np_zeros_like.
  rewrite !np_zeros_length.
  apply inplace_length in Hc0, Hct0.
  injection L3 as E1 E2 E3 E4.
  destruct (k0 (fm s)); rewrite ?length_map; congruence.
Qed.

(** The recompute reads the model and the two data sets, and of the
    caches only their lengths. *)
Lemma recompute_reads (s t : MCMC_learn num rng) :
  fm t = fm s -> train t = train s -> test t = test s ->
  (length (fst (cache t)), length (snd (cache t)),
   length (fst (cache_test t)), length (snd (cache_test t)))
  = (length (fst (cache s)), length (snd (cache s)),
     length (fst (cache_test s)), length (snd (cache_test s))) ->
  predict_data_and_write_to_eterms t
  = match predict_data_and_write_to_eterms s with
    | Ok s1 => Ok (assign (assign t (Acache (cache s1)))
                          (Acache_test (cache_test s1)))
    | Raise e => Raise e
    end.
Proof.
  intros Ef Etr Ete EL. injection EL as E1 E2 E3 E4.
  unfold predict_data_and_write_to_eterms. cbv zeta. unfold np_zeros_like.
  rewrite Ef, E1, E2, E3, E4.
  rewrite (foreach_ext _ (eterm_step t) (eterm_step s))
    by (intros i x; unfold eterm_step; rewrite Ef, Etr, Ete; reflexivity).
  destruct (foreach (xrange (num_factor (fm s))) (eterm_step s) _) as [cc1|e];
    cbn [bind]; [|reflexivity].
  rewrite (foreach_ext _ (qterm_step t) (qterm_step s))
    by (intros i x; unfold qterm_step; rewrite Ef, Etr, Ete; reflexivity).
  destruct (foreach (xrange (num_factor (fm s))) (qterm_step s) cc1) as [cc2|e];
    cbn [bind]; [|reflexivity].
  replace (linear_step t cc2) with (linear_step s cc2)
    by (unfold linear_step; rewrite Ef, Etr, Ete; reflexivity).
  destruct (linear_step s cc2) as [cc3|e]; cbn [bind]; [|reflexivity].
  destruct (inplace add (fst (fst cc3)) (snd (fst cc3))) as [c0|e];
    cbn [bind]; [|reflexivity].
  destruct (inplace add (fst (snd cc3)) (snd (snd cc3))) as [ct0|e];
    cbn [bind]; reflexivity.
Qed.

(** X12. The full recompute is idempotent: run on the state it has just
    left, it succeeds and leaves that very state.  It reads nothing of the
    caches but their lengths, which it keeps. *)
Theorem recompute_idempotent (s s1 : MCMC_learn num rng) :
  predict_data_and_write_to_eterms s = Ok s1 ->
  predict_data_and_write_to_eterms s1 = Ok s1.
Proof.
  intros H.
  assert (E : fm s1 = fm s /\ train s1 = train s /\ test s1 = test s).
  { pose proof H as H'. unfold predict_data_and_write_to_eterms in H'.
    cbv zeta in H'.
    bind_step H' cc1 H1. bind_step H' cc2 H2. bind_step H' cc3 H3.
    bind_step H' c0 Hc0. bind_step H' ct0 Hct0. injection H' as <-.
    repeat split. }
  destruct E as (Ef & Etr & Ete).
  rewrite (recompute_reads s s1 Ef Etr Ete (recompute_lengths _ H)), H.
  f_equal. destruct s1. reflexivity.
Qed.

End RecomputeAgain.

(** ** The shapes are kept *)

Lemma setitem_length {A : Type} (a : list A) (i : nat) (x : A) :
  length (setitem a i x) = length a.
Proof.
  revert i. induction a as [|h t IH]; intros [|i]; cbn [setitem length];
    try reflexivity. rewrite IH. reflexivity.
Qed.

Lemma Forall_setitem {A : Type} (P : A -> Prop) (a : list A) (i : nat) (x : A) :
  Forall P a -> P x -> Forall P (setitem a i x).
Proof.
  intros Ha Hx. revert i. induction Ha as [|h t Hh Ht IH]; intros [|i];
    cbn [setitem]; constructor; auto.
Qed.

Lemma getitem_In {A : Type} (a : list A) (i : nat) (x : A) :
  getitem a i = Ok x -> In x a /\ i < length a.
Proof.
  unfold getitem. destruct (nth_error a i) as [y|] eqn:E; [|discriminate].
  intros H. injection H as <-. split.
  - eapply nth_error_In; exact E.
  - apply nth_error_Some. congruence.
Qed.

Section Shapes.
Context {num rng : Type} {S : Scalar num} {RS : RandomState num rng}.
Local Open Scope num_scope.

Lemma sub_row_length (a : list num) (x : list (nat * num)) :
  length (sub_row a x) = length a.
Proof.
  unfold sub_row. rewrite length_map, length_combine, length_seq.
  apply Nat.min_id.
Qed.

(** [shaped] looks at the data sets, at the lengths of the model's
    parameters and of the rows of the caches, and at two flags. *)
Lemma shaped_reads (F : nat) (s t : MCMC_learn num rng) :
  train t = train s -> test t = test s ->
  k1 (fm t) = k1 (fm s) -> num_factor (fm t) = num_factor (fm s) ->
  length (w (fm t)) = length (w (fm s)) ->
  length (v (fm t)) = length (v (fm s)) ->
  (Forall (fun vf => length vf = F) (v (fm s)) ->
   Forall (fun vf => length vf = F) (v (fm t))) ->
  (length (fst (cache t)), length (snd (cache t)),
   length (fst (cache_test t)), length (snd (cache_test t)))
  = (length (fst (cache s)), length (snd (cache s)),
     length (fst (cache_test s)), length (snd (cache_test s))) ->
  shaped F s -> shaped F t.
Proof.
  intros Etr Ete Ek1 Enf Ew Ev Hall EL (Htr & Hte & (Hw & Hv & Hf) & Hc).
  injection EL as E1 E2 E3 E4.
  unfold shaped, model_shaped, caches_shaped in *.
  rewrite Etr, Ete, Ek1, Enf, Ew, Ev, E1, E2, E3, E4.
  split; [exact Htr|]. split; [exact Hte|]. split; [|exact Hc].
  split; [exact Hw|]. split; [exact Hv|]. apply Hall. exact Hf.
Qed.

Ltac shaped_step :=
  eapply shaped_reads; [| | | | | | | |eassumption];
  cbn [assign fm train test cache cache_test set_w0 set_w set_v set_regs
       k1 num_factor w v fst snd];
  rewrite ?length_map, ?sub_row_length, ?setitem_length;
  try reflexivity; try (intros; assumption).

Lemma draw_alpha_shaped (F : nat) (s : MCMC_learn num rng) :
  shaped F s -> shaped F (draw_alpha s).
Proof.
  intros Hs. unfold draw_alpha. destruct (negb (do_multilevel (fm s))).
  - shaped_step.
  - destruct (ran_gamma _ _ _). shaped_step.
Qed.

Lemma draw_w0_shaped (F : nat) (s s' : MCMC_learn num rng) :
  shaped F s -> draw_w0 s = Ok s' -> shaped F s'.
Proof.
  intros Hs H. unfold draw_w0 in H. monad_inv; subst s'; shaped_step.
Qed.

Lemma draw_w_i_shaped (F : nat) X mu lam i (s s' : MCMC_learn num rng) :
  shaped F s -> draw_w_i X mu lam i s = Ok s' -> shaped F s'.
Proof.
  intros Hs H. unfold draw_w_i in H. monad_inv; subst s'; shaped_step.
Qed.

Lemma draw_v_i_shaped (F : nat) X f mu lam i (s s' : MCMC_learn num rng) :
  shaped F s -> draw_v_i X f mu lam i s = Ok s' -> shaped F s'.
Proof.
  intros Hs H. unfold draw_v_i in H.
  bind_step H x_li Hx. bind_step H ms Hms. bind_step H vf Hvf.
  bind_step H v_old Hv.
  destruct (commit v_old (do_sample (fm s)) (fst ms) (snd ms) (random s))
    as [v_new g].
  bind_step H h Hh. injection H as <-. shaped_step.
  intros Hall. apply Forall_setitem; [exact Hall|].
  rewrite setitem_length. rewrite Forall_forall in Hall. apply Hall.
  apply (getitem_In _ _ Hvf).
Qed.

Lemma hyper_shaped (F : nat) (s s' : MCMC_learn num rng) :
  shaped F s ->
  draw_w_mu s = Ok s' \/ draw_w_lambda s = Ok s' \/
  draw_v_mu s = Ok s' \/ draw_v_lambda s = Ok s' ->
  shaped F s'.
Proof.
  intros Hs [H | [H | [H | H]]].
  - unfold draw_w_mu in H. monad_inv; subst s'; shaped_step.
  - unfold draw_w_lambda in H. monad_inv; subst; try assumption; shaped_step.
  - unfold draw_v_mu in H. destruct (negb (do_multilevel (fm s))).
    + injection H as <-. shaped_step.
    + revert H. apply (foreach_invariant (shaped F)); [|exact Hs].
      intros f a a' Ha H. monad_inv; subst a'; shaped_step.
  - unfold draw_v_lambda in H. destruct (negb (do_multilevel (fm s))).
    + injection H as <-. exact Hs.
    + revert H. apply (foreach_invariant (shaped F)); [|exact Hs].
      intros f a a' Ha H. monad_inv; subst a'; shaped_step.
Qed.

Lemma draw_all_factor_shaped (F : nat) (f : nat) (s s' : MCMC_learn num rng) :
  shaped F s -> draw_all_factor f s = Ok s' -> shaped F s'.
Proof.
  intros Hs H. unfold draw_all_factor in H.
  bind_step H vf Hvf. bind_step H q Hq. bind_step H c1 Hc1.
  bind_step H mu_f Hmu_f. bind_step H mu_g Hmu_g.
  bind_step H lam_f Hlam_f. bind_step H lam_g Hlam_g.
  unfold draw_v in H. bind_step H vf' Hvf'. revert H.
  apply (foreach_invariant (shaped F)).
  - intros i a a' Ha. apply draw_v_i_shaped. exact Ha.
  - apply inplace_length in Hc1. unfold np_zeros_like in Hc1.
    rewrite np_zeros_length in Hc1. shaped_step. rewrite Hc1. reflexivity.
Qed.

Lemma draw_all_shaped (F : nat) (s s' : MCMC_learn num rng) :
  shaped F s -> draw_all s = Ok s' -> shaped F s'.
Proof.
  intros Hs H. unfold draw_all in H.
  apply draw_alpha_shaped in Hs.
  bind_step H s1 H1. bind_step H s2 H2. bind_step H s3 H3.
  assert (P1 : shaped F s1).
  { destruct (k0 (fm (draw_alpha s))).
    - eapply draw_w0_shaped; eassumption.
    - injection H1 as <-. exact Hs. }
  assert (P2 : shaped F s2).
  { destruct (k1 (fm s1)); [|injection H2 as <-; exact P1].
    bind_step H2 t1 Ht1. bind_step H2 t2 Ht2.
    bind_step H2 mu_g Hmu. bind_step H2 lam_g Hlam.
    assert (Q1 : shaped F t1) by (eapply hyper_shaped; eauto).
    assert (Q2 : shaped F t2) by (eapply hyper_shaped; eauto).
    unfold draw_w in H2. revert H2.
    apply (foreach_invariant (shaped F)); [|exact Q2].
    intros i a a' Ha. apply draw_w_i_shaped. exact Ha. }
  assert (P3 : shaped F s3).
  { destruct (0 <? num_factor (fm s2))%Z; [|injection H3 as <-; exact P2].
    bind_step H3 t1 Ht1.
    assert (Q1 : shaped F t1) by (eapply hyper_shaped; eauto 6).
    eapply hyper_shaped; eauto 6. }
  revert H. apply (foreach_invariant (shaped F)); [|exact P3].
  intros f a a' Ha. apply draw_all_factor_shaped. exact Ha.
Qed.

Lemma recompute_shaped (F : nat) (s s' : MCMC_learn num rng) :
  shaped F s -> predict_data_and_write_to_eterms s = Ok s' -> shaped F s'.
Proof.
  intros Hs H. pose proof (recompute_lengths _ H) as L.
  pose proof (recompute_updates _ H) as U.
  destruct (cache_updates_keep U) as (Ef & _).
  destruct (constants_bounds (updates_constants U)) as (_ & _ & _ & Ete & Etr).
  eapply shaped_reads; [| | | | | | | |exact Hs];
    rewrite ?Ef; try assumption; try reflexivity. auto.
Qed.

Lemma remove_target_shaped (F : nat) (s s' : MCMC_learn num rng) :
  shaped F s -> remove_target s = Ok s' -> shaped F s'.
Proof.
  intros Hs H. unfold remove_target in H. bind_step H c0 Hc0.
  injection H as <-. apply inplace_length in Hc0. shaped_step.
  rewrite Hc0. reflexivity.
Qed.

Lemma accumulate_test_shaped (F : nat) (s s' : MCMC_learn num rng) :
  shaped F s -> accumulate_test s = Ok s' -> shaped F s'.
Proof.
  intros Hs H. unfold accumulate_test in H. bind_step H ps Hps.
  injection H as <-. shaped_step.
Qed.

Lemma learn_iteration_shaped (F : nat) (i : nat)
      (sl sl' : MCMC_learn num rng * list (num * num)) :
  shaped F (fst sl) -> learn_iteration i sl = Ok sl' -> shaped F (fst sl').
Proof.
  intros Hs H. unfold learn_iteration in H.
  bind_step H s1 H1. bind_step H s2 H2.
  assert (P2 : shaped F s2).
  { eapply recompute_shaped; [|exact H2]. eapply draw_all_shaped; eassumption. }
  destruct (is_regression (task (fm s2))).
  - bind_step H s3 H3. bind_step H sr Hsr. bind_step H ev Hev.
    injection H as <-. cbn [fst]. destruct sr as [s4 rm].
    apply evaluate_train_keeps in Hsr. cbn [fst].
    eapply remove_target_shaped; [|exact Hsr].
    eapply accumulate_test_shaped; eassumption.
  - destruct (is_classification (task (fm s2))); [|discriminate H].
    injection H as <-. exact P2.
Qed.

(** X13. The shapes the constructors set up are an invariant of the
    whole run: if the data sets, the weight vector, the factor rows and
    the caches fit together when [learn] starts, they do after every sweep
    ([draw_all]), after every iteration of the loop and when [learn]
    returns; no draw, patch or recompute changes the length of a parameter
    vector or of a cache row. *)
Theorem shapes_are_kept (F : nat) (s : MCMC_learn num rng) :
  shaped F s ->
  (forall s', draw_all s = Ok s' -> shaped F s') /\
  (forall i l s' l', learn_iteration i (s, l) = Ok (s', l') -> shaped F s') /\
  (forall s' l pred, learn s = Ok (s', l, pred) -> shaped F s').
Proof.
  intros Hs. split; [|split].
  - intros s'. apply draw_all_shaped. exact Hs.
  - intros i l s' l' H.
    change s' with (fst (s', l')).
    eapply learn_iteration_shaped; [|exact H]. exact Hs.
  - intros s' l pred H. unfold learn in H.
    bind_step H s1 H1. bind_step H s2 H2. bind_step H sl Hsl.
    bind_step H p Hp. injection H as E1 E2. subst sl.
    assert (P0 : shaped F (assign s (Afm (set_regs (fm s) zero zero zero))))
      by shaped_step.
    assert (P1 : shaped F s1) by (eapply recompute_shaped; eassumption).
    assert (P2 : shaped F s2).
    { destruct (is_regression (task (fm s1))); [|discriminate H2].
      eapply remove_target_shaped; eassumption. }
    change s' with (fst (s', l)). revert Hsl.
    apply (foreach_invariant (fun sl => shaped F (fst sl))); [|exact P2].
    intros i a a' Ha. apply learn_iteration_shaped. exact Ha.
Qed.

End Shapes.

(** ** The patches of the cache are exact *)

Lemma nth_setitem {A : Type} (a : list A) (i j : nat) (x d : A) :
  nth j (setitem a i x) d
  = if Nat.eqb j i && Nat.ltb i (length a) then x else nth j a d.
Proof.
  revert i j. induction a as [|h t IH]; intros i j.
  - cbn [setitem length]. rewrite andb_false_r. reflexivity.
  - destruct i as [|i], j as [|j]; cbn [setitem nth length]; try reflexivity.
    rewrite IH. reflexivity.
Qed.

Lemma getitem_nth {A : Type} (a : list A) (i : nat) (x d : A) :
  getitem a i = Ok x -> nth i a d = x /\ i < length a.
Proof.
  unfold getitem. destruct (nth_error a i) as [y|] eqn:E; [|discriminate].
  intros H. injection H as <-. split.
  - apply nth_error_nth. exact E.
  - apply nth_error_Some. congruence.
Qed.

Section SparseRows.
Context {num : Type} {RO : RingOps num}.
Variable Rth : ring_theory zero one add mul sub opp (@eq num).
Add Ring num_ring_rows : Rth.
Variable nonzero_exact : forall x : num, nonzero x = false -> x = zero.
Local Open Scope num_scope.

Lemma sum_upto_change_one (n f : nat) (g g' : nat -> num) :
  f < n -> (forall j, j <> f -> g' j = g j) ->
  sum_upto n g' = sum_upto n g + (g' f - g f).
Proof.
  intros Hf Hg. induction n as [|n IH]; [lia|]. cbn [sum_upto].
  destruct (Nat.eq_dec f n) as [->|Hne].
  - rewrite (@sum_upto_ext _ _ n g' g) by (intros j Hj; apply Hg; lia). ring.
  - rewrite IH by lia. rewrite (Hg n) by lia. ring.
Qed.

Lemma sum_upto_setitem (n i : nat) (a : list num) (y : num) (x : nat -> num) :
  i < n -> i < length a ->
  sum_upto n (fun j => nth j (setitem a i y) zero * x j)
  = sum_upto n (fun j => nth j a zero * x j) + (y - nth i a zero) * x i.
Proof.
  intros Hn Ha.
  rewrite (sum_upto_change_one (f := i) (fun j => nth j a zero * x j)) by
    (try exact Hn; intros j Hj; rewrite nth_setitem;
     rewrite (proj2 (Nat.eqb_neq j i) Hj); reflexivity).
  rewrite nth_setitem, Nat.eqb_refl, (proj2 (Nat.ltb_lt _ _) Ha). cbn [andb].
  ring.
Qed.

Lemma nth_sub_row (a : list num) (x : list (nat * num)) (k : nat) :
  k < length a ->
  nth k (sub_row a x) zero = nth k a zero - row_get x k.
Proof.
  unfold sub_row.
  assert (G : forall (a : list num) (j k : nat),
             k < length a ->
             nth k (map (fun ce => snd ce - row_get x (fst ce))
                        (combine (seq j (length a)) a)) zero
             = nth k a zero - row_get x (j + k)).
  { clear a k. induction a as [|e a IH]; intros j k Hk; cbn [length] in Hk.
    - lia.
    - destruct k as [|k]; cbn [length seq combine map nth fst snd].
      + rewrite Nat.add_0_r. reflexivity.
      + rewrite IH by lia.
        replace (Datatypes.S j + k)%nat with (j + Datatypes.S k)%nat by lia.
        reflexivity. }
  intros Hk. rewrite G by exact Hk. reflexivity.
Qed.

Lemma row_get_scale (d : num) (x : list (nat * num)) (c : nat) :
  row_get (row_scale d x) c = d * row_get x c.
Proof.
  unfold row_get, row_scale. induction x as [|p x IH]; cbn [map find fst snd].
  - ring.
  - destruct (Nat.eqb (fst p) c); [reflexivity | exact IH].
Qed.

Lemma row_get_opp (x : list (nat * num)) (c : nat) :
  row_get (row_opp x) c = - row_get x c.
Proof.
  unfold row_get, row_opp. induction x as [|p x IH]; cbn [map find fst snd].
  - ring.
  - destruct (Nat.eqb (fst p) c); [reflexivity | exact IH].
Qed.

Lemma row_sub_take_get (x Y : list (nat * num)) (a : list num) (c : nat) :
  row_sub_take x a = Ok Y ->
  map fst Y = map fst x /\
  row_get Y c = if row_stores x c then row_get x c - nth c a zero else zero.
Proof.
  unfold row_get, row_stores. revert Y.
  induction x as [|[c0 y] x IH]; intros Y H; cbn [row_sub_take] in H.
  - injection H as <-. split; reflexivity.
  - bind_step H e He. bind_step H r Hr. injection H as <-.
    destruct (IH r Hr) as [IH1 IH2].
    cbn [map find existsb fst snd]. split; [rewrite IH1; reflexivity|].
    destruct (Nat.eqb_spec c0 c) as [->|Hne]; cbn [orb].
    + rewrite (proj1 (getitem_nth _ _ zero He)). reflexivity.
    + exact IH2.
Qed.

(** the product of two rows with the same columns, each stored once; a
    product that is zero is not stored *)
Lemma row_get_multiply (x y : list (nat * num)) (c : nat) :
  NoDup (map fst x) -> map fst y = map fst x ->
  row_get (row_multiply x y) c = row_get x c * row_get y c.
Proof.
  revert y.
  induction x as [|[k a] x IH]; intros [|[k' b] y] Hn E;
    cbn [map fst] in E; try discriminate E.
  - unfold row_get. cbn. ring.
  - injection E as -> E. inversion Hn as [|k0 l Hk Hn' E0]. subst.
    specialize (IH y Hn' E). cbn [row_multiply].
    assert (Hx : Nat.eqb k c = true -> row_get (row_multiply x y) c = zero).
    { intros Ek. apply Nat.eqb_eq in Ek. subst c.
      apply row_get_absent, row_stores_multiply. unfold row_stores.
      apply not_true_is_false. intros Hex.
      apply existsb_exists in Hex. destruct Hex as ([j e] & Hj & Ej).
      apply Nat.eqb_eq in Ej. cbn [fst] in Ej. subst j.
      apply Hk. apply (in_map fst) in Hj. exact Hj. }
    destruct (nonzero (a * b)) eqn:Hnz.
    + unfold row_get in *. cbn [find fst snd].
      destruct (Nat.eqb k c); [reflexivity | exact IH].
    + destruct (Nat.eqb k c) eqn:Ek.
      * rewrite (Hx eq_refl). unfold row_get. cbn [find fst snd].
        rewrite Ek. cbn [snd]. rewrite (nonzero_exact _ Hnz). reflexivity.
      * rewrite IH. unfold row_get. cbn [find fst snd]. rewrite Ek.
        reflexivity.
Qed.

Lemma csr_row_of_nodup (M : coo_matrix num) (i : nat) :
  NoDup (map fst (csr_row_of M i)).
Proof.
  unfold csr_row_of.
  assert (G : forall js, NoDup js ->
             NoDup (map fst (flat_map (fun j => if stored M i j
                                                then [(j, coo_get M i j)]
                                                else []) js)) /\
             forall c, In c (map fst (flat_map (fun j => if stored M i j
                                                         then [(j, coo_get M i j)]
                                                         else []) js)) ->
                       In c js).
  { induction js as [|j js IH]; intros Hn.
    - split; [constructor | intros c []].
    - inversion Hn as [|j0 l Hj Hn' E0]. subst.
      destruct (IH Hn') as [IH1 IH2]. cbn [flat_map].
      destruct (stored M i j); cbn [app map fst].
      + split.
        * constructor; [intros Hin; apply Hj, IH2, Hin | exact IH1].
        * intros c [<-|Hc]; [left; reflexivity | right; apply IH2, Hc].
      + split; [exact IH1 | intros c Hc; right; apply IH2, Hc]. }
  apply G, seq_NoDup.
Qed.

Lemma row_get_csr_row (M : coo_matrix num) (i c : nat) :
  c < shape1 M -> row_get (csr_row_of M i) c = coo_get M i c.
Proof.
  intros Hc. unfold csr_row_of.
  assert (G : forall js,
             row_get (flat_map (fun j => if stored M i j
                                         then [(j, coo_get M i j)] else []) js) c
             = if existsb (Nat.eqb c) js then coo_get M i c else zero).
  { induction js as [|j js IH]; cbn [flat_map existsb]; [reflexivity|].
    destruct (stored M i j) eqn:Es; cbn [app].
    - unfold row_get in *. cbn [find fst snd].
      rewrite (Nat.eqb_sym c j).
      destruct (Nat.eqb_spec j c) as [->|Hne]; cbn [orb]; [reflexivity | exact IH].
    - rewrite IH. destruct (Nat.eqb_spec c j) as [->|Hne]; cbn [orb];
        [|reflexivity].
      rewrite (not_stored_get _ _ _ Es). destruct (existsb _ js); reflexivity. }
  rewrite G.
  replace (existsb (Nat.eqb c) (seq 0 (shape1 M))) with true; [reflexivity|].
  symmetry. apply existsb_exists. exists c. split.
  - apply in_seq. lia.
  - apply Nat.eqb_refl.
Qed.

Lemma getrow_tocsr (M : coo_matrix num) (i : nat) (x : list (nat * num)) :
  getrow (tocsr M) i = Ok x -> x = csr_row_of M i /\ i < shape0 M.
Proof.
  unfold getrow, tocsr. cbn [csr_rows]. intros H.
  destruct (getitem_nth _ _ [] H) as [E L]. rewrite length_map, length_seq in L.
  split; [|exact L]. rewrite <- E.
  rewrite (nth_indep _ [] (csr_row_of M 0)) by (rewrite length_map, length_seq; exact L).
  rewrite map_nth, seq_nth by exact L. reflexivity.
Qed.

End SparseRows.

Section Patches.
Context {num rng : Type} {S : Scalar num} {RS : RandomState num rng}.
Variable Rth : ring_theory zero one add mul sub opp (@eq num).
Add Ring num_ring_patches : Rth.
Variable nonzero_exact : forall x : num, nonzero x = false -> x = zero.
Local Open Scope num_scope.

(** The feature value [x_ki] of case [k], read off row [i] of the
    transposed data in CSR form. *)
Lemma feature_row (F : nat) (d : Data num) (i k : nat) (x_li : list (nat * num)) :
  data_shaped F d ->
  getrow (tocsr (data_t d)) i = Ok x_li ->
  k < num_cases d ->
  i < F /\ row_get x_li k = case_of d k i.
Proof.
  intros (Et & H0 & H1 & Hin & _) Hrow Hk.
  destruct (getrow_tocsr _ _ Hrow) as [-> Hi].
  rewrite Et in Hi |- *. cbn [transpose shape0] in Hi. split; [lia|].
  rewrite row_get_csr_row by (cbn [transpose shape1]; congruence).
  unfold case_of. apply coo_get_transpose.
Qed.

Lemma draw_w0_residuals (F : nat) (s s' : MCMC_learn num rng) :
  k0 (fm s) = true -> residuals F s -> draw_w0 s = Ok s' -> residuals F s'.
Proof.
  intros Hk0 Hres H. unfold draw_w0 in H. cbv zeta in H.
  bind_step H u Hu. unfold py_assert in Hu.
  destruct (Nat.eqb_spec (num_cases (train s)) (length (fst (cache s))))
    as [EL|]; [|discriminate Hu].
  bind_step H d Hd.
  match type of H with
  | (let (_, _) := ?p in _) = _ => destruct p as [w0_new g]
  end.
  injection H as <-. intros k Hk.
  cbn [assign cache train fm fst snd] in *.
  rewrite nth_map_in by lia. rewrite (Hres k Hk).
  unfold spec_prediction, factor_sum, factor_squares.
  cbn [set_w0 k0 k1 w0 w v num_factor]. rewrite Hk0. ring.
Qed.

Lemma draw_w_i_residuals (F : nat) mu lam (i : nat) (s s' : MCMC_learn num rng) :
  shaped F s -> k1 (fm s) = true -> residuals F s ->
  draw_w_i (tocsr (data_t (train s))) mu lam i s = Ok s' ->
  residuals F s'.
Proof.
  intros (Htr & _ & (Hw & _) & (L0 & _)) Hk1 Hres H.
  unfold draw_w_i in H. cbv zeta in H.
  bind_step H x_li Hx. bind_step H ms Hms. bind_step H w_old Hwo.
  destruct (commit w_old (do_sample (fm s)) (fst ms) (snd ms) (random s))
    as [w_new g].
  injection H as <-. intros k Hk.
  cbn [assign cache train fm fst snd] in *.
  destruct (feature_row _ Htr Hx Hk) as [Hi Ex].
  destruct (getitem_nth _ _ zero Hwo) as [Ew Lw].
  rewrite nth_sub_row by lia.
  rewrite (row_get_scale Rth), Ex, (Hres k Hk).
  unfold spec_prediction, factor_sum, factor_squares.
  cbn [set_w k0 k1 w0 w v num_factor]. rewrite Hk1.
  rewrite (sum_upto_setitem Rth) by (lia || exact Lw).
  rewrite Ew. ring.
Qed.

(** [0.5 (q + d x)^2 - 0.5 (s + (vn^2 - vo^2) x^2) - (0.5 q^2 - 0.5 s)
     = d x (q - vo x)] for [d = vn - vo], where [half] is one half *)
Lemma half_square_step (Q SQ vo vn x : num) :
  (half : num) + half = one ->
  (half * ((Q + (vn - vo) * x) * (Q + (vn - vo) * x))
   - half * (SQ + (vn * vn - vo * vo) * (x * x)))
  - (half * (Q * Q) - half * SQ)
  = (vn - vo) * (x * (Q - vo * x)).
Proof.
  intros Hh.
  transitivity ((half + half) * ((vn - vo) * (x * (Q - vo * x)))); [ring|].
  rewrite Hh. ring.
Qed.

(** the dense value of [h = x_li.multiply(-(val * x_li - q))] at a case *)
Lemma h_term_get (val : num) (x : list (nat * num)) (q : list num)
      (h : list (nat * num)) (k : nat) :
  NoDup (map fst x) ->
  h_term val x q = Ok h ->
  row_get h k = row_get x k * (nth k q zero - val * row_get x k).
Proof.
  unfold h_term. intros Hn H. bind_step H Y HY. injection H as <-.
  destruct (row_sub_take_get _ _ k HY) as [Ecols EY].
  rewrite (row_get_multiply Rth nonzero_exact).
  - rewrite (row_get_opp Rth), EY, (row_get_scale Rth).
    destruct (row_stores (row_scale val x) k) eqn:Es; [ring|].
    assert (Ex : row_get x k = zero).
    { apply row_get_absent. rewrite <- Es. symmetry. apply row_stores_scale. }
    rewrite Ex. ring.
  - exact Hn.
  - transitivity (map fst Y).
    + unfold row_opp. rewrite map_map. apply map_ext. reflexivity.
    + rewrite Ecols. unfold row_scale. rewrite map_map. apply map_ext.
      reflexivity.
Qed.

Hypothesis half_half : (half : num) + half = one.

Lemma draw_v_i_residuals (F f : nat) mu lam (i : nat) (s s' : MCMC_learn num rng) :
  shaped F s -> residuals F s -> q_terms F f s ->
  draw_v_i (tocsr (data_t (train s))) f mu lam i s = Ok s' ->
  residuals F s' /\ q_terms F f s'.
Proof.
  intros (Htr & _ & (_ & Lv & Hall) & (L0 & L1 & _)) Hres Hq H.
  unfold draw_v_i in H. cbv zeta in H.
  bind_step H x_li Hx. bind_step H ms Hms. bind_step H vf Hvf.
  bind_step H v_old Hvo.
  destruct (commit v_old (do_sample (fm s)) (fst ms) (snd ms) (random s))
    as [v_new g].
  bind_step H h Hh. injection H as <-.
  destruct (getitem_nth _ _ [] Hvf) as [Evf Lf].
  destruct (getitem_nth _ _ zero Hvo) as [Evo Li].
  set (m' := set_v (fm s) (setitem (v (fm s)) f (setitem vf i v_new))).
  assert (EQ : forall x : nat -> num, i < F ->
             factor_sum m' F x f
             = factor_sum (fm s) F x f + (v_new - v_old) * x i).
  { intros x Hi. unfold factor_sum.
    change (v m') with (setitem (v (fm s)) f (setitem vf i v_new)).
    rewrite nth_setitem, Nat.eqb_refl, (proj2 (Nat.ltb_lt _ _) Lf). cbn [andb].
    rewrite (sum_upto_setitem Rth) by assumption. rewrite Evf, Evo. reflexivity. }
  assert (ESQ : forall x : nat -> num, i < F ->
             factor_squares m' F x f
             = factor_squares (fm s) F x f
               + (v_new * v_new - v_old * v_old) * (x i * x i)).
  { intros x Hi. unfold factor_squares.
    change (v m') with (setitem (v (fm s)) f (setitem vf i v_new)).
    rewrite nth_setitem, Nat.eqb_refl, (proj2 (Nat.ltb_lt _ _) Lf). cbn [andb].
    rewrite Evf.
    rewrite (sum_upto_change_one Rth (f := i)
               (fun j => nth j vf zero * nth j vf zero * (x j * x j)))
      by (try exact Hi; intros j Hj; rewrite nth_setitem;
          rewrite (proj2 (Nat.eqb_neq j i) Hj); reflexivity).
    rewrite nth_setitem, Nat.eqb_refl, (proj2 (Nat.ltb_lt _ _) Li). cbn [andb].
    rewrite Evo. ring. }
  assert (Eother : forall (x : nat -> num) j, j <> f ->
             factor_sum m' F x j = factor_sum (fm s) F x j /\
             factor_squares m' F x j = factor_squares (fm s) F x j).
  { intros x j Hj. unfold factor_sum, factor_squares.
    change (v m') with (setitem (v (fm s)) f (setitem vf i v_new)).
    rewrite nth_setitem, (proj2 (Nat.eqb_neq j f) Hj). cbn [andb].
    split; reflexivity. }
  split.
  - intros k Hk. cbn [assign cache train fm fst snd] in *. fold m'.
    destruct (feature_row _ Htr Hx Hk) as [Hi Ex].
    rewrite nth_sub_row by lia.
    assert (Hn : NoDup (map fst x_li))
      by (rewrite (proj1 (getrow_tocsr _ _ Hx)); apply csr_row_of_nodup).
    rewrite (row_get_scale Rth), (h_term_get _ _ _ k Hn Hh), Ex, (Hq k Hk),
      (Hres k Hk).
    unfold spec_prediction.
    change (k0 m') with (k0 (fm s)). change (k1 m') with (k1 (fm s)).
    change (w0 m') with (w0 (fm s)). change (w m') with (w (fm s)).
    change (num_factor m') with (num_factor (fm s)).
    rewrite (sum_upto_change_one Rth (f := f)
               (fun f0 => half * (factor_sum (fm s) F (case_of (train s) k) f0
                                  * factor_sum (fm s) F (case_of (train s) k) f0)
                          - half * factor_squares (fm s) F (case_of (train s) k) f0)
               (fun f0 => half * (factor_sum m' F (case_of (train s) k) f0
                                  * factor_sum m' F (case_of (train s) k) f0)
                          - half * factor_squares m' F (case_of (train s) k) f0))
      by (try lia; intros j Hj;
          destruct (Eother (case_of (train s) k) j Hj) as [-> ->]; reflexivity).
    cbv beta. rewrite (EQ _ Hi), (ESQ _ Hi), (half_square_step _ _ _ _ _ half_half).
    ring.
  - intros k Hk. cbn [assign cache train fm fst snd] in *. fold m'.
    destruct (feature_row _ Htr Hx Hk) as [Hi Ex].
    rewrite nth_sub_row by lia.
    rewrite (row_get_scale Rth), Ex, (Hq k Hk), (EQ _ Hi). ring.
Qed.

Lemma config_flags (m m' : libFM num) :
  config m' = config m ->
  k0 m' = k0 m /\ k1 m' = k1 m /\ num_factor m' = num_factor m.
Proof. unfold config. intros H. injection H. intros. auto. Qed.

(** what a sweep's step keeps of the state it is given *)
Lemma sweep_step_keeps (s s' : MCMC_learn num rng) :
  updates sweep_attr s s' ->
  train s' = train s /\ k0 (fm s') = k0 (fm s) /\ k1 (fm s') = k1 (fm s) /\
  num_factor (fm s') = num_factor (fm s).
Proof.
  intros U.
  destruct (constants_bounds (updates_constants U)) as (_ & _ & _ & _ & Etr).
  destruct (config_flags (updates_config U)) as (A & B & C). auto.
Qed.

Lemma residuals_reads (F : nat) (s t : MCMC_learn num rng) :
  fm t = fm s -> train t = train s -> fst (cache t) = fst (cache s) ->
  residuals F s -> residuals F t.
Proof.
  intros Ef Etr Ec H k Hk. rewrite Ef, Etr, Ec in *. apply H. exact Hk.
Qed.

Ltac residuals_step :=
  eapply residuals_reads; [| | |eassumption]; reflexivity.

Lemma hyper_residuals (F : nat) (s s' : MCMC_learn num rng) :
  residuals F s ->
  s' = draw_alpha s \/
  draw_w_mu s = Ok s' \/ draw_w_lambda s = Ok s' \/
  draw_v_mu s = Ok s' \/ draw_v_lambda s = Ok s' ->
  residuals F s'.
Proof.
  intros Hs [H | [H | [H | [H | H]]]].
  - subst s'. unfold draw_alpha. destruct (negb (do_multilevel (fm s))).
    + residuals_step.
    + destruct (ran_gamma _ _ _). residuals_step.
  - unfold draw_w_mu in H. monad_inv; subst s'; residuals_step.
  - unfold draw_w_lambda in H. monad_inv; subst; try assumption; residuals_step.
  - unfold draw_v_mu in H. destruct (negb (do_multilevel (fm s))).
    + injection H as <-. residuals_step.
    + revert H. apply (foreach_invariant (residuals F)); [|exact Hs].
      intros f a a' Ha H. monad_inv; subst a'; residuals_step.
  - unfold draw_v_lambda in H. destruct (negb (do_multilevel (fm s))).
    + injection H as <-. exact Hs.
    + revert H. apply (foreach_invariant (residuals F)); [|exact Hs].
      intros f a a' Ha H. monad_inv; subst a'; residuals_step.
Qed.

Lemma draw_w_residuals (F : nat) mu lam (s s' : MCMC_learn num rng) :
  shaped F s -> k1 (fm s) = true -> residuals F s ->
  draw_w mu lam s = Ok s' -> residuals F s'.
Proof.
  intros Hs Hk1 Hres H. unfold draw_w in H. cbv zeta in H.
  assert (G : shaped F s' /\ k1 (fm s') = true /\ train s' = train s /\
              residuals F s'); [|tauto].
  revert H.
  apply (foreach_invariant
           (fun a => shaped F a /\ k1 (fm a) = true /\ train a = train s /\
                     residuals F a)); [|auto].
  intros i a a' (Ha & Hka & Eta & Hra) H.
  destruct (sweep_step_keeps (draw_w_i_updates _ _ _ _ _ H)) as (E1 & _ & E2 & _).
  split; [eapply draw_w_i_shaped; eassumption|].
  split; [congruence|]. split; [congruence|].
  rewrite <- Eta in H. eapply draw_w_i_residuals; eassumption.
Qed.

Lemma draw_all_factor_residuals (F f : nat) (s s' : MCMC_learn num rng) :
  shaped F s -> residuals F s -> f < Z.to_nat (num_factor (fm s)) ->
  draw_all_factor f s = Ok s' ->
  residuals F s' /\ q_terms F f s'.
Proof.
  intros Hs Hres Hf H. pose proof Hs as (Htr & _ & Hm & (L0 & L1 & _)).
  unfold draw_all_factor in H.
  bind_step H vf Hvf. bind_step H q Hq. bind_step H c1 Hc1.
  bind_step H mu_f Hmu_f. bind_step H mu_g Hmu_g.
  bind_step H lam_f Hlam_f. bind_step H lam_g Hlam_g.
  destruct (getitem_nth _ _ [] Hvf) as [Evf _]. subst vf.
  destruct (factor_product Rth Hm Htr Hf) as (q' & Hq' & Lq & Eq).
  rewrite Hq in Hq'. injection Hq' as <-.
  unfold np_zeros_like in Hc1.
  rewrite inplace_equal_length in Hc1 by (rewrite np_zeros_length; congruence).
  injection Hc1 as <-.
  set (a0 := assign s (Acache (fst (cache s),
                               map2 add (np_zeros (length (snd (cache s)))) q)))
    in *.
  assert (Sa : shaped F a0).
  { eapply shaped_reads; [| | | | | | | |exact Hs]; try reflexivity;
      [intros; assumption|].
    cbn [a0 assign cache cache_test fst snd].
    rewrite map2_same_length by (rewrite np_zeros_length; congruence).
    rewrite np_zeros_length. reflexivity. }
  assert (Ra : residuals F a0) by residuals_step.
  assert (Qa : q_terms F f a0).
  { intros k Hk. cbn [a0 assign cache train fm fst snd] in *.
    rewrite nth_map2 by (rewrite np_zeros_length; congruence || lia).
    rewrite nth_np_zeros, Eq. ring. }
  unfold draw_v in H. bind_step H vf' Hvf'.
  assert (G : shaped F s' /\ train s' = train a0 /\ residuals F s' /\
              q_terms F f s'); [|tauto].
  revert H.
  apply (foreach_invariant
           (fun a => shaped F a /\ train a = train a0 /\ residuals F a /\
                     q_terms F f a)); [|auto].
  intros i a a' (Ha & Eta & Hra & Hqa) H.
  destruct (sweep_step_keeps (draw_v_i_updates _ _ _ _ _ _ H)) as (E1 & _).
  split; [eapply draw_v_i_shaped; eassumption|].
  split; [congruence|].
  rewrite <- Eta in H. eapply draw_v_i_residuals; eassumption.
Qed.

Lemma draw_all_residuals (F : nat) (s s' : MCMC_learn num rng) :
  shaped F s -> residuals F s -> draw_all s = Ok s' -> residuals F s'.
Proof.
  intros Hs Hres H. unfold draw_all in H.
  assert (R0 : residuals F (draw_alpha s)) by (eapply hyper_residuals; eauto).
  assert (S0 : shaped F (draw_alpha s)) by (apply draw_alpha_shaped; exact Hs).
  bind_step H s1 H1. bind_step H s2 H2. bind_step H s3 H3.
  assert (P1 : shaped F s1 /\ residuals F s1).
  { destruct (k0 (fm (draw_alpha s))) eqn:Ek0.
    - split; [eapply draw_w0_shaped; eassumption|].
      eapply draw_w0_residuals; eassumption.
    - injection H1 as <-. auto. }
  destruct P1 as [S1 R1].
  assert (P2 : shaped F s2 /\ residuals F s2).
  { destruct (k1 (fm s1)) eqn:Ek1; [|injection H2 as <-; auto].
    bind_step H2 t1 Ht1. bind_step H2 t2 Ht2.
    bind_step H2 mu_g Hmu. bind_step H2 lam_g Hlam.
    assert (Q1 : shaped F t1) by (eapply hyper_shaped; eauto).
    assert (Q2 : shaped F t2) by (eapply hyper_shaped; eauto).
    assert (T1 : residuals F t1) by (eapply hyper_residuals; eauto 6).
    assert (T2 : residuals F t2) by (eapply hyper_residuals; eauto 6).
    assert (K2 : k1 (fm t2) = true).
    { destruct (sweep_step_keeps (draw_w_lambda_updates _ Ht1)) as (_ & _ & A & _).
      destruct (sweep_step_keeps (draw_w_mu_updates _ Ht2)) as (_ & _ & B & _).
      congruence. }
    split.
    - unfold draw_w in H2. revert H2.
      apply (foreach_invariant (shaped F)); [|exact Q2].
      intros i a a' Ha. apply draw_w_i_shaped. exact Ha.
    - eapply draw_w_residuals; eassumption. }
  destruct P2 as [S2 R2].
  assert (P3 : shaped F s3 /\ residuals F s3 /\
               num_factor (fm s3) = num_factor (fm s2)).
  { destruct (0 <? num_factor (fm s2))%Z; [|injection H3 as <-; auto].
    bind_step H3 t1 Ht1.
    assert (Q1 : shaped F t1) by (eapply hyper_shaped; eauto 6).
    assert (T1 : residuals F t1) by (eapply hyper_residuals; eauto 8).
    split; [eapply hyper_shaped; eauto 6|].
    split; [eapply hyper_residuals; eauto 8|].
    destruct (sweep_step_keeps (draw_v_lambda_updates _ Ht1)) as (_ & _ & _ & A).
    destruct (sweep_step_keeps (draw_v_mu_updates _ H3)) as (_ & _ & _ & B).
    congruence. }
  destruct P3 as (S3 & R3 & _).
  unfold xrange in H.
  assert (G : forall l a a',
             (forall f, In f l -> f < Z.to_nat (num_factor (fm s3))) ->
             shaped F a /\ residuals F a /\
             num_factor (fm a) = num_factor (fm s3) ->
             foreach l draw_all_factor a = Ok a' ->
             residuals F a').
  { induction l as [|f l IH]; intros a a' Hl (Sa & Ra & Na) Hrun;
      cbn [foreach] in Hrun.
    - injection Hrun as <-. exact Ra.
    - bind_step Hrun a1 Ha1.
      assert (Hf : f < Z.to_nat (num_factor (fm a)))
        by (rewrite Na; apply Hl; left; reflexivity).
      destruct (draw_all_factor_residuals Sa Ra Hf Ha1) as [R' _].
      apply (IH a1 a'); [intros f' Hf'; apply Hl; right; exact Hf'| |exact Hrun].
      split; [eapply draw_all_factor_shaped; eassumption|].
      split; [exact R'|].
      destruct (sweep_step_keeps (draw_all_factor_updates _ _ Ha1))
        as (_ & _ & _ & A).
      congruence. }
  apply (G (seq 0 (Z.to_nat (num_factor (fm s3)))) s3 s'); [|auto|exact H].
  intros f Hf. apply in_seq in Hf. lia.
Qed.

End Patches.

(** ** The example in exact arithmetic *)

Lemma Exact_start_invariant :
  shaped 2 Exact.start /\
  residuals (RO := Qc_ring) 2 Exact.start.
Proof.
  assert (Hs : shaped 2 Exact.sampler).
  { repeat split; try reflexivity. repeat constructor. }
  destruct (@recompute_formula Qc unit Qc_ring Qc_theory Qc_nonzero_exact 2
              Exact.sampler Hs)
    as (s1 & H1 & Ef & L & Lt & E & Et & s2 & H2 & Ef2 & E2).
  assert (Es : Ok s2 = Ok Exact.start).
  { rewrite <- H2.
    change (remove_target s1)
      with (s <- Ok s1 ;; remove_target s).
    rewrite <- H1. reflexivity. }
  injection Es as ->. split.
  - eapply remove_target_shaped; [|exact H2].
    eapply recompute_shaped; [exact Hs | exact H1].
  - intros k Hk. rewrite Ef2. exact (E2 k Hk).
Qed.

Section ExactPatches.
Context {num rng : Type} {S : Scalar num} {RS : RandomState num rng}.
Variable Rth : ring_theory zero one add mul sub opp (@eq num).
Add Ring num_ring_exact : Rth.
Variable nonzero_exact : forall x : num, nonzero x = false -> x = zero.
Hypothesis half_half : add (half : num) half = one.
Local Open Scope num_scope.

(** X14. The patch of [draw_w0] is exact.  In exact arithmetic, for a
    model with a bias, if row 0 of the train cache holds the residuals
    (prediction minus target) of the model before the draw, it holds the
    residuals of the model with the new bias after it, whatever value was
    drawn. *)
Theorem bias_patch_exact (F : nat) (s s' : MCMC_learn num rng) :
  k0 (fm s) = true -> residuals F s -> draw_w0 s = Ok s' -> residuals F s'.
Proof. apply draw_w0_residuals. exact Rth. Qed.

(** X15. The patches of [draw_w] are exact.  In exact arithmetic, for a
    model with linear terms on a sampler of consistent shapes, if row 0 of
    the train cache holds the residuals of the model before [draw_w], it
    holds the residuals of the model with all the new weights after it:
    subtracting [(w_old - w_new) * x_i] from the cases that store feature
    [i] is all a change of [w_i] does to the model equation. *)
Theorem linear_patch_exact (F : nat) (mu lam : list num)
        (s s' : MCMC_learn num rng) :
  shaped F s -> k1 (fm s) = true -> residuals F s ->
  draw_w mu lam s = Ok s' -> residuals F s'.
Proof. apply draw_w_residuals. exact Rth. Qed.

(** X16. The patches of [draw_v] are exact.  In exact arithmetic (the
    ring laws, 0.5 + 0.5 = 1, and a test for zero that only the zero of
    the ring fails, so that a product scipy does not store is zero),
    lines 296-302 of [draw_all] for a factor [f] of the
    model, run on a sampler of consistent shapes whose train cache holds
    the residuals in row 0, leave the residuals of the new model in row 0
    and the sums [q(c) = sum_i v_fi x_ci] of the new factor row in row 1,
    whatever row 1 held before. *)
Theorem factor_patch_exact (F f : nat) (s s' : MCMC_learn num rng) :
  shaped F s -> residuals F s -> f < Z.to_nat (num_factor (fm s)) ->
  draw_all_factor f s = Ok s' ->
  residuals F s' /\ q_terms F f s'.
Proof. apply draw_all_factor_residuals; assumption. Qed.

(** X17. A whole sweep keeps the cache consistent, so that in exact
    arithmetic (the ring laws, 0.5 + 0.5 = 1, and a test for zero that
    only the zero of the ring fails) the full recompute that follows it finds nothing to
    correct.  If row 0 of the train cache holds the residuals of the
    model when [draw_all] starts, it holds the residuals of the new model
    when [draw_all] returns; the recompute then succeeds and its row 0 is
    the row 0 the sweep left, with the targets added back. *)
Theorem sweep_keeps_residuals (F : nat) (s s' : MCMC_learn num rng) :
  shaped F s -> residuals F s -> draw_all s = Ok s' ->
  residuals F s' /\
  exists s2,
    predict_data_and_write_to_eterms s' = Ok s2 /\
    forall k, k < num_cases (train s) ->
      nth k (fst (cache s2)) zero
      = nth k (fst (cache s')) zero + nth k (target_value (train s)) zero.
Proof.
  intros Hs Hres H.
  pose proof (draw_all_residuals Rth nonzero_exact half_half Hs Hres H) as R'.
  pose proof (draw_all_shaped Hs H) as S'.
  destruct (sweep_step_keeps (draw_all_updates _ H)) as (Etr & _).
  split; [exact R'|].
  destruct (recompute_formula Rth nonzero_exact S') as (s2 & H2 & _ & _ & _ & E & _).
  exists s2. split; [exact H2|].
  intros k Hk. rewrite <- Etr in Hk |- *. rewrite (E k Hk), (R' k Hk).
  ring.
Qed.

End ExactPatches.

(** ** The hyperpriors of the weights, for the single group of [main] *)

Section SingleGroup.
Context {num rng : Type} {S : Scalar num} {RS : RandomState num rng}.
Local Open Scope num_scope.

Lemma bincount_fold (w : list num) (F : nat) (a : num) :
  length w = F ->
  fold_left (fun y gw => add_at (fst gw) (snd gw) y) (combine (repeat 0%nat F) w) [a]
  = [fold_left add w a].
Proof.
  revert F a. induction w as [|x w IH]; intros F a HF; destruct F as [|F];
    cbn [length] in HF; try discriminate HF.
  - reflexivity.
  - cbn [repeat combine fold_left fst snd add_at]. apply IH. lia.
Qed.

Lemma bincount_single_group (w : list num) (F : nat) :
  length w = F -> 0 < F ->
  np_bincount (repeat 0%nat F) w = Ok [np_sum w].
Proof.
  intros HF Hpos. unfold np_bincount.
  rewrite repeat_length, HF, Nat.eqb_refl.
  destruct F as [|F]; [lia|].
  replace (fold_left Nat.max (repeat 0%nat (Datatypes.S F)) 0%nat) with 0%nat.
  - cbn [repeat]. change (np_zeros 1) with [zero : num].
    change (0%nat :: repeat 0%nat F) with (repeat 0%nat (Datatypes.S F)).
    rewrite (bincount_fold w zero HF). reflexivity.
  - clear. generalize (Datatypes.S F). intros n.
    induction n as [|n IH]; cbn [repeat fold_left]; [reflexivity | exact IH].
Qed.

Lemma unique_single_group (F : nat) :
  0 < F -> np_unique (repeat 0%nat F) = [0%nat].
Proof.
  intros Hpos. destruct F as [|F]; [lia|]. unfold np_unique.
  replace (fold_left Nat.max (repeat 0%nat (Datatypes.S F)) 0%nat) with 0%nat.
  - reflexivity.
  - generalize (Datatypes.S F). intros n.
    induction n as [|n IH]; cbn [repeat fold_left]; [reflexivity | exact IH].
Qed.

Lemma take_single_group {A : Type} (x : A) (F : nat) :
  take [x] (repeat 0%nat F) = Ok (repeat x F).
Proof.
  induction F as [|F IH]; cbn [repeat take]; [reflexivity|].
  rewrite IH. reflexivity.
Qed.

Lemma map2_repeat (f : num -> num -> num) (w : list num) (y : num) (F : nat) :
  length w = F -> map2 f w (repeat y F) = map (fun x => f x y) w.
Proof.
  revert F. induction w as [|x w IH]; intros [|F] HF; cbn [length] in HF;
    try discriminate HF; cbn [repeat map2 map]; [reflexivity|].
  rewrite IH by lia. reflexivity.
Qed.

(** X18. [draw_w_lambda] for the one attribute group [DataMetaInfo]
    makes (lines 437-457), on a model with at least one attribute and
    hyperpriors on: it always succeeds, and the new precision of the
    weights is a Gamma variate of shape [(alpha_0 + F + 1) / 2] and rate
    [(beta_0 (mu - mu_0)^2 + gamma_0 + sum_i (w_i - mu)^2) / 2], [F] the
    number of attributes and [mu] the group's mean; without sampling it
    is the quotient of the two sums. *)
Theorem draw_w_lambda_single_group (F : nat) (mu : num) (s : MCMC_learn num rng) :
  meta s = DataMetaInfo_init F -> length (w (fm s)) = F -> 0 < F ->
  w_mu s = [mu] -> do_multilevel (fm s) = true ->
  let a := alpha_0 s + of_Z (Z.of_nat F) + one in
  let b := beta_0 s * (mu - mu_0 s) * (mu - mu_0 s) + gamma_0 s
           + np_sum (map (fun x => (x - mu) * (x - mu)) (w (fm s))) in
  exists s',
    draw_w_lambda s = Ok s' /\
    (w_lambda s', random s')
    = (if do_sample (fm s)
       then let (x, g) := gamma_shape_rate (a / two) (b / two) (random s) in
            ([x], g)
       else ([a / b], random s)) /\
    fm s' = fm s /\ cache s' = cache s /\ w_mu s' = w_mu s.
Proof.
  intros Hmeta HF Hpos Hmu Hml a b. unfold draw_w_lambda.
  rewrite Hml. cbn [negb]. cbv zeta. rewrite Hmeta, Hmu.
  cbn [DataMetaInfo_init attr_group num_attr_per_group].
  rewrite take_single_group. cbn [bind]. unfold squared_deviation, broadcast2.
  rewrite repeat_length, HF, Nat.eqb_refl. cbn [bind].
  rewrite (map2_repeat sub _ mu HF), map_map.
  rewrite bincount_single_group by (rewrite ?length_map; assumption).
  cbn [bind]. unfold lambda_gamma_prior, inplace. cbn [map length Nat.eqb map2 bind].
  rewrite (unique_single_group Hpos). cbn [take getitem nth_error bind map].
  fold a. fold b.
  destruct (do_sample (fm s)).
  - unfold ran_gamma_array. cbn [length Nat.eqb combine gamma_each].
    unfold gamma_shape_rate, ran_gamma.
    destruct (np_random_gamma (a / two) (one / (b / two)) (random s)) as [x g].
    cbn [bind fst snd]. eexists. split; [reflexivity|].
    cbn [assign w_lambda random fm cache w_mu]. repeat split; assumption.
  - cbn [length Nat.eqb map2 bind]. eexists. split; [reflexivity|].
    cbn [assign w_lambda random fm cache w_mu]. repeat split; assumption.
Qed.

(** X19. [draw_w_mu] for the one attribute group (lines 414-435), on a
    model with at least one attribute, hyperpriors on and one precision
    [lambda]: it always succeeds, and the new mean of the weights is
    drawn as [mean + sqrt var * z], [z] one standard normal variate, with
    [mean = (sum_i w_i + beta_0 mu_0) / (F + beta_0)] and
    [var = 1 / ((F + beta_0) lambda)]; without sampling it is that
    mean. *)
Theorem draw_w_mu_single_group (F : nat) (lam : num) (s : MCMC_learn num rng) :
  meta s = DataMetaInfo_init F -> length (w (fm s)) = F -> 0 < F ->
  w_lambda s = [lam] -> do_multilevel (fm s) = true ->
  let mean := (np_sum (w (fm s)) + beta_0 s * mu_0 s)
              / (of_Z (Z.of_nat F) + beta_0 s) in
  let var := one / ((of_Z (Z.of_nat F) + beta_0 s) * lam) in
  exists s',
    draw_w_mu s = Ok s' /\
    (w_mu s', random s')
    = (if do_sample (fm s)
       then let (x, g) := ran_gaussian mean (sqrt var) (random s) in ([x], g)
       else ([mean], random s)) /\
    fm s' = fm s /\ cache s' = cache s /\ w_lambda s' = w_lambda s.
Proof.
  intros Hmeta HF Hpos Hlam Hml mean var. unfold draw_w_mu.
  rewrite Hml. cbn [negb]. cbv zeta. rewrite Hmeta, Hlam.
  cbn [DataMetaInfo_init attr_group num_attr_per_group].
  rewrite (bincount_single_group _ HF Hpos). cbn [bind].
  rewrite (unique_single_group Hpos). cbn [take getitem nth_error bind map].
  unfold broadcast2. cbn [length Nat.eqb map2 bind map].
  fold mean. fold var.
  destruct (do_sample (fm s)).
  - unfold ran_gaussian_array, ran_gaussian.
    destruct (np_random_randn (random s)) as [z g].
    unfold broadcast2. cbn [map length Nat.eqb map2 bind fst snd].
    eexists. split; [reflexivity|].
    cbn [assign w_lambda random fm cache w_mu]. repeat split; assumption.
  - eexists. split; [reflexivity|].
    cbn [assign w_lambda random fm cache w_mu]. repeat split; assumption.
Qed.

End SingleGroup.

(** ** What a point-estimate run predicts *)

Section FinalPrediction.
Context {num rng : Type} {S : Scalar num} {RS : RandomState num rng}.
Variable Rth : ring_theory zero one add mul sub opp (@eq num).
Variable nonzero_exact : forall x : num, nonzero x = false -> x = zero.
Local Open Scope num_scope.

(** X20. In point-estimate mode (no sampling) and exact arithmetic (the
    ring laws, and a test for zero that only the zero of the ring fails),
    what [learn] saves is the prediction of the model it ends with: on a
    sampler of consistent shapes with at least one iteration, the entry
    of each test case in the returned vector is the model equation of the
    final [w0], [w], [v] at that case, clipped to the bounds of the
    training targets. *)
Theorem als_learn_predicts_final_model (F : nat) (s s' : MCMC_learn num rng)
        (l : list (num * num)) (pred : list num) :
  shaped F s -> do_sample (fm s) = false -> (0 < self_num_iter s)%Z ->
  learn s = Ok (s', l, pred) ->
  length pred = num_cases (test s) /\
  forall k, k < num_cases (test s) ->
    nth k pred zero
    = np_clip (self_min_target s) (self_max_target s)
              (spec_prediction (fm s') F (case_of (test s) k)).
Proof.
  intros Hs Hds Hit H.
  destruct (learn_inv _ H) as (Hreg & U & Hp).
  pose proof (updates_constants U) as C.
  destruct (constants_bounds C) as (Emin & Emax & _ & Ete & _).
  assert (Hds' : do_sample (fm s') = false).
  { rewrite (config_do_sample (updates_config U)). exact Hds. }
  assert (Hreg' : is_regression (task (fm s')) = true).
  { rewrite (config_task (updates_config U)). exact Hreg. }
  rewrite (predict_regression _ Hreg'), Hds' in Hp. cbv zeta in Hp.
  destruct (Nat.eqb_spec (num_cases (test s')) (length (pred_this s')))
    as [EL|]; [|discriminate Hp].
  injection Hp as <-. rewrite length_map, <- EL, Ete. split; [reflexivity|].
  intros k Hk. rewrite nth_map_in by congruence. rewrite Emin, Emax. f_equal.
  (* the last iteration *)
  pose proof H as H'. unfold learn in H'.
  bind_step H' s1 H1. bind_step H' s2 H2. bind_step H' sl Hsl.
  bind_step H' p Hp'. injection H' as E1 E2. subst sl.
  destruct (is_regression (task (fm s1))) eqn:R1; [|discriminate H2].
  assert (S0 : shaped F (assign s (Afm (set_regs (fm s) zero zero zero)))).
  { eapply shaped_reads; [| | | | | | | |exact Hs]; try reflexivity.
    intros; assumption. }
  assert (S2 : shaped F s2).
  { eapply remove_target_shaped; [|exact H2].
    eapply recompute_shaped; eassumption. }
  assert (U2 : updates any_attr s s2).
  { eapply updates_trans;
      [|eapply updates_mono; [apply cache_attr_any|];
        eapply remove_target_updates; exact H2].
    eapply updates_trans;
      [|eapply updates_mono; [apply cache_attr_any|];
        eapply recompute_updates; exact H1].
    updates_chain. }
  assert (En : self_num_iter s2 = self_num_iter s).
  { destruct (constants_bounds (updates_constants U2)) as (_ & _ & A & _).
    exact A. }
  unfold xrange in Hsl. rewrite En in Hsl.
  destruct (Z.to_nat (self_num_iter s)) as [|n] eqn:En'; [lia|].
  rewrite seq_S, foreach_app in Hsl. cbn [Nat.add] in Hsl.
  bind_step Hsl mid Hmid. cbn [foreach] in Hsl. bind_step Hsl fin Hfin.
  injection Hsl as ->. destruct mid as [sm lm].
  assert (Sm : shaped F sm).
  { change sm with (fst (sm, lm)). revert Hmid.
    apply (foreach_invariant (fun sl => shaped F (fst sl))); [|exact S2].
    intros i a a' Ha. apply learn_iteration_shaped. exact Ha. }
  assert (Um : updates any_attr s sm).
  { eapply updates_trans; [exact U2|].
    apply (learn_loop_updates _ _ Hmid). }
  assert (Rm : is_regression (task (fm sm)) = true).
  { rewrite (config_task (updates_config Um)). exact Hreg. }
  destruct (@learn_iteration_inv _ _ _ _ _ _ _ _ _ Rm Hfin)
    as (t1 & t2 & t3 & D1 & D2 & D3 & D4).
  pose proof (draw_all_shaped Sm D1) as St1.
  destruct (recompute_formula Rth nonzero_exact St1) as (t2' & D2' & Ef2 & _ & _ & _ & Et & _).
  rewrite D2 in D2'. injection D2' as <-.
  destruct (accumulate_test_keeps _ D3) as (_ & _ & _ & Ef3 & Ep3 & _).
  destruct (remove_target_keeps_preds _ D4) as (Ef4 & _ & Ep4).
  assert (Et1 : test t1 = test s).
  { destruct (constants_bounds (updates_constants (draw_all_updates _ D1)))
      as (_ & _ & _ & A & _).
    destruct (constants_bounds (updates_constants Um)) as (_ & _ & _ & B & _).
    congruence. }
  rewrite Ep4, Ep3, Ef4, Ef3, Ef2. rewrite <- Et1. apply Et.
  rewrite Et1. exact Hk.
Qed.

End FinalPrediction.

(** ** The residuals after a recompute (C1) *)

Section ResidualConversion.
Context {num rng : Type} {S : Scalar num} {RS : RandomState num rng}.
Variable Rth : ring_theory zero one add mul sub opp (@eq num).
Variable nonzero_exact : forall x : num, nonzero x = false -> x = zero.
Local Open Scope num_scope.



End ResidualConversion.

(** ** The properties on the examples *)


Lemma constructed_sampler_shaped_witness :
  match MCMC_learn_init (fst Demo.model_als) (DataMetaInfo_init 2)
                        Demo.train2 Demo.test1 (snd Demo.model_als) with
  | Ok s =>
      shaped 2 s /\ fm s = fst Demo.model_als /\ train s = Demo.train2 /\
      test s = Demo.test1 /\ random s = snd Demo.model_als /\
      cache s = (np_zeros (length Demo.train_file2),
                 np_zeros (length Demo.train_file2)) /\
      cache_test s = (np_zeros (length Demo.test_file),
                      np_zeros (length Demo.test_file)) /\
      pred_sum_all s = np_zeros (length Demo.test_file)
  | Raise e => e = ValueError /\ (num_factor (fst Demo.model_als) < 0)%Z
  end.
Proof.
  apply (@constructed_sampler_shaped B64.binary64 Demo.rng binary64_scalar
           Demo.rs binary64_inf Demo.train_file2 Demo.test_file 2 1
           [1; 1; 1]%Z [zero; zero; zero] (B64.ratio 1 10) "regression" als
           None Demo.tape (snd Demo.model_als) (DataMetaInfo_init 2)
           Demo.train2 Demo.test1 (fst Demo.model_als)).
  - vm_compute. reflexivity.
  - vm_compute. reflexivity.
  - vm_compute. reflexivity.
Defined.

Lemma als_learn_draws_nothing_witness :
  random (fst (fst Demo.learned)) = random Demo.fresh /\
  do_sample (fm (fst (fst Demo.learned))) = false /\
  do_multilevel (fm (fst (fst Demo.learned))) = false.
Proof.
  apply (@als_learn_draws_nothing B64.binary64 Demo.rng binary64_scalar Demo.rs
           Demo.fresh (fst (fst Demo.learned)) (snd (fst Demo.learned))
           (snd Demo.learned)).
  - reflexivity.
  - reflexivity.
  - vm_compute. reflexivity.
Defined.

Lemma sweep_leaves_test_side_witness :
  cache_test Demo.entering_recompute = cache_test Demo.entering_loop /\
  pred_sum_all Demo.entering_recompute = pred_sum_all Demo.entering_loop /\
  pred_this Demo.entering_recompute = pred_this Demo.entering_loop /\
  constants Demo.entering_recompute = constants Demo.entering_loop /\
  config (fm Demo.entering_recompute) = config (fm Demo.entering_loop).
Proof.
  apply (@sweep_leaves_test_side B64.binary64 Demo.rng binary64_scalar Demo.rs
           Demo.entering_loop Demo.entering_recompute).
  vm_compute. reflexivity.
Defined.

Lemma learn_outputs_witness :
  length (snd (fst Demo.learned)) = Z.to_nat (self_num_iter Demo.fresh) /\
  length (snd Demo.learned) = num_cases (test Demo.fresh) /\
  constants (fst (fst Demo.learned)) = constants Demo.fresh.
Proof.
  apply (@learn_outputs B64.binary64 Demo.rng binary64_scalar Demo.rs
           Demo.fresh (fst (fst Demo.learned)) (snd (fst Demo.learned))
           (snd Demo.learned)).
  vm_compute. reflexivity.
Defined.

Lemma learn_refuses_other_tasks_witness :
  match predict_data_and_write_to_eterms
          (assign Demo.classifier
                  (Afm (set_regs (fm Demo.classifier) zero zero zero))) with
  | Ok _ => learn (RS := Demo.rs) Demo.classifier
            = Raise (Exception "Unknown task")
  | Raise e => learn (RS := Demo.rs) Demo.classifier = Raise e
  end.
Proof.
  apply (@learn_refuses_other_tasks B64.binary64 Demo.rng binary64_scalar
           Demo.rs Demo.classifier).
  reflexivity.
Defined.

Lemma predict_output_clip_fixed_witness :
  map (np_clip (self_min_target (fst (fst Demo.learned)))
               (self_max_target (fst (fst Demo.learned))))
      (snd Demo.learned)
  = snd Demo.learned.
Proof.
  apply (@predict_output_clip_fixed Demo.rng (fst (fst Demo.learned))
           (snd Demo.learned)).
  - reflexivity.
  - vm_compute. reflexivity.
  - vm_compute. reflexivity.
Defined.

Lemma recompute_idempotent_witness :
  predict_data_and_write_to_eterms Demo.recomputed = Ok Demo.recomputed.
Proof.
  apply (@recompute_idempotent B64.binary64 Demo.rng binary64_ring
           Demo.entering_recompute Demo.recomputed).
  vm_compute. reflexivity.
Defined.

Lemma shapes_are_kept_witness :
  (forall s', draw_all (RS := Demo.rs) Demo.entering_loop = Ok s' ->
              shaped 2 s') /\
  (forall i l s' l',
      learn_iteration (RS := Demo.rs) i (Demo.entering_loop, l) = Ok (s', l') ->
      shaped 2 s') /\
  (forall s' l pred,
      learn (RS := Demo.rs) Demo.entering_loop = Ok (s', l, pred) ->
      shaped 2 s').
Proof.
  apply (@shapes_are_kept B64.binary64 Demo.rng binary64_scalar Demo.rs 2
           Demo.entering_loop).
  repeat split; try (vm_compute; reflexivity); repeat constructor.
Defined.

Lemma bias_patch_exact_witness :
  residuals (RO := Qc_ring) 2 Exact.after_w0.
Proof.
  apply (@bias_patch_exact Qc unit Qc_scalar Exact.rs Qc_theory 2
           Exact.start Exact.after_w0).
  - reflexivity.
  - exact (proj2 Exact_start_invariant).
  - vm_compute. reflexivity.
Defined.

Lemma linear_patch_exact_witness :
  residuals (RO := Qc_ring) 2 Exact.after_w.
Proof.
  apply (@linear_patch_exact Qc unit Qc_scalar Exact.rs Qc_theory 2
           [Exact.q 0; Exact.q 0] [Exact.q 1; Exact.q 1]
           Exact.start Exact.after_w).
  - exact (proj1 Exact_start_invariant).
  - reflexivity.
  - exact (proj2 Exact_start_invariant).
  - vm_compute. reflexivity.
Defined.

Lemma factor_patch_exact_witness :
  residuals (RO := Qc_ring) 2 Exact.after_factor /\
  q_terms (RO := Qc_ring) 2 0 Exact.after_factor.
Proof.
  apply (@factor_patch_exact Qc unit Qc_scalar Exact.rs Qc_theory
           Qc_nonzero_exact Qc_half_half 2 0 Exact.start Exact.after_factor).
  - exact (proj1 Exact_start_invariant).
  - exact (proj2 Exact_start_invariant).
  - exact (le_n 1).
  - vm_compute. reflexivity.
Defined.

Lemma sweep_keeps_residuals_witness :
  residuals (RO := Qc_ring) 2 Exact.after_sweep /\
  exists s2,
    predict_data_and_write_to_eterms Exact.after_sweep = Ok s2 /\
    forall k, k < num_cases (train Exact.start) ->
      nth k (fst (cache s2)) zero
      = add (nth k (fst (cache Exact.after_sweep)) zero)
            (nth k (target_value (train Exact.start)) zero).
Proof.
  apply (@sweep_keeps_residuals Qc unit Qc_scalar Exact.rs Qc_theory
           Qc_nonzero_exact Qc_half_half 2 Exact.start Exact.after_sweep).
  - exact (proj1 Exact_start_invariant).
  - exact (proj2 Exact_start_invariant).
  - vm_compute. reflexivity.
Defined.

Lemma draw_w_lambda_single_group_witness :
  exists s',
    draw_w_lambda (RS := Demo.rs) Demo.fresh_mcmc = Ok s' /\
    fm s' = fm Demo.fresh_mcmc /\ cache s' = cache Demo.fresh_mcmc.
Proof.
  destruct (@draw_w_lambda_single_group B64.binary64 Demo.rng binary64_scalar
              Demo.rs 2 zero Demo.fresh_mcmc)
    as (s' & H & _ & Ef & Ec & _).
  - reflexivity.
  - reflexivity.
  - lia.
  - reflexivity.
  - reflexivity.
  - exists s'. auto.
Defined.

Lemma draw_w_mu_single_group_witness :
  exists s',
    draw_w_mu (RS := Demo.rs) Demo.fresh_mcmc = Ok s' /\
    fm s' = fm Demo.fresh_mcmc /\ cache s' = cache Demo.fresh_mcmc.
Proof.
  destruct (@draw_w_mu_single_group B64.binary64 Demo.rng binary64_scalar
              Demo.rs 2 (nth 0 (w_lambda Demo.fresh_mcmc) zero)
              Demo.fresh_mcmc)
    as (s' & H & _ & Ef & Ec & _).
  - reflexivity.
  - reflexivity.
  - lia.
  - vm_compute. reflexivity.
  - reflexivity.
  - exists s'. auto.
Defined.

Lemma als_learn_predicts_final_model_witness :
  length (snd Exact.learned) = num_cases (test Exact.sampler) /\
  forall k, k < num_cases (test Exact.sampler) ->
    nth k (snd Exact.learned) zero
    = np_clip (S := Qc_scalar) (self_min_target Exact.sampler)
              (self_max_target Exact.sampler)
              (spec_prediction (fm (fst (fst Exact.learned))) 2
                               (case_of (test Exact.sampler) k)).
Proof.
  apply (@als_learn_predicts_final_model Qc unit Qc_scalar Exact.rs Qc_theory
           Qc_nonzero_exact 2 Exact.sampler (fst (fst Exact.learned))
           (snd (fst Exact.learned)) (snd Exact.learned)).
  - repeat split; try reflexivity. repeat constructor.
  - reflexivity.
  - reflexivity.
  - vm_compute. reflexivity.
Defined.
